(** * postgres-backup: orchestration of fleet-wide dump/upload and
      list/download/restore runs

    Shallow embedding of the two Go programs of the repository
    (the backup program and [restore/main.go]) together with the parts of
    the Go standard library and of the collaborators (clock, catalog,
    subprocesses, object store, local files) that the programs observe. *)

From Stdlib Require Import ZArith NArith Lia DecimalString DecimalN.
From stdpp Require Import base gmap strings list.

#[local] Set Warnings "-clear-no-such-hyp".
Local Open Scope Z_scope.

(** ** Go runtime and standard library fragments *)

Module Go.

(** A Go [string] is a byte sequence; [len] and slicing count bytes. *)
Definition len (s : string) : Z := Z.of_nat (String.length s).

(** Go [error] values are represented by their message. *)
Definition error := string.

(** The newline byte written by a [\n] escape. *)
Definition nl : string := String (Ascii.ascii_of_nat 10) EmptyString.

Definition slash : Ascii.ascii := Ascii.ascii_of_nat 47.

(** [s[:hi]]: the simple slice expression with the low bound omitted.
    Out-of-range bounds raise a run-time panic, rendered as [None]. *)
Definition slice_to (s : string) (hi : Z) : option string :=
  if (hi <? 0) || (len s <? hi) then None
  else Some (String.substring 0 (Z.to_nat hi) s).

(** [strconv.FormatUint(n, 10)]. *)
Definition FormatUint (n : N) : string :=
  NilEmpty.string_of_uint (N.to_uint n).

(** [fmt.Sprintf("%d", x)] / [strconv.Itoa]. *)
Definition Itoa (x : Z) : string :=
  if x <? 0 then "-" +:+ FormatUint (Z.to_N (- x)) else FormatUint (Z.to_N x).

Fixpoint zeros (k : nat) : string :=
  match k with
  | O => EmptyString
  | S k' => String (Ascii.ascii_of_nat 48) (zeros k')
  end.

(** [time.appendInt]: decimal rendering, sign first, left-padded with
    zeros up to [width] digits; wider values are never truncated. *)
Definition appendInt (x : Z) (width : nat) : string :=
  let digits := FormatUint (Z.to_N (Z.abs x)) in
  (if x <? 0 then "-" else EmptyString)
    +:+ zeros (width - String.length digits) +:+ digits.

(** The fields of a [time.Time] that the programs read.  The calendar
    fields are those of the local civil time and obey the usual ranges;
    the year is unconstrained, as in Go. *)
Definition civil_ok (month day hour minute second : nat) : bool :=
  (1 <=? month)%nat && (month <=? 12)%nat && (1 <=? day)%nat && (day <=? 31)%nat
  && (hour <? 24)%nat && (minute <? 60)%nat && (second <? 60)%nat.

Record Time := mkTime {
  Year : Z;
  Month : nat;
  Day : nat;
  Hour : nat;
  Minute : nat;
  Second : nat;
  Unix : Z;
  Time_ok : civil_ok Month Day Hour Minute Second = true
}.

(** [t.Format("20060102_150405")]. *)
Definition Format (t : Time) : string :=
  appendInt (Year t) 4 +:+ appendInt (Z.of_nat (Month t)) 2
    +:+ appendInt (Z.of_nat (Day t)) 2 +:+ "_"
    +:+ appendInt (Z.of_nat (Hour t)) 2 +:+ appendInt (Z.of_nat (Minute t)) 2
    +:+ appendInt (Z.of_nat (Second t)) 2.

(** *** [path/filepath] on Unix *)

(** [strings.Split(s, "/")]. *)
Fixpoint split (s : string) : list string :=
  match s with
  | EmptyString => [EmptyString]
  | String c r =>
      if Ascii.eqb c slash then EmptyString :: split r
      else match split r with
           | x :: xs => String c x :: xs
           | [] => [String c EmptyString]
           end
  end.

(** [strings.Join(elems, "/")]. *)
Fixpoint join (elems : list string) : string :=
  match elems with
  | [] => EmptyString
  | [x] => x
  | x :: rest => x +:+ "/" +:+ join rest
  end.

Definition rooted (path : string) : bool :=
  match path with
  | String c _ => Ascii.eqb c slash
  | EmptyString => false
  end.

(** One path element processed by [filepath.Clean]; [out] is the stack of
    elements kept so far, innermost first. *)
Definition clean_step (is_rooted : bool) (out : list string) (e : string)
  : list string :=
  if String.eqb e EmptyString || String.eqb e "." then out
  else if String.eqb e ".." then
    match out with
    | top :: rest => if String.eqb top ".." then e :: out else rest
    | [] => if is_rooted then out else [e]
    end
  else e :: out.

(** [filepath.Clean]. *)
Definition Clean (path : string) : string :=
  if String.eqb path EmptyString then "."
  else
    let out := fold_left (clean_step (rooted path)) (split path) [] in
    let r := (if rooted path then "/" else EmptyString) +:+ join (rev out) in
    if String.eqb r EmptyString then "." else r.

(** [filepath.Join] of two elements. *)
Definition Join (a b : string) : string :=
  if negb (String.eqb a EmptyString) then Clean (a +:+ "/" +:+ b)
  else if negb (String.eqb b EmptyString) then Clean b
  else EmptyString.

Fixpoint last_nonempty (elems : list string) : option string :=
  match elems with
  | [] => None
  | x :: rest =>
      match last_nonempty rest with
      | Some y => Some y
      | None => if String.eqb x EmptyString then None else Some x
      end
  end.

(** [filepath.Base]: the last element of the path, trailing separators
    removed; ["."] for the empty path and ["/"] for a path of separators
    only. *)
Definition Base (path : string) : string :=
  if String.eqb path EmptyString then "."
  else match last_nonempty (split path) with
       | Some x => x
       | None => "/"
       end.

(** [strings.HasPrefix]. *)
Definition HasPrefix (s prefix : string) : bool := String.prefix prefix s.

End Go.

(** ** The collaborators: clock, catalog, subprocesses, object store, files *)

Module World.
Import Go.

Inductive ACL := ObjectCannedACLPrivate.

(** What a finished subprocess leaves behind: the error of [cmd.Run()]
    (if any) and the local files it created. *)
Record ExecResult := mkExec {
  exit_error : option error;
  created : list string
}.

Inductive ScanResult :=
| ScanOk (datname : string)
| ScanErr (e : error).

(** The behaviour of a [*sql.Rows] cursor: each [rows.Next()] either
    delivers a row (whose [Scan] succeeds or fails) or returns [false],
    in which case [rows.Err()] tells a regular end ([None]) from an error
    that interrupted the iteration. *)
Inductive Rows :=
| RowsEnd (err : option error)
| RowsNext (scan : ScanResult) (rest : Rows).

Inductive QueryResult :=
| QueryErr (e : error)
| QueryRows (rows : Rows).

(** Observable actions, in program order. *)
Inductive Event :=
| Stdout (s : string)
| LogPrintf (s : string)
| LogFatalf (s : string)
| Setenv (key value : string)
| SqlOpen (driver connStr : string)
| DbQuery (query : string)
| RowsClose
| DbClose
| Exec (argv : list string) (r : ExecResult)
| LoadDefaultConfig (region : string) (err : option error)
| OsOpen (path : string) (err : option error)
| OsCreate (path : string) (err : option error)
| FileClose (path : string)
| PutObject (bucket key body : string) (acl : ACL) (err : option error)
| ListObjectsV2 (bucket prefix : string) (err : option error)
| Download (bucket key dest : string) (err : option error)
| OsRemove (path : string)
| RuntimePanic (msg : string).

(** The outcome of a Go function that may panic instead of returning. *)
Inductive Outcome (A : Type) :=
| Returned (a : A)
| Panicked (msg : string).
Arguments Returned {A} a.
Arguments Panicked {A} msg.

(** One response of the object store to [ListObjectsV2]. *)
Record ListObjectsV2Output := mkPage {
  Contents : list string;
  IsTruncated : bool
}.

(** The object store returns at most this many keys per listing call when
    the request sets no [MaxKeys]. *)
Definition MaxKeys : nat := 1000.

(** The page answering a listing request without continuation token:
    the first [MaxKeys] keys with the requested prefix, in the store's
    listing order, flagged as truncated when more remain. *)
Definition first_page (keys : list string) (prefix : string)
  : ListObjectsV2Output :=
  let matching := List.filter (fun k => HasPrefix k prefix) keys in
  mkPage (take MaxKeys matching) (MaxKeys <? length matching)%nat.

(** The environment answers every external call; an answer may depend on
    everything that happened before (the trace so far).  [s3_keys b] are
    the object keys of bucket [b] in listing order. *)
Record Env := mkEnv {
  environ : string -> string;
  clock : list Event -> Time;
  sql_open : list Event -> string -> option error;
  db_query : list Event -> string -> QueryResult;
  cmd_run : list Event -> list string -> ExecResult;
  config_load : list Event -> string -> option error;
  os_open : list Event -> string -> option error;
  os_create : list Event -> string -> option error;
  s3_put : list Event -> string -> string -> string -> option error;
  s3_keys : string -> list string;
  s3_list : list Event -> string -> string -> option error;
  s3_get : list Event -> string -> string -> option error
}.

(** Process state: the trace, the local files present, and the variables
    set by [os.Setenv]. *)
Record State := mkState {
  trace : list Event;
  fs : gset string;
  penv : gmap string string
}.

Definition initial (files : gset string) : State := mkState [] files ∅.

Definition M (A : Type) : Type := State -> A * State.

Definition ret {A} (a : A) : M A := fun st => (a, st).

Definition bind {A B} (c : M A) (k : A -> M B) : M B :=
  fun st => let (a, st') := c st in k a st'.

Definition emit (e : Event) : M unit :=
  fun st => (tt, mkState (trace st ++ [e]) (fs st) (penv st)).

Definition history : M (list Event) := fun st => (trace st, st).

Definition add_files (paths : list string) : M unit :=
  fun st => (tt, mkState (trace st) (fs st ∪ list_to_set paths) (penv st)).

Definition del_file (path : string) : M unit :=
  fun st => (tt, mkState (trace st) (fs st ∖ {[ path ]}) (penv st)).

Definition set_var (key value : string) : M unit :=
  fun st => (tt, mkState (trace st) (fs st) (<[key := value]> (penv st))).

Definition get_var (environ : string -> string) (key : string) : M string :=
  fun st => (default (environ key) (penv st !! key), st).

End World.

Declare Scope go_scope.
Delimit Scope go_scope with go.
Notation "x <- c ;; k" := (World.bind c (fun x => k))
  (at level 20, c at level 99, k at level 200, only parsing) : go_scope.
Notation "' pat <- c ;; k" :=
  (World.bind c (fun x => match x with pat => k end))
  (at level 20, pat pattern, c at level 99, k at level 200, only parsing)
  : go_scope.
Local Open Scope go_scope.

(** ** Library calls shared by the two programs *)

Module Lib.
Import Go World.

Section WithEnv.
Variable env : Env.

(** [os.Setenv]. *)
Definition os_Setenv (key value : string) : M unit :=
  _ <- emit (Setenv key value) ;; set_var key value.

(** [os.Getenv]: the empty string when the variable is unset. *)
Definition os_Getenv (key : string) : M string := get_var (environ env) key.

(** [os.TempDir] on Unix: [$TMPDIR], or [/tmp] when that is empty. *)
Definition temp_dir (dir : string) : string :=
  if String.eqb dir EmptyString then "/tmp" else dir.

Definition os_TempDir : M string :=
  dir <- os_Getenv "TMPDIR" ;; ret (temp_dir dir).

(** [time.Now]. *)
Definition time_Now : M Time :=
  h <- history ;; ret (clock env h).

(** [exec.Command(argv...).Run()] with the process's own stdout/stderr. *)
Definition exec_Run (argv : list string) : M (option error) :=
  h <- history ;;
  let r := cmd_run env h argv in
  _ <- emit (Exec argv r) ;;
  _ <- add_files (created r) ;;
  ret (exit_error r).

(** [config.LoadDefaultConfig(ctx, config.WithRegion(region))]. *)
Definition config_LoadDefaultConfig (region : string) : M (option error) :=
  h <- history ;;
  let r := config_load env h region in
  _ <- emit (LoadDefaultConfig region r) ;; ret r.

(** [os.Remove]; its error is dropped by both programs.  The model takes
    the removal to succeed. *)
Definition os_Remove (path : string) : M unit :=
  _ <- emit (OsRemove path) ;; del_file path.

(** Deferred [os.Remove] calls run last-in-first-out when the function
    returns or panics; [deferred] has the most recent call first. *)
Fixpoint run_deferred (deferred : list string) : M unit :=
  match deferred with
  | [] => ret tt
  | path :: rest => _ <- os_Remove path ;; run_deferred rest
  end.

End WithEnv.
End Lib.

(** ** The backup program *)

Module Backup.
Import Go World Lib.

Section WithEnv.
Variable env : Env.

(** The file name built in [backupDatabase]:
    [fmt.Sprintf("%s_backup_%s.sql", dbName, time.Now().Format("20060102_150405"))]. *)
Definition encode (dbName : string) (t : Time) : string :=
  dbName +:+ "_backup_" +:+ Format t +:+ ".sql".

(** The row loop of [getDatabaseList].  When [rows.Next()] returns false
    the loop ends and the names read so far are returned with a nil
    error: [rows.Err()] is never consulted. *)
Fixpoint scanRows (rows : Rows) (databases : list string)
  : list string * option error :=
  match rows with
  | RowsEnd _ => (databases, None)
  | RowsNext (ScanErr e) _ =>
      ([], Some ("failed to scan database name: " +:+ e))
  | RowsNext (ScanOk dbName) rest => scanRows rest (databases ++ [dbName])
  end.

Definition getDatabaseList (dbHost : string) (dbPort : Z)
    (dbUser dbPassword : string) : M (list string * option error) :=
  let connStr := "host=" +:+ dbHost +:+ " port=" +:+ Itoa dbPort
    +:+ " user=" +:+ dbUser +:+ " password=" +:+ dbPassword
    +:+ " dbname=postgres sslmode=disable" in
  h <- history ;;
  _ <- emit (SqlOpen "postgres" connStr) ;;
  match sql_open env h connStr with
  | Some e => ret ([], Some ("failed to connect to PostgreSQL: " +:+ e))
  | None =>
      let q := "SELECT datname FROM pg_database WHERE datistemplate = false;" in
      h <- history ;;
      _ <- emit (DbQuery q) ;;
      match db_query env h q with
      | QueryErr e =>
          _ <- emit DbClose ;;
          ret ([], Some ("failed to query databases: " +:+ e))
      | QueryRows rows =>
          let r := scanRows rows [] in
          _ <- emit RowsClose ;;
          _ <- emit DbClose ;;
          ret r
      end
  end.

Definition backupDatabase (dbName dbUser dbPassword dbHost : string)
    (dbPort : Z) : M (string * option error) :=
  _ <- os_Setenv "PGPASSWORD" dbPassword ;;
  now <- time_Now env ;;
  let backupFilename := encode dbName now in
  tmp <- os_TempDir env ;;
  let backupFilePath := Join tmp backupFilename in
  err <- exec_Run env ["pg_dump"; "-h"; dbHost; "-p"; Itoa dbPort;
                        "-U"; dbUser; "-F"; "c"; "-f"; backupFilePath; dbName] ;;
  match err with
  | Some e => ret (EmptyString, Some ("failed to backup database: " +:+ e))
  | None => ret (backupFilePath, None)
  end.

Definition uploadToS3 (backupFilePath s3Bucket s3KeyPrefix region : string)
  : M (option error) :=
  err <- config_LoadDefaultConfig env region ;;
  match err with
  | Some e => ret (Some ("unable to load AWS config: " +:+ e))
  | None =>
      h <- history ;;
      let r := os_open env h backupFilePath in
      _ <- emit (OsOpen backupFilePath r) ;;
      match r with
      | Some e => ret (Some ("failed to open backup file: " +:+ e))
      | None =>
          let backupFilename := Base backupFilePath in
          let s3Key := s3KeyPrefix +:+ "/" +:+ backupFilename in
          h <- history ;;
          let r := s3_put env h s3Bucket s3Key backupFilePath in
          _ <- emit (PutObject s3Bucket s3Key backupFilePath
                       ObjectCannedACLPrivate r) ;;
          match r with
          | Some e =>
              _ <- emit (FileClose backupFilePath) ;;
              ret (Some ("failed to upload to S3: " +:+ e))
          | None =>
              _ <- emit (Stdout ("Backup successful: " +:+ backupFilename
                           +:+ " uploaded to s3://" +:+ s3Bucket +:+ "/"
                           +:+ s3Key +:+ nl)) ;;
              _ <- emit (FileClose backupFilePath) ;;
              ret None
          end
      end
  end.

(** The [for _, dbName := range databases] loop of
    [backupAllDatabasesToS3]; [deferred] collects the arguments of the
    [defer os.Remove(backupFilePath)] statements executed so far. *)
Fixpoint backupLoop (dbHost : string) (dbPort : Z)
    (dbUser dbPassword s3Bucket s3KeyPrefix region : string)
    (databases : list string) (deferred : list string) : M (list string) :=
  match databases with
  | [] => ret deferred
  | dbName :: rest =>
      _ <- emit (Stdout ("Backing up database: " +:+ dbName +:+ nl)) ;;
      '(backupFilePath, err) <-
         backupDatabase dbName dbUser dbPassword dbHost dbPort ;;
      match err with
      | Some e =>
          _ <- emit (LogPrintf ("Failed to backup database " +:+ dbName
                       +:+ ": " +:+ e)) ;;
          backupLoop dbHost dbPort dbUser dbPassword s3Bucket s3KeyPrefix
            region rest deferred
      | None =>
          let deferred := backupFilePath :: deferred in
          err <- uploadToS3 backupFilePath s3Bucket s3KeyPrefix region ;;
          match err with
          | Some e =>
              _ <- emit (LogPrintf ("Failed to upload backup for database "
                           +:+ dbName +:+ ": " +:+ e)) ;;
              backupLoop dbHost dbPort dbUser dbPassword s3Bucket s3KeyPrefix
                region rest deferred
          | None =>
              backupLoop dbHost dbPort dbUser dbPassword s3Bucket s3KeyPrefix
                region rest deferred
          end
      end
  end.

Definition backupAllDatabasesToS3 (dbHost : string) (dbPort : Z)
    (dbUser dbPassword s3Bucket s3KeyPrefix region : string)
  : M (option error) :=
  '(databases, err) <- getDatabaseList dbHost dbPort dbUser dbPassword ;;
  match err with
  | Some e => ret (Some e)
  | None =>
      deferred <- backupLoop dbHost dbPort dbUser dbPassword s3Bucket
                    s3KeyPrefix region databases [] ;;
      _ <- run_deferred deferred ;;
      ret None
  end.

(** [main]; the result is the exit status of the process. *)
Definition main : M Z :=
  let dbHost := "localhost" in
  let dbPort := 5432 in
  let dbUser := "postgres" in
  let dbPassword := "postgres" in
  let s3Bucket := "kmf-db" in
  now <- time_Now env ;;
  let s3KeyPrefix := Itoa (Unix now) in
  let region := "ap-south-1" in
  err <- backupAllDatabasesToS3 dbHost dbPort dbUser dbPassword s3Bucket
           s3KeyPrefix region ;;
  match err with
  | Some e => _ <- emit (LogFatalf ("Error: " +:+ e)) ;; ret 1
  | None => ret 0
  end.

End WithEnv.
End Backup.

(** ** The restore program *)

Module Restore.
Import Go World Lib.

Section WithEnv.
Variable env : Env.

(** The database name cut out of a file name in
    [restoreAllDatabasesFromS3]:
    [backupFilename[:len(backupFilename)-27]]. *)
Definition decode (backupFilename : string) : option string :=
  slice_to backupFilename (len backupFilename - 27).

Definition listS3BackupFiles (s3Bucket s3KeyPrefix region : string)
  : M (list string * option error) :=
  err <- config_LoadDefaultConfig env region ;;
  match err with
  | Some e => ret ([], Some ("unable to load AWS config: " +:+ e))
  | None =>
      h <- history ;;
      let r := s3_list env h s3Bucket s3KeyPrefix in
      _ <- emit (ListObjectsV2 s3Bucket s3KeyPrefix r) ;;
      match r with
      | Some e => ret ([], Some ("failed to list objects in S3 bucket: " +:+ e))
      | None =>
          let output := first_page (s3_keys env s3Bucket) s3KeyPrefix in
          ret (fold_left (fun files key => files ++ [key]) (Contents output) [],
               None)
      end
  end.

Definition downloadFromS3 (s3Bucket s3Key destinationPath region : string)
  : M (option error) :=
  err <- config_LoadDefaultConfig env region ;;
  match err with
  | Some e => ret (Some ("unable to load AWS config: " +:+ e))
  | None =>
      h <- history ;;
      let r := os_create env h destinationPath in
      _ <- emit (OsCreate destinationPath r) ;;
      match r with
      | Some e =>
          ret (Some ("failed to create file " +:+ destinationPath +:+ ": " +:+ e))
      | None =>
          _ <- add_files [destinationPath] ;;
          h <- history ;;
          let r := s3_get env h s3Bucket s3Key in
          _ <- emit (Download s3Bucket s3Key destinationPath r) ;;
          match r with
          | Some e =>
              _ <- emit (FileClose destinationPath) ;;
              ret (Some ("failed to download file from S3: " +:+ e))
          | None =>
              _ <- emit (Stdout ("Downloaded backup from s3://" +:+ s3Bucket
                           +:+ "/" +:+ s3Key +:+ " to " +:+ destinationPath
                           +:+ nl)) ;;
              _ <- emit (FileClose destinationPath) ;;
              ret None
          end
      end
  end.

(** The argument vector of the [pg_restore] subprocess. *)
Definition restore_argv (dbName dbUser dbHost : string) (dbPort : Z)
    (backupFilePath : string) : list string :=
  ["pg_restore"; "-h"; dbHost; "-p"; Itoa dbPort; "-U"; dbUser;
   "-d"; dbName; "-c"; "-F"; "c"; backupFilePath].

Definition restoreDatabase (dbName dbUser dbPassword dbHost : string)
    (dbPort : Z) (backupFilePath : string) : M (option error) :=
  _ <- os_Setenv "PGPASSWORD" dbPassword ;;
  err <- exec_Run env (restore_argv dbName dbUser dbHost dbPort backupFilePath) ;;
  match err with
  | Some e =>
      ret (Some ("failed to restore database " +:+ dbName +:+ ": " +:+ e))
  | None =>
      _ <- emit (Stdout ("Database " +:+ dbName +:+ " restored successfully from "
                   +:+ backupFilePath +:+ nl)) ;;
      ret None
  end.

(** The [for _, s3Key := range backupFiles] loop of
    [restoreAllDatabasesFromS3].  The second component is the message of
    the run-time panic that ended the loop, if any. *)
Fixpoint restoreLoop (dbHost : string) (dbPort : Z)
    (dbUser dbPassword s3Bucket region : string)
    (backupFiles : list string) (deferred : list string)
  : M (list string * option string) :=
  match backupFiles with
  | [] => ret (deferred, None)
  | s3Key :: rest =>
      _ <- emit (Stdout ("Processing backup file: " +:+ s3Key +:+ nl)) ;;
      let backupFilename := Base s3Key in
      tmp <- os_TempDir env ;;
      let backupFilePath := Join tmp backupFilename in
      err <- downloadFromS3 s3Bucket s3Key backupFilePath region ;;
      match err with
      | Some e =>
          _ <- emit (LogPrintf ("Failed to download backup file " +:+ s3Key
                       +:+ ": " +:+ e)) ;;
          restoreLoop dbHost dbPort dbUser dbPassword s3Bucket region rest
            deferred
      | None =>
          let deferred := backupFilePath :: deferred in
          match decode backupFilename with
          | None =>
              ret (deferred,
                   Some ("runtime error: slice bounds out of range [:"
                           +:+ Itoa (len backupFilename - 27) +:+ "]"))
          | Some dbName =>
              err <- restoreDatabase dbName dbUser dbPassword dbHost dbPort
                       backupFilePath ;;
              match err with
              | Some e =>
                  _ <- emit (LogPrintf ("Failed to restore database "
                               +:+ dbName +:+ ": " +:+ e)) ;;
                  restoreLoop dbHost dbPort dbUser dbPassword s3Bucket region
                    rest deferred
              | None =>
                  restoreLoop dbHost dbPort dbUser dbPassword s3Bucket region
                    rest deferred
              end
          end
      end
  end.

Definition restoreAllDatabasesFromS3 (dbHost : string) (dbPort : Z)
    (dbUser dbPassword s3Bucket s3KeyPrefix region : string)
  : M (Outcome (option error)) :=
  '(backupFiles, err) <- listS3BackupFiles s3Bucket s3KeyPrefix region ;;
  match err with
  | Some e => ret (Returned (Some e))
  | None =>
      '(deferred, panic) <- restoreLoop dbHost dbPort dbUser dbPassword
                              s3Bucket region backupFiles [] ;;
      _ <- run_deferred deferred ;;
      match panic with
      | Some msg => ret (Panicked msg)
      | None => ret (Returned None)
      end
  end.

(** [main]; the result is the exit status of the process: 1 after
    [log.Fatalf], 2 after an unrecovered panic. *)
Definition main : M Z :=
  let dbHost := "localhost" in
  let dbPort := 5432 in
  let dbUser := "postgres" in
  let dbPassword := "postgres" in
  let s3Bucket := "kmf-db" in
  let region := "ap-south-1" in
  s3KeyPrefix <- os_Getenv env "S3_DIR" ;;
  r <- restoreAllDatabasesFromS3 dbHost dbPort dbUser dbPassword s3Bucket
         s3KeyPrefix region ;;
  match r with
  | Returned (Some e) => _ <- emit (LogFatalf ("Error: " +:+ e)) ;; ret 1
  | Returned None => ret 0
  | Panicked msg => _ <- emit (RuntimePanic msg) ;; ret 2
  end.

End WithEnv.
End Restore.

(** ** Observations on traces *)

Module Obs.
Import Go World.

Definition is_remove (e : Event) : bool :=
  match e with OsRemove _ => true | _ => false end.

Definition is_log (e : Event) : bool :=
  match e with LogPrintf _ => true | _ => false end.

Definition is_exec (e : Event) : bool :=
  match e with Exec _ _ => true | _ => false end.

Definition is_list_call (e : Event) : bool :=
  match e with ListObjectsV2 _ _ _ => true | _ => false end.

(** An external call that reported an error. *)
Definition failed (e : Event) : bool :=
  match e with
  | Exec _ r => match exit_error r with Some _ => true | None => false end
  | LoadDefaultConfig _ (Some _)
  | OsOpen _ (Some _)
  | OsCreate _ (Some _)
  | PutObject _ _ _ _ (Some _)
  | ListObjectsV2 _ _ (Some _)
  | Download _ _ _ (Some _) => true
  | _ => false
  end.

(** A line on standard output that starts with [marker]. *)
Definition announces (marker : string) (e : Event) : bool :=
  match e with Stdout s => HasPrefix s marker | _ => false end.

(** The [-f] argument of a [pg_dump] command line. *)
Definition dump_target (argv : list string) : string := nth 10 argv EmptyString.

(** The output path of a [pg_dump] run that succeeded. *)
Definition dumped (e : Event) : option string :=
  match e with
  | Exec argv r =>
      match exit_error r with
      | None => Some (dump_target argv)
      | Some _ => None
      end
  | _ => None
  end.

Definition dumped_paths (tr : list Event) : list string := omap dumped tr.

(** The local path of a download that succeeded. *)
Definition downloaded (e : Event) : option string :=
  match e with Download _ _ dest None => Some dest | _ => None end.

Definition downloaded_paths (tr : list Event) : list string :=
  omap downloaded tr.

(** The key of an object that was stored successfully. *)
Definition uploaded (e : Event) : option string :=
  match e with PutObject _ key _ _ None => Some key | _ => None end.

Definition uploaded_keys (tr : list Event) : list string := omap uploaded tr.

(** Local files brought into existence by an event. *)
Definition created_by (e : Event) : list string :=
  match e with
  | Exec _ r => created r
  | OsCreate path None => [path]
  | _ => []
  end.

Definition created_files (tr : list Event) : list string :=
  flat_map created_by tr.

Fixpoint contains_slash (s : string) : bool :=
  match s with
  | EmptyString => false
  | String c r => Ascii.eqb c slash || contains_slash r
  end.

End Obs.

(** ** Shapes of requests, announcements and keys *)

Module Layout.
Import Go World.

(** What every [PutObject] request of a backup run looks like. *)
Definition put_layout (s3Bucket s3KeyPrefix : string)
    (databases : list string) (e : Event) : Prop :=
  match e with
  | PutObject bucket key body acl _ =>
      bucket = s3Bucket /\ acl = ObjectCannedACLPrivate
      /\ key = s3KeyPrefix +:+ "/" +:+ Base body
      /\ exists dbName t tmp,
           In dbName databases /\ tmp <> EmptyString
           /\ body = Join tmp (Backup.encode dbName t)
  | _ => True
  end.

(** What every [PutObject] request of one [uploadToS3] call looks like. *)
Definition put_request (backupFilePath s3Bucket s3KeyPrefix : string)
    (e : Event) : Prop :=
  match e with
  | PutObject bucket key body acl _ =>
      bucket = s3Bucket /\ acl = ObjectCannedACLPrivate
      /\ key = s3KeyPrefix +:+ "/" +:+ Base backupFilePath
      /\ body = backupFilePath
  | _ => True
  end.

Definition backup_marker : string := "Backing up database: ".
Definition restore_marker : string := "Processing backup file: ".

Definition announce (marker item : string) : Event :=
  Stdout (marker +:+ item +:+ nl).

(** A key whose base name is long enough for the decoder's slice. *)
Definition decodable (s3Key : string) : Prop := 27 <= len (Base s3Key).

End Layout.

(** ** Concrete deployments used to exercise the programs *)

Module Scenario.
Import Go World Obs.

(** 2023-11-14 22:13:20 UTC. *)
Definition t2023 : Time := mkTime 2023 11 14 22 13 20 1700000000 eq_refl.

(** 10000-01-01 00:00:00 UTC. *)
Definition t10000 : Time := mkTime 10000 1 1 0 0 0 253402300800 eq_refl.

Definition unset : string -> string := fun _ => EmptyString.

Definition with_S3_DIR (dir : string) : string -> string :=
  fun key => if String.eqb key "S3_DIR" then dir else EmptyString.

(** A cursor delivering [names] and then ending, with [final] as the
    value of [rows.Err()]. *)
Definition rows_of (names : list string) (final : option error) : Rows :=
  fold_right (fun n r => RowsNext (ScanOk n) r) (RowsEnd final) names.

(** [pg_dump] writes its output file and succeeds; [pg_restore]
    succeeds. *)
Definition tool_ok (argv : list string) : ExecResult :=
  if String.eqb (hd EmptyString argv) "pg_dump"
  then mkExec None [dump_target argv]
  else mkExec None [].

(** Both tools fail on database [agentdb]; the dump leaves a partial
    output file behind. *)
Definition tool_agentdb_fails (argv : list string) : ExecResult :=
  if existsb (String.eqb "agentdb") argv then
    if String.eqb (hd EmptyString argv) "pg_dump"
    then mkExec (Some "exit status 1") [dump_target argv]
    else mkExec (Some "exit status 1") []
  else tool_ok argv.

Definition fleet (vars : string -> string) (names : list string)
    (final : option error) (now : Time) (run : list string -> ExecResult)
    (put get : string -> option error) (keys : list string) : Env :=
  mkEnv vars (fun _ => now) (fun _ _ => None)
    (fun _ _ => QueryRows (rows_of names final))
    (fun _ argv => run argv) (fun _ _ => None) (fun _ _ => None)
    (fun _ _ => None) (fun _ _ key _ => put key) (fun _ => keys)
    (fun _ _ _ => None) (fun _ _ key => get key).

Definition always_ok : string -> option error := fun _ => None.

Definition fails_on (bad : string) : string -> option error :=
  fun key => if String.eqb key bad then Some "connection reset by peer"
             else None.

Definition three_keys : list string :=
  ["1700000000/admindb_backup_20231114_221320.sql";
   "1700000000/agentdb_backup_20231114_221320.sql";
   "1700000000/userdb_backup_20231114_221320.sql"].

(** Three databases, every step succeeds. *)
Definition healthy : Env :=
  fleet (with_S3_DIR "1700000000") ["admindb"; "agentdb"; "userdb"] None t2023
    tool_ok always_ok always_ok three_keys.

(** The dump and the restore of [agentdb] fail, the upload of [userdb]
    fails, the download of [admindb] fails. *)
Definition troubled : Env :=
  fleet (with_S3_DIR "1700000000") ["admindb"; "agentdb"; "userdb"] None t2023
    tool_agentdb_fails
    (fails_on "1700000000/userdb_backup_20231114_221320.sql")
    (fails_on "1700000000/admindb_backup_20231114_221320.sql") three_keys.

(** The connection to the catalog breaks after the first of three rows:
    [rows.Next()] returns false and [rows.Err()] holds the error. *)
Definition interrupted : Env :=
  fleet unset ["admindb"] (Some "unexpected EOF") t2023
    tool_ok always_ok always_ok [].

(** A server with one database, named [/b]. *)
Definition slashed : Env :=
  fleet unset ["/b"] None t2023 tool_ok always_ok always_ok [].

(** [S3_DIR] is unset and the bucket holds the artifacts of one run. *)
Definition unset_prefix : Env :=
  fleet unset [] None t2023 tool_ok always_ok always_ok three_keys.

(** [S3_DIR] is unset and the bucket also holds an object that is not a
    backup: the empty placeholder object of a folder. *)
Definition stray_key : Env :=
  fleet unset [] None t2023 tool_ok always_ok always_ok
    ["1600000000/"; "1700000000/admindb_backup_20231114_221320.sql"].

(** A run prefix with 1001 artifacts. *)
Definition crowded : Env :=
  fleet unset [] None t2023 tool_ok always_ok always_ok
    (map (fun n => "1700000000/db" +:+ appendInt (Z.of_nat n) 4
                     +:+ "_backup_20231114_221320.sql") (seq 0 1001)).

(** The folder of one run, into which somebody also put a text file. *)
Definition folder_with_notes : list string :=
  ["1700000000/admindb_backup_20231114_221320.sql";
   "1700000000/notes.txt";
   "1700000000/userdb_backup_20231114_221320.sql"].

(** The text file cannot be downloaded; the artifacts can. *)
Definition notes_unreachable : Env :=
  fleet (with_S3_DIR "1700000000") [] None t2023 tool_ok always_ok
    (fails_on "1700000000/notes.txt") folder_with_notes.


End Scenario.

(** ** Shapes of the traces of whole runs *)

Module Shape.
Import Go World Obs Layout.

(** The argument vector of the [pg_dump] subprocess. *)
Definition dump_argv (dbName dbUser dbHost : string) (dbPort : Z)
    (backupFilePath : string) : list string :=
  ["pg_dump"; "-h"; dbHost; "-p"; Itoa dbPort; "-U"; dbUser;
   "-F"; "c"; "-f"; backupFilePath; dbName].

(** The events of one [uploadToS3] call, with the error it returns. *)
Inductive upload_segment (backupFilePath s3Bucket s3KeyPrefix region : string)
  : option error -> list Event -> Prop :=
| upload_no_config e :
    upload_segment backupFilePath s3Bucket s3KeyPrefix region
      (Some ("unable to load AWS config: " +:+ e))
      [LoadDefaultConfig region (Some e)]
| upload_no_file e :
    upload_segment backupFilePath s3Bucket s3KeyPrefix region
      (Some ("failed to open backup file: " +:+ e))
      [LoadDefaultConfig region None; OsOpen backupFilePath (Some e)]
| upload_rejected e :
    upload_segment backupFilePath s3Bucket s3KeyPrefix region
      (Some ("failed to upload to S3: " +:+ e))
      [LoadDefaultConfig region None; OsOpen backupFilePath None;
       PutObject s3Bucket (s3KeyPrefix +:+ "/" +:+ Base backupFilePath)
         backupFilePath ObjectCannedACLPrivate (Some e);
       FileClose backupFilePath]
| upload_done :
    upload_segment backupFilePath s3Bucket s3KeyPrefix region None
      [LoadDefaultConfig region None; OsOpen backupFilePath None;
       PutObject s3Bucket (s3KeyPrefix +:+ "/" +:+ Base backupFilePath)
         backupFilePath ObjectCannedACLPrivate None;
       Stdout ("Backup successful: " +:+ Base backupFilePath
                 +:+ " uploaded to s3://" +:+ s3Bucket +:+ "/"
                 +:+ (s3KeyPrefix +:+ "/" +:+ Base backupFilePath) +:+ nl);
       FileClose backupFilePath].

(** The events of one iteration of the backup loop, for database
    [dbName]. *)
Inductive backup_segment (dbHost : string) (dbPort : Z)
    (dbUser dbPassword s3Bucket s3KeyPrefix region dbName : string)
  : list Event -> Prop :=
| backup_dump_failed tmp t crt e :
    tmp <> EmptyString ->
    backup_segment dbHost dbPort dbUser dbPassword s3Bucket s3KeyPrefix region
      dbName
      [announce backup_marker dbName; Setenv "PGPASSWORD" dbPassword;
       Exec (dump_argv dbName dbUser dbHost dbPort
               (Join tmp (Backup.encode dbName t)))
         (mkExec (Some e) crt);
       LogPrintf ("Failed to backup database " +:+ dbName +:+ ": "
                    +:+ "failed to backup database: " +:+ e)]
| backup_upload_failed tmp t crt e upload :
    tmp <> EmptyString ->
    upload_segment (Join tmp (Backup.encode dbName t)) s3Bucket s3KeyPrefix
      region (Some e) upload ->
    backup_segment dbHost dbPort dbUser dbPassword s3Bucket s3KeyPrefix region
      dbName
      ([announce backup_marker dbName; Setenv "PGPASSWORD" dbPassword;
        Exec (dump_argv dbName dbUser dbHost dbPort
                (Join tmp (Backup.encode dbName t)))
          (mkExec None crt)]
       ++ upload
       ++ [LogPrintf ("Failed to upload backup for database " +:+ dbName
                        +:+ ": " +:+ e)])
| backup_uploaded tmp t crt upload :
    tmp <> EmptyString ->
    upload_segment (Join tmp (Backup.encode dbName t)) s3Bucket s3KeyPrefix
      region None upload ->
    backup_segment dbHost dbPort dbUser dbPassword s3Bucket s3KeyPrefix region
      dbName
      ([announce backup_marker dbName; Setenv "PGPASSWORD" dbPassword;
        Exec (dump_argv dbName dbUser dbHost dbPort
                (Join tmp (Backup.encode dbName t)))
          (mkExec None crt)]
       ++ upload).

(** The connection string and the query of [getDatabaseList]. *)
Definition conn_string (dbHost : string) (dbPort : Z)
    (dbUser dbPassword : string) : string :=
  "host=" +:+ dbHost +:+ " port=" +:+ Itoa dbPort +:+ " user=" +:+ dbUser
    +:+ " password=" +:+ dbPassword +:+ " dbname=postgres sslmode=disable".

Definition catalog_query : string :=
  "SELECT datname FROM pg_database WHERE datistemplate = false;".

(** The events of [getDatabaseList] when it succeeds. *)
Definition enumeration_events (dbHost : string) (dbPort : Z)
    (dbUser dbPassword : string) : list Event :=
  [SqlOpen "postgres" (conn_string dbHost dbPort dbUser dbPassword);
   DbQuery catalog_query; RowsClose; DbClose].

(** The events of [getDatabaseList] when it returns an error, with that
    error. *)
Inductive failed_enumeration (dbHost : string) (dbPort : Z)
    (dbUser dbPassword : string) : error -> list Event -> Prop :=
| enumeration_open_failed e :
    failed_enumeration dbHost dbPort dbUser dbPassword
      ("failed to connect to PostgreSQL: " +:+ e)
      [SqlOpen "postgres" (conn_string dbHost dbPort dbUser dbPassword)]
| enumeration_query_failed e :
    failed_enumeration dbHost dbPort dbUser dbPassword
      ("failed to query databases: " +:+ e)
      [SqlOpen "postgres" (conn_string dbHost dbPort dbUser dbPassword);
       DbQuery catalog_query; DbClose]
| enumeration_scan_failed e :
    failed_enumeration dbHost dbPort dbUser dbPassword
      ("failed to scan database name: " +:+ e)
      (enumeration_events dbHost dbPort dbUser dbPassword).

(** A cursor that delivers [names], each scanning well, and then behaves
    as [tail]. *)
Definition rows_then (names : list string) (tail : Rows) : Rows :=
  fold_right (fun n r => RowsNext (ScanOk n) r) tail names.

(** The events of one [downloadFromS3] call, with the error it returns. *)
Inductive download_segment (s3Bucket s3Key destinationPath region : string)
  : option error -> list Event -> Prop :=
| download_no_config e :
    download_segment s3Bucket s3Key destinationPath region
      (Some ("unable to load AWS config: " +:+ e))
      [LoadDefaultConfig region (Some e)]
| download_no_file e :
    download_segment s3Bucket s3Key destinationPath region
      (Some ("failed to create file " +:+ destinationPath +:+ ": " +:+ e))
      [LoadDefaultConfig region None; OsCreate destinationPath (Some e)]
| download_failed e :
    download_segment s3Bucket s3Key destinationPath region
      (Some ("failed to download file from S3: " +:+ e))
      [LoadDefaultConfig region None; OsCreate destinationPath None;
       Download s3Bucket s3Key destinationPath (Some e);
       FileClose destinationPath]
| download_done :
    download_segment s3Bucket s3Key destinationPath region None
      [LoadDefaultConfig region None; OsCreate destinationPath None;
       Download s3Bucket s3Key destinationPath None;
       Stdout ("Downloaded backup from s3://" +:+ s3Bucket +:+ "/" +:+ s3Key
                 +:+ " to " +:+ destinationPath +:+ nl);
       FileClose destinationPath].

(** The events of one completed iteration of the restore loop, for key
    [s3Key]. *)
Inductive restore_segment (dbHost : string) (dbPort : Z)
    (dbUser dbPassword s3Bucket region s3Key : string)
  : list Event -> Prop :=
| restore_download_failed tmp e download :
    tmp <> EmptyString ->
    download_segment s3Bucket s3Key (Join tmp (Base s3Key)) region (Some e)
      download ->
    restore_segment dbHost dbPort dbUser dbPassword s3Bucket region s3Key
      ([announce restore_marker s3Key] ++ download
       ++ [LogPrintf ("Failed to download backup file " +:+ s3Key +:+ ": "
                        +:+ e)])
| restore_tool_failed tmp dbName crt e download :
    tmp <> EmptyString ->
    download_segment s3Bucket s3Key (Join tmp (Base s3Key)) region None
      download ->
    Restore.decode (Base s3Key) = Some dbName ->
    restore_segment dbHost dbPort dbUser dbPassword s3Bucket region s3Key
      ([announce restore_marker s3Key] ++ download
       ++ [Setenv "PGPASSWORD" dbPassword;
           Exec (Restore.restore_argv dbName dbUser dbHost dbPort
                   (Join tmp (Base s3Key)))
             (mkExec (Some e) crt);
           LogPrintf ("Failed to restore database " +:+ dbName +:+ ": "
                        +:+ "failed to restore database " +:+ dbName +:+ ": "
                        +:+ e)])
| restore_done tmp dbName crt download :
    tmp <> EmptyString ->
    download_segment s3Bucket s3Key (Join tmp (Base s3Key)) region None
      download ->
    Restore.decode (Base s3Key) = Some dbName ->
    restore_segment dbHost dbPort dbUser dbPassword s3Bucket region s3Key
      ([announce restore_marker s3Key] ++ download
       ++ [Setenv "PGPASSWORD" dbPassword;
           Exec (Restore.restore_argv dbName dbUser dbHost dbPort
                   (Join tmp (Base s3Key)))
             (mkExec None crt);
           Stdout ("Database " +:+ dbName +:+ " restored successfully from "
                     +:+ Join tmp (Base s3Key) +:+ nl)]).

(** The events of the iteration in which the decoder's slice panics. *)
Inductive panic_segment (s3Bucket region s3Key : string)
  : list Event -> Prop :=
| restore_panicked tmp download :
    tmp <> EmptyString ->
    download_segment s3Bucket s3Key (Join tmp (Base s3Key)) region None
      download ->
    Restore.decode (Base s3Key) = None ->
    panic_segment s3Bucket region s3Key
      ([announce restore_marker s3Key] ++ download).

(** The events of [listS3BackupFiles] when it succeeds. *)
Definition listing_events (s3Bucket s3KeyPrefix region : string)
  : list Event :=
  [LoadDefaultConfig region None; ListObjectsV2 s3Bucket s3KeyPrefix None].

(** The events of [listS3BackupFiles] when it returns an error, with that
    error. *)
Inductive failed_listing (s3Bucket s3KeyPrefix region : string)
  : error -> list Event -> Prop :=
| listing_no_config e :
    failed_listing s3Bucket s3KeyPrefix region
      ("unable to load AWS config: " +:+ e)
      [LoadDefaultConfig region (Some e)]
| listing_rejected e :
    failed_listing s3Bucket s3KeyPrefix region
      ("failed to list objects in S3 bucket: " +:+ e)
      [LoadDefaultConfig region None;
       ListObjectsV2 s3Bucket s3KeyPrefix (Some e)].

(** *** Properties of a trace as a whole *)

(** Every event of [tr] selected by [pick] satisfies [P] of the events
    before it. *)
Definition each_after (P : list Event -> Event -> Prop) (tr : list Event)
  : Prop :=
  forall pre e post, tr = pre ++ e :: post -> P pre e.

(** A property that only gains from a longer past. *)
Definition past_monotone (P : list Event -> Event -> Prop) : Prop :=
  forall a pre e, P pre e -> P (a ++ pre) e.

(** A [PutObject] request sends a file that a subprocess run before it
    reported as written. *)
Definition sends_dumped_file (pre : list Event) (e : Event) : Prop :=
  match e with
  | PutObject _ _ body _ _ => In body (dumped_paths pre)
  | _ => True
  end.

(** A subprocess starts right after [PGPASSWORD] was set to [password]. *)
Definition runs_with_password (password : string) (pre : list Event)
    (e : Event) : Prop :=
  match e with
  | Exec _ _ => exists before, pre = before ++ [Setenv "PGPASSWORD" password]
  | _ => True
  end.

(** A [pg_restore] run reads a file whose download succeeded before, into
    the database named by the decoder on that file's base name. *)
Definition restores_downloaded_file (dbUser dbHost : string) (dbPort : Z)
    (pre : list Event) (e : Event) : Prop :=
  match e with
  | Exec argv _ =>
      exists dbName backupFilePath,
        argv = Restore.restore_argv dbName dbUser dbHost dbPort backupFilePath
        /\ In backupFilePath (downloaded_paths pre)
        /\ Restore.decode (Base backupFilePath) = Some dbName
  | _ => True
  end.

(** A download writes into a file that was created before. *)
Definition downloads_into_created_file (pre : list Event) (e : Event)
  : Prop :=
  match e with
  | Download _ _ dest _ => In dest (created_files pre)
  | _ => True
  end.

(** What every [Download] request of a restore run looks like. *)
Definition download_layout (s3Bucket : string) (backupFiles : list string)
    (e : Event) : Prop :=
  match e with
  | Download bucket key dest _ =>
      bucket = s3Bucket /\ In key backupFiles
      /\ exists tmp, tmp <> EmptyString /\ dest = Join tmp (Base key)
  | _ => True
  end.

(** The file handles held along a trace: [holding] is the path of the
    file currently open, if any.  A file is opened only when none is
    open, a close names the file that is open, and nothing is left open
    at the end. *)
Fixpoint handles_balanced (holding : option string) (tr : list Event)
  : Prop :=
  match tr with
  | [] => holding = None
  | OsOpen path None :: rest | OsCreate path None :: rest =>
      holding = None /\ handles_balanced (Some path) rest
  | FileClose path :: rest =>
      holding = Some path /\ handles_balanced None rest
  | _ :: rest => handles_balanced holding rest
  end.

(** The calls that frame the work on the items and carry no file content:
    the catalog and listing calls, the configuration loading, the fatal
    log line, the removals and the panic report. *)
Definition is_framing (e : Event) : bool :=
  match e with
  | SqlOpen _ _ | DbQuery _ | RowsClose | DbClose | LoadDefaultConfig _ _
  | ListObjectsV2 _ _ _ | LogFatalf _ | OsRemove _ | RuntimePanic _ => true
  | _ => false
  end.

(** *** Deployments with an unreachable collaborator *)

(** The catalog refuses the query. *)
Definition catalog_down : Env :=
  mkEnv Scenario.unset (fun _ => Scenario.t2023) (fun _ _ => None)
    (fun _ _ => QueryErr "connection refused")
    (fun _ argv => Scenario.tool_ok argv) (fun _ _ => None) (fun _ _ => None)
    (fun _ _ => None) (fun _ _ _ _ => None) (fun _ => [])
    (fun _ _ _ => None) (fun _ _ _ => None).

(** The second of three rows cannot be scanned. *)
Definition scan_breaks : Env :=
  mkEnv Scenario.unset (fun _ => Scenario.t2023) (fun _ _ => None)
    (fun _ _ =>
       QueryRows
         (rows_then ["admindb"]
            (RowsNext (ScanErr "unsupported Scan")
               (rows_then ["userdb"] (RowsEnd None)))))
    (fun _ argv => Scenario.tool_ok argv) (fun _ _ => None) (fun _ _ => None)
    (fun _ _ => None) (fun _ _ _ _ => None) (fun _ => [])
    (fun _ _ _ => None) (fun _ _ _ => None).

(** The object store refuses the listing request. *)
Definition listing_denied : Env :=
  mkEnv (Scenario.with_S3_DIR "1700000000") (fun _ => Scenario.t2023)
    (fun _ _ => None) (fun _ _ => QueryRows (RowsEnd None))
    (fun _ argv => Scenario.tool_ok argv) (fun _ _ => None) (fun _ _ => None)
    (fun _ _ => None) (fun _ _ _ _ => None) (fun _ => Scenario.three_keys)
    (fun _ _ _ => Some "AccessDenied") (fun _ _ _ => None).

End Shape.

(** * Properties *)

(** ** Strings *)

Section Strings.
Import Go.

Lemma append_cons (c : Ascii.ascii) (a b : string) :
  String c a +:+ b = String c (a +:+ b).
Proof. reflexivity. Qed.

Lemma append_nil_l (b : string) : EmptyString +:+ b = b.
Proof. reflexivity. Qed.

Lemma length_append (a b : string) :
  String.length (a +:+ b) = (String.length a + String.length b)%nat.
Proof.
  induction a as [|c a IH]; [reflexivity|].
  rewrite append_cons. simpl. now rewrite IH.
Qed.

Lemma substring_append (a b : string) :
  String.substring 0 (String.length a) (a +:+ b) = a.
Proof.
  induction a as [|c a IH].
  - rewrite append_nil_l. now destruct b.
  - rewrite append_cons. simpl. now rewrite IH.
Qed.

Lemma append_assoc (a b c : string) : (a +:+ b) +:+ c = a +:+ b +:+ c.
Proof.
  induction a as [|x a IH]; [reflexivity|].
  rewrite !append_cons. now rewrite IH.
Qed.

Lemma append_nil_r (a : string) : a +:+ EmptyString = a.
Proof.
  induction a as [|x a IH]; [reflexivity|].
  rewrite append_cons. now rewrite IH.
Qed.

(** Every string of at least [k] bytes splits into a head and a tail of
    exactly [k] bytes, the head being what [substring] keeps. *)
Lemma substring_split (s : string) (k : nat) :
  (k <= String.length s)%nat ->
  exists tail, s = String.substring 0 (String.length s - k) s +:+ tail
               /\ String.length tail = k.
Proof.
  revert k; induction s as [|c s IH]; intros k Hk; simpl in *.
  - exists EmptyString. split; [reflexivity | simpl; lia].
  - destruct (decide (k = S (String.length s))) as [->|Hne].
    + exists (String c s). rewrite Nat.sub_diag. now simpl.
    + destruct (IH k) as (tail & Heq & Hlen); [lia|].
      exists tail. split; [|exact Hlen].
      replace (S (String.length s) - k)%nat
        with (S (String.length s - k)) by lia.
      simpl. rewrite append_cons. now rewrite <- Heq.
Qed.

End Strings.

(** ** Timestamps *)

Section Timestamps.
Import Go.

Example Format_examples :
  Format Scenario.t2023 = "20231114_221320"
  /\ Format Scenario.t10000 = "100000101_000000"
  /\ appendInt 7 2 = "07" /\ appendInt (-1) 4 = "-0001".
Proof. repeat split. Qed.

Lemma appendInt_width4 (y : Z) :
  0 <= y <= 9999 -> String.length (appendInt y 4) = 4%nat.
Proof.
  intros Hy.
  assert (Hall : forallb
            (fun n => Nat.eqb (String.length (appendInt (Z.of_nat n) 4)) 4)
            (seq 0 (Z.to_nat 10000)) = true) by (vm_compute; reflexivity).
  rewrite forallb_forall in Hall.
  specialize (Hall (Z.to_nat y)).
  rewrite Z2Nat.id in Hall by lia.
  apply Nat.eqb_eq, Hall, in_seq. lia.
Qed.

Lemma appendInt_width2 (n : nat) :
  (n < 100)%nat -> String.length (appendInt (Z.of_nat n) 2) = 2%nat.
Proof.
  intros Hn.
  assert (Hall : forallb
            (fun n => Nat.eqb (String.length (appendInt (Z.of_nat n) 2)) 2)
            (seq 0 100) = true) by (vm_compute; reflexivity).
  rewrite forallb_forall in Hall.
  apply Nat.eqb_eq, Hall, in_seq. lia.
Qed.

Lemma civil_ranges (t : Time) :
  (Month t < 100 /\ Day t < 100 /\ Hour t < 100 /\ Minute t < 100
   /\ Second t < 100)%nat.
Proof.
  pose proof (Time_ok t) as H. unfold civil_ok in H.
  repeat (apply andb_prop in H; destruct H as [H ?]).
  repeat match goal with
         | E : (_ <=? _)%nat = true |- _ => apply Nat.leb_le in E
         | E : (_ <? _)%nat = true |- _ => apply Nat.ltb_lt in E
         end.
  lia.
Qed.

(** A timestamp with a four-digit year is rendered in 15 bytes. *)
Lemma Format_length (t : Time) :
  0 <= Year t <= 9999 -> String.length (Format t) = 15%nat.
Proof.
  intros Hy. destruct (civil_ranges t) as (Hmo & Hd & Hh & Hmi & Hs).
  unfold Format. rewrite !length_append.
  rewrite appendInt_width4 by exact Hy.
  rewrite !appendInt_width2 by assumption.
  reflexivity.
Qed.

End Timestamps.

(** ** Artifact Namer *)

Section Namer.
Import Go.

(** Cutting a 27-byte tail off a name gives the name back. *)
Lemma decode_append (n suffix : string) :
  String.length suffix = 27%nat -> Restore.decode (n +:+ suffix) = Some n.
Proof.
  intros Hlen. unfold Restore.decode, slice_to, len.
  rewrite length_append, Hlen.
  replace (Z.of_nat (String.length n + 27) - 27) with (Z.of_nat (String.length n))
    by lia.
  destruct (Z.ltb_spec (Z.of_nat (String.length n)) 0) as [Hneg|_]; [lia|].
  destruct (Z.ltb_spec (Z.of_nat (String.length n + 27))
              (Z.of_nat (String.length n))) as [Hlt|_]; [lia|].
  simpl. now rewrite Nat2Z.id, substring_append.
Qed.

(** C1 (as amended).  For every database name [n] -- whether or not it
    contains the suffix pattern -- and every timestamp [t] whose year has
    at most four digits (0..9999), cutting the trailing 27 bytes off the
    file name [<n>_backup_<t as YYYYMMDD_HHMMSS>.sql] built by the backup
    program returns exactly [n]. *)
Theorem decode_encode_roundtrip (n : string) (t : Time) :
  0 <= Year t <= 9999 ->
  Restore.decode (Backup.encode n t) = Some n.
Proof.
  intros Hy. unfold Backup.encode. apply decode_append.
  rewrite !length_append, Format_length by exact Hy. reflexivity.
Qed.

(** The slice is defined exactly on file names of at least 27 bytes. *)
Lemma decode_long (backupFilename : string) :
  27 <= len backupFilename ->
  Restore.decode backupFilename
  = Some (String.substring 0 (String.length backupFilename - 27)
            backupFilename).
Proof.
  unfold Restore.decode, slice_to, len. intros Hlen.
  destruct (Z.ltb_spec (Z.of_nat (String.length backupFilename) - 27) 0);
    [lia|].
  destruct (Z.ltb_spec (Z.of_nat (String.length backupFilename))
              (Z.of_nat (String.length backupFilename) - 27)); [lia|].
  simpl. do 2 f_equal. lia.
Qed.

Lemma decode_short (backupFilename : string) :
  len backupFilename < 27 -> Restore.decode backupFilename = None.
Proof.
  unfold Restore.decode, slice_to, len. intros Hlen.
  destruct (Z.ltb_spec (Z.of_nat (String.length backupFilename) - 27) 0)
    as [_|Hge]; [reflexivity | lia].
Qed.

(** C3 (as amended).  The decoder validates nothing but is not total: on
    a file name of at least 27 bytes it returns the name without its last
    27 bytes, whatever those bytes are; on a shorter file name the slice
    expression panics and nothing is returned. *)
Theorem decode_defined_on_long_names (backupFilename : string) :
  (27 <= len backupFilename ->
   exists dbName tail,
     Restore.decode backupFilename = Some dbName
     /\ backupFilename = dbName +:+ tail /\ String.length tail = 27%nat)
  /\ (len backupFilename < 27 -> Restore.decode backupFilename = None).
Proof.
  split; intros Hlen.
  - destruct (substring_split backupFilename 27) as (tail & Heq & Htail).
    { unfold len in Hlen. lia. }
    exists (String.substring 0 (String.length backupFilename - 27)
              backupFilename), tail.
    split; [now apply decode_long|]. now split.
  - now apply decode_short.
Qed.

End Namer.

(** ** Paths *)

Section Paths.
Import Go Obs.

(** The model agrees with the examples of the Go documentation. *)
Example Clean_examples :
  Clean "a/c" = "a/c" /\ Clean "a//c" = "a/c" /\ Clean "a/c/." = "a/c"
  /\ Clean "a/c/b/.." = "a/c" /\ Clean "/../a/c" = "/a/c"
  /\ Clean "/../a/b/../././/c" = "/a/c" /\ Clean EmptyString = "."
  /\ Clean "../../x" = "../../x" /\ Clean "a/../.." = "..".
Proof. repeat split. Qed.

Example Base_examples :
  Base "/foo/bar/baz.js" = "baz.js" /\ Base "/foo/bar/baz" = "baz"
  /\ Base "/foo/bar/baz/" = "baz" /\ Base "dev.txt" = "dev.txt"
  /\ Base "../todo.txt" = "todo.txt" /\ Base ".." = ".." /\ Base "." = "."
  /\ Base "/" = "/" /\ Base EmptyString = ".".
Proof. repeat split. Qed.

Example Join_examples :
  Join "a" "b" = "a/b" /\ Join "a" EmptyString = "a"
  /\ Join EmptyString "b" = "b" /\ Join "a" "/b" = "a/b"
  /\ Join "a/b" "../../../xyz" = "../xyz"
  /\ Join "/tmp" "admindb_backup_20231114_221320.sql"
     = "/tmp/admindb_backup_20231114_221320.sql".
Proof. repeat split. Qed.

Lemma split_nonempty (s : string) : split s <> [].
Proof.
  destruct s as [|c s]; simpl; [discriminate|].
  destruct (Ascii.eqb c slash); [discriminate|].
  destruct (split s); discriminate.
Qed.

Lemma split_no_slash (s : string) : contains_slash s = false -> split s = [s].
Proof.
  induction s as [|c s IH]; simpl; [reflexivity|].
  intros H. apply orb_false_elim in H as [Hc Hs].
  rewrite Hc, (IH Hs). reflexivity.
Qed.

Lemma split_append_slash (a b : string) :
  split (a +:+ "/" +:+ b) = split a ++ split b.
Proof.
  induction a as [|c a IH].
  - reflexivity.
  - rewrite append_cons. simpl. rewrite IH.
    destruct (Ascii.eqb c slash); [reflexivity|].
    pose proof (split_nonempty a) as Hne.
    destruct (split a); [congruence | reflexivity].
Qed.

Lemma last_nonempty_snoc (l : list string) (f : string) :
  f <> EmptyString -> last_nonempty (l ++ [f]) = Some f.
Proof.
  intros Hf. induction l as [|x l IH]; simpl.
  - destruct (String.eqb_spec f EmptyString); [contradiction | reflexivity].
  - now rewrite IH.
Qed.

Lemma join_snoc (l : list string) (x f : string) :
  join ((x :: l) ++ [f]) = join (x :: l) +:+ "/" +:+ f.
Proof.
  revert x. induction l as [|y l IH]; intros x.
  - reflexivity.
  - change (join ((x :: y :: l) ++ [f]))
      with (x +:+ "/" +:+ join ((y :: l) ++ [f])).
    rewrite IH.
    change (join (x :: y :: l)) with (x +:+ "/" +:+ join (y :: l)).
    now rewrite !append_assoc.
Qed.

Lemma contains_slash_append (a b : string) :
  contains_slash (a +:+ b) = contains_slash a || contains_slash b.
Proof.
  induction a as [|c a IH]; [reflexivity|].
  rewrite append_cons. simpl. now rewrite IH, orb_assoc.
Qed.

(** An element that is neither empty nor a dot name is pushed by
    [Clean]. *)
Lemma clean_step_plain (is_rooted : bool) (out : list string) (f : string) :
  f <> EmptyString -> f <> "." -> f <> ".." ->
  clean_step is_rooted out f = f :: out.
Proof.
  intros H0 H1 H2. unfold clean_step.
  destruct (String.eqb_spec f EmptyString); [contradiction|].
  destruct (String.eqb_spec f "."); [contradiction|].
  destruct (String.eqb_spec f ".."); [contradiction|].
  reflexivity.
Qed.

(** The file name survives [Join] and is what [Base] extracts, provided
    it is a plain path element. *)
Lemma Base_Join (dir f : string) :
  dir <> EmptyString -> contains_slash f = false ->
  f <> EmptyString -> f <> "." -> f <> ".." ->
  Base (Join dir f) = f.
Proof.
  intros Hdir Hslash H0 H1 H2. unfold Join.
  destruct (String.eqb_spec dir EmptyString) as [|_]; [contradiction|]. simpl.
  assert (Hshape : exists pre, split (Clean (dir +:+ "/" +:+ f)) = pre ++ [f]).
  { unfold Clean.
    destruct (String.eqb_spec (dir +:+ "/" +:+ f) EmptyString) as [Hemp|_].
    { destruct dir; [contradiction | discriminate]. }
    cbv zeta.
    rewrite split_append_slash, (split_no_slash f Hslash), fold_left_app.
    cbn [fold_left]. rewrite clean_step_plain by assumption.
    set (out := fold_left _ (split dir) []). cbn [rev].
    set (root := if rooted _ then "/" else EmptyString).
    assert (Hsplit : exists pre, split (root +:+ join (rev out ++ [f])) = pre ++ [f]).
    { destruct (rev out) as [|x l].
      - simpl join. unfold root. destruct (rooted _).
        + exists [EmptyString]. change ("/" +:+ f) with (EmptyString +:+ "/" +:+ f).
          now rewrite split_append_slash, (split_no_slash f Hslash).
        + exists []. now rewrite append_nil_l, (split_no_slash f Hslash).
      - rewrite join_snoc, <- append_assoc, split_append_slash,
          (split_no_slash f Hslash).
        now eexists. }
    destruct (String.eqb_spec (root +:+ join (rev out ++ [f])) EmptyString)
      as [Hemp|_]; [|exact Hsplit].
    destruct Hsplit as (pre & Hpre). rewrite Hemp in Hpre. simpl in Hpre.
    destruct pre as [|? [|? ?]]; simpl in Hpre; congruence. }
  destruct Hshape as (pre & Hpre). unfold Base.
  destruct (String.eqb_spec (Clean (dir +:+ "/" +:+ f)) EmptyString) as [Hemp|_].
  { rewrite Hemp in Hpre. simpl in Hpre.
    destruct pre as [|? [|? ?]]; simpl in Hpre; congruence. }
  now rewrite Hpre, last_nonempty_snoc.
Qed.

(** Decimal digits hold no path separator. *)
Lemma FormatUint_no_slash (n : N) : contains_slash (FormatUint n) = false.
Proof.
  unfold FormatUint. generalize (N.to_uint n). intros d.
  unfold NilEmpty.string_of_uint.
  induction d; simpl; auto.
Qed.

Lemma zeros_no_slash (k : nat) : contains_slash (zeros k) = false.
Proof. induction k; simpl; auto. Qed.

Lemma appendInt_no_slash (x : Z) (width : nat) :
  contains_slash (appendInt x width) = false.
Proof.
  unfold appendInt.
  rewrite !contains_slash_append, zeros_no_slash, FormatUint_no_slash.
  now destruct (x <? 0).
Qed.

Lemma Format_no_slash (t : Time) : contains_slash (Format t) = false.
Proof.
  unfold Format. rewrite !contains_slash_append, !appendInt_no_slash.
  reflexivity.
Qed.

(** The file name of a database whose name holds no separator is a plain
    path element. *)
Lemma encode_plain (dbName : string) (t : Time) :
  contains_slash dbName = false ->
  contains_slash (Backup.encode dbName t) = false
  /\ Backup.encode dbName t <> EmptyString
  /\ Backup.encode dbName t <> "." /\ Backup.encode dbName t <> "..".
Proof.
  intros Hdb. unfold Backup.encode. split.
  - rewrite !contains_slash_append, Hdb, Format_no_slash. reflexivity.
  - assert (Hlen : (8 <= String.length
                           (dbName +:+ "_backup_" +:+ Format t +:+ ".sql"))%nat).
    { rewrite !length_append. simpl. lia. }
    repeat split; intros Heq; rewrite Heq in Hlen; simpl in Hlen; lia.
Qed.

End Paths.

(** ** Running the programs *)

Section Runs.
Import Go World Lib Obs Layout.

Lemma temp_dir_nonempty (dir : string) : temp_dir dir <> EmptyString.
Proof.
  unfold temp_dir.
  destruct (String.eqb_spec dir EmptyString); [discriminate | assumption].
Qed.

Lemma prefix_append (a b : string) : String.prefix a (a +:+ b) = true.
Proof.
  induction a as [|c a IH]; [now destruct b|].
  rewrite append_cons. simpl.
  destruct (Ascii.ascii_dec c c); [exact IH | congruence].
Qed.

Lemma announces_announce (marker item : string) :
  announces marker (announce marker item) = true.
Proof. apply prefix_append. Qed.

Lemma snoc2 {A} (l : list A) (a b : A) : (l ++ [a]) ++ [b] = l ++ [a; b].
Proof. now rewrite <- app_assoc. Qed.

Ltac unfold_lib :=
  unfold exec_Run, config_LoadDefaultConfig, os_TempDir, os_Getenv,
    os_Setenv, time_Now, os_Remove, bind, ret, emit, history, add_files,
    del_file, set_var, get_var;
  cbn [trace fs penv fst snd].

Variable env : Env.

Lemma backupDatabase_spec (dbName dbUser dbPassword dbHost : string)
    (dbPort : Z) (st : State) :
  exists argv r tmp t st',
    Backup.backupDatabase env dbName dbUser dbPassword dbHost dbPort st
    = (match exit_error r with
       | Some e => (EmptyString, Some ("failed to backup database: " +:+ e))
       | None => (Join tmp (Backup.encode dbName t), None)
       end, st')
    /\ trace st' = trace st ++ [Setenv "PGPASSWORD" dbPassword; Exec argv r]
    /\ fs st' = fs st ∪ list_to_set (created r)
    /\ dump_target argv = Join tmp (Backup.encode dbName t)
    /\ tmp <> EmptyString.
Proof.
  unfold Backup.backupDatabase. unfold_lib.
  match goal with
  | |- context [cmd_run env ?h ?argv] => exists argv, (cmd_run env h argv)
  end.
  match goal with
  | |- context [Join ?tmp (Backup.encode dbName ?t)] => exists tmp, t
  end.
  eexists. split; [|split; [|split; [|split]]].
  - destruct (exit_error _); reflexivity.
  - cbn [trace]. apply snoc2.
  - reflexivity.
  - reflexivity.
  - apply temp_dir_nonempty.
Qed.

Lemma uploadToS3_spec (backupFilePath s3Bucket s3KeyPrefix region : string)
    (st : State) :
  exists err tr st',
    Backup.uploadToS3 env backupFilePath s3Bucket s3KeyPrefix region st
    = (err, st')
    /\ trace st' = trace st ++ tr
    /\ fs st' = fs st
    /\ List.filter is_remove tr = []
    /\ List.filter (announces backup_marker) tr = []
    /\ List.filter is_log tr = []
    /\ length (List.filter failed tr)
       = match err with Some _ => 1%nat | None => 0%nat end
    /\ dumped_paths tr = []
    /\ created_files tr = []
    /\ Forall (put_request backupFilePath s3Bucket s3KeyPrefix) tr.
Proof.
  unfold Backup.uploadToS3. unfold_lib.
  destruct (config_load env (trace st) region) as [e|] eqn:Hcfg.
  { eexists _, [_], _. cbn [trace fs].
    repeat (split; [reflexivity|]). repeat constructor. }
  unfold_lib.
  destruct (os_open env _ backupFilePath) as [e|] eqn:Hopen.
  { eexists _, [_; _], _. cbn [trace fs]. rewrite snoc2.
    repeat (split; [reflexivity|]). repeat constructor. }
  unfold_lib.
  destruct (s3_put env _ s3Bucket _ backupFilePath) as [e|] eqn:Hput.
  { eexists _, [_; _; _; _], _. cbn [trace fs].
    rewrite <- !app_assoc. cbn [app].
    repeat (split; [reflexivity|]). repeat constructor. }
  eexists _, [_; _; _; _; _], _. cbn [trace fs].
  rewrite <- !app_assoc. cbn [app].
  repeat (split; [reflexivity|]). repeat constructor.
Qed.

Lemma put_layout_weaken (s3Bucket s3KeyPrefix dbName : string)
    (rest : list string) (tr : list Event) :
  Forall (put_layout s3Bucket s3KeyPrefix rest) tr ->
  Forall (put_layout s3Bucket s3KeyPrefix (dbName :: rest)) tr.
Proof.
  intros HF. eapply Forall_impl; [exact HF|]. intros [] H; try exact I.
  destruct H as (Hb & Ha & Hk & db & t & tmp & Hin & Htmp & Hbody).
  repeat split; try assumption. exists db, t, tmp.
  repeat split; try assumption. now right.
Qed.

Lemma put_request_layout (s3Bucket s3KeyPrefix dbName tmp : string)
    (t : Time) (rest : list string) (tr : list Event) :
  tmp <> EmptyString ->
  Forall (put_request (Join tmp (Backup.encode dbName t)) s3Bucket s3KeyPrefix)
    tr ->
  Forall (put_layout s3Bucket s3KeyPrefix (dbName :: rest)) tr.
Proof.
  intros Htmp HF. eapply Forall_impl; [exact HF|]. intros [] H; try exact I.
  destruct H as (Hb & Ha & Hk & Hbody). subst body.
  repeat split; try assumption. exists dbName, t, tmp.
  repeat split; try assumption. now left.
Qed.

Local Arguments dump_target : simpl never.

Ltac obs_app :=
  unfold dumped_paths, downloaded_paths, created_files in *;
  repeat first
    [ rewrite List.filter_app | rewrite omap_app | rewrite flat_map_app
    | rewrite length_app | rewrite list_to_set_app_L ].

Lemma backupLoop_spec (dbHost : string) (dbPort : Z)
    (dbUser dbPassword s3Bucket s3KeyPrefix region : string)
    (databases : list string) :
  forall (deferred : list string) (st : State),
  exists tr d st',
    Backup.backupLoop env dbHost dbPort dbUser dbPassword s3Bucket
      s3KeyPrefix region databases deferred st = (d, st')
    /\ trace st' = trace st ++ tr
    /\ d = rev (dumped_paths tr) ++ deferred
    /\ fs st' = fs st ∪ list_to_set (created_files tr)
    /\ List.filter is_remove tr = []
    /\ List.filter (announces backup_marker) tr
       = map (announce backup_marker) databases
    /\ length (List.filter is_log tr) = length (List.filter failed tr)
    /\ Forall (put_layout s3Bucket s3KeyPrefix databases) tr.
Proof.
  induction databases as [|dbName rest IH]; intros deferred st.
  - exists [], deferred, st. simpl. rewrite app_nil_r.
    repeat split; try reflexivity; [set_solver | constructor].
  - cbn [Backup.backupLoop]. unfold bind, emit. cbv beta iota zeta.
    match goal with
    | |- context [Backup.backupDatabase _ _ _ _ _ _ ?s] =>
        destruct (backupDatabase_spec dbName dbUser dbPassword dbHost dbPort s)
          as (argv & [[e|] crt] & tmp & t & st1 & Heq & Htr1 & Hfs1 & Htgt & Htmp)
    end; rewrite Heq; cbn [trace fs penv exit_error created] in *.
    + (* the dump failed *)
      match goal with
      | |- context [Backup.backupLoop _ _ _ _ _ _ _ _ rest ?d ?s] =>
          destruct (IH d s)
            as (tr & d' & st' & Hrun & Htr & Hd & Hfs & Hrm & Hann & Hlog & Hput)
      end.
      rewrite Hrun. cbn [trace fs penv] in *.
      exists ([announce backup_marker dbName; Setenv "PGPASSWORD" dbPassword;
               Exec argv (mkExec (Some e) crt);
               LogPrintf ("Failed to backup database " +:+ dbName
                 +:+ ": " +:+ "failed to backup database: " +:+ e)] ++ tr),
        d', st'.
      split; [reflexivity|]. split.
      { rewrite Htr, Htr1. now rewrite <- !app_assoc. }
      split. { obs_app. cbn. exact Hd. }
      split. { obs_app. rewrite Hfs, Hfs1. cbn. set_solver. }
      split. { obs_app. now rewrite Hrm. }
      split. { obs_app. rewrite Hann. cbn [List.filter]. now rewrite announces_announce. }
      split. { obs_app. now rewrite Hlog. }
      apply Forall_app. split; [repeat constructor|].
      now apply put_layout_weaken.
    + (* the dump succeeded: the removal is registered, then the upload *)
      match goal with
      | |- context [Backup.uploadToS3 _ ?p _ _ _ ?s] =>
          destruct (uploadToS3_spec p s3Bucket s3KeyPrefix region s)
            as (err & tru & st2 & Hup & Htr2 & Hfs2 & Hrm2 & Hann2 & Hlog2
                & Hfail2 & Hdump2 & Hcr2 & Hput2)
      end.
      rewrite Hup.
      apply (put_request_layout _ _ _ _ _ rest) in Hput2; [|exact Htmp].
      destruct err as [e|].
      * match goal with
        | |- context [Backup.backupLoop _ _ _ _ _ _ _ _ rest ?d ?s] =>
            destruct (IH d s)
              as (tr & d' & st' & Hrun & Htr & Hd & Hfs & Hrm & Hann & Hlog & Hput)
        end.
        rewrite Hrun. cbn [trace fs penv] in *.
        exists ([announce backup_marker dbName; Setenv "PGPASSWORD" dbPassword;
                 Exec argv (mkExec None crt)] ++ tru
                ++ [LogPrintf ("Failed to upload backup for database "
                      +:+ dbName +:+ ": " +:+ e)] ++ tr),
          d', st'.
        split; [reflexivity|]. split.
        { rewrite Htr, Htr2, Htr1. now rewrite <- !app_assoc. }
        split. { obs_app. rewrite Hd, Hdump2, <- Htgt. cbn. now rewrite <- app_assoc. }
        split. { obs_app. rewrite Hfs, Hfs2, Hfs1, Hcr2. cbn. set_solver. }
        split. { obs_app. now rewrite Hrm, Hrm2. }
        split. { obs_app. rewrite Hann, Hann2. cbn [List.filter]. now rewrite announces_announce. }
        split. { obs_app. rewrite Hlog, Hlog2, Hfail2. cbn. lia. }
        apply Forall_app. split; [repeat constructor|].
        apply Forall_app. split; [exact Hput2|].
        apply Forall_app. split; [repeat constructor|].
        now apply put_layout_weaken.
      * match goal with
        | |- context [Backup.backupLoop _ _ _ _ _ _ _ _ rest ?d ?s] =>
            destruct (IH d s)
              as (tr & d' & st' & Hrun & Htr & Hd & Hfs & Hrm & Hann & Hlog & Hput)
        end.
        rewrite Hrun. cbn [trace fs penv] in *.
        exists ([announce backup_marker dbName; Setenv "PGPASSWORD" dbPassword;
                 Exec argv (mkExec None crt)] ++ tru ++ tr),
          d', st'.
        split; [reflexivity|]. split.
        { rewrite Htr, Htr2, Htr1. now rewrite <- !app_assoc. }
        split. { obs_app. rewrite Hd, Hdump2, <- Htgt. cbn. now rewrite <- app_assoc. }
        split. { obs_app. rewrite Hfs, Hfs2, Hfs1, Hcr2. cbn. set_solver. }
        split. { obs_app. now rewrite Hrm, Hrm2. }
        split. { obs_app. rewrite Hann, Hann2. cbn [List.filter]. now rewrite announces_announce. }
        split. { obs_app. rewrite Hlog, Hlog2, Hfail2. cbn. lia. }
        apply Forall_app. split; [repeat constructor|].
        apply Forall_app. split; [exact Hput2|].
        now apply put_layout_weaken.
Qed.

Lemma downloadFromS3_spec (s3Bucket s3Key destinationPath region : string)
    (st : State) :
  exists err tr st',
    Restore.downloadFromS3 env s3Bucket s3Key destinationPath region st
    = (err, st')
    /\ trace st' = trace st ++ tr
    /\ fs st' = fs st ∪ list_to_set (created_files tr)
    /\ List.filter is_remove tr = []
    /\ List.filter (announces restore_marker) tr = []
    /\ List.filter is_log tr = []
    /\ length (List.filter failed tr)
       = match err with Some _ => 1%nat | None => 0%nat end
    /\ List.filter is_exec tr = []
    /\ downloaded_paths tr
       = match err with Some _ => [] | None => [destinationPath] end.
Proof.
  unfold Restore.downloadFromS3. unfold_lib.
  destruct (config_load env (trace st) region) as [e|] eqn:Hcfg.
  { eexists _, [_], _. cbn [trace fs].
    repeat split; try reflexivity; cbn; set_solver. }
  unfold_lib.
  destruct (os_create env _ destinationPath) as [e|] eqn:Hcreate.
  { eexists _, [_; _], _. cbn [trace fs]. rewrite snoc2.
    repeat split; try reflexivity; cbn; set_solver. }
  unfold_lib.
  destruct (s3_get env _ s3Bucket s3Key) as [e|] eqn:Hget.
  { eexists _, [_; _; _; _], _. cbn [trace fs].
    rewrite <- !app_assoc. cbn [app].
    repeat split; try reflexivity; cbn; set_solver. }
  eexists _, [_; _; _; _; _], _. cbn [trace fs].
  rewrite <- !app_assoc. cbn [app].
  repeat split; try reflexivity; cbn; set_solver.
Qed.

Lemma restoreDatabase_spec (dbName dbUser dbPassword dbHost : string)
    (dbPort : Z) (backupFilePath : string) (st : State) :
  exists err tr st',
    Restore.restoreDatabase env dbName dbUser dbPassword dbHost dbPort
      backupFilePath st = (err, st')
    /\ trace st' = trace st ++ tr
    /\ fs st' = fs st ∪ list_to_set (created_files tr)
    /\ List.filter is_remove tr = []
    /\ List.filter (announces restore_marker) tr = []
    /\ List.filter is_log tr = []
    /\ length (List.filter failed tr)
       = match err with Some _ => 1%nat | None => 0%nat end
    /\ length (List.filter is_exec tr) = 1%nat
    /\ downloaded_paths tr = [].
Proof.
  unfold Restore.restoreDatabase. unfold_lib.
  destruct (cmd_run env _ _) as [[e|] crt] eqn:Hrun; cbn [exit_error created].
  - eexists _, [_; Exec _ (mkExec (Some e) crt)], _. cbn [trace fs].
    rewrite snoc2.
    repeat split; try reflexivity; cbn; set_solver.
  - eexists _, [_; Exec _ (mkExec None crt); _], _. cbn [trace fs].
    rewrite <- !app_assoc. cbn [app].
    repeat split; try reflexivity; cbn; set_solver.
Qed.

Lemma decode_decodable (s3Key : string) :
  decodable s3Key -> exists dbName, Restore.decode (Base s3Key) = Some dbName.
Proof.
  intros H. eexists. now apply decode_long.
Qed.

Lemma restoreLoop_spec (dbHost : string) (dbPort : Z)
    (dbUser dbPassword s3Bucket region : string) (backupFiles : list string) :
  forall (deferred : list string) (st : State),
  exists tr d panic st',
    Restore.restoreLoop env dbHost dbPort dbUser dbPassword s3Bucket region
      backupFiles deferred st = ((d, panic), st')
    /\ trace st' = trace st ++ tr
    /\ d = rev (downloaded_paths tr) ++ deferred
    /\ fs st' = fs st ∪ list_to_set (created_files tr)
    /\ List.filter is_remove tr = []
    /\ (exists n,
          List.filter (announces restore_marker) tr
          = map (announce restore_marker) (take n backupFiles))
    /\ (Forall decodable backupFiles -> panic = None)
    /\ (panic = None ->
        List.filter (announces restore_marker) tr
        = map (announce restore_marker) backupFiles
        /\ length (List.filter is_log tr) = length (List.filter failed tr)
        /\ length (List.filter is_exec tr) = length (downloaded_paths tr)).
Proof.
  induction backupFiles as [|s3Key rest IH]; intros deferred st.
  - exists [], deferred, None, st. simpl. rewrite app_nil_r.
    repeat split; try reflexivity; [set_solver | now exists 0%nat].
  - cbn [Restore.restoreLoop].
    unfold os_TempDir, os_Getenv, get_var. unfold bind, emit, ret.
    cbv beta iota zeta. cbn [trace fs penv].
    match goal with
    | |- context [Restore.downloadFromS3 _ _ _ ?p _ ?s] =>
        destruct (downloadFromS3_spec s3Bucket s3Key p region s)
          as (err & trd & st1 & Hdl & Htr1 & Hfs1 & Hrm1 & Hann1 & Hlog1
              & Hfail1 & Hexec1 & Hpaths1);
        set (backupFilePath := p) in *
    end.
    rewrite Hdl. cbn [trace fs penv] in *.
    destruct err as [e|].
    + (* the download failed *)
      match goal with
      | |- context [Restore.restoreLoop _ _ _ _ _ _ _ rest ?d ?s] =>
          destruct (IH d s)
            as (tr & d' & panic & st' & Hrun & Htr & Hd & Hfs & Hrm & [n Hpre]
                & Hok & Hobs)
      end.
      rewrite Hrun. cbn [trace fs penv] in *.
      exists ([announce restore_marker s3Key] ++ trd
              ++ [LogPrintf ("Failed to download backup file " +:+ s3Key
                    +:+ ": " +:+ e)] ++ tr), d', panic, st'.
      split; [reflexivity|]. split.
      { rewrite Htr, Htr1. now rewrite <- !app_assoc. }
      split. { obs_app. rewrite Hd, Hpaths1. reflexivity. }
      split. { obs_app. rewrite Hfs, Hfs1. cbn. set_solver. }
      split. { obs_app. now rewrite Hrm, Hrm1. }
      split. { exists (S n). obs_app. rewrite Hpre, Hann1. cbn [List.filter].
               now rewrite announces_announce. }
      split. { intros Hall. apply Hok. now inversion Hall. }
      intros Hnone. destruct (Hobs Hnone) as (Hann & Hlog & Hexec).
      split. { obs_app. rewrite Hann, Hann1. cbn [List.filter].
               now rewrite announces_announce. }
      split. { obs_app. rewrite Hlog, Hlog1, Hfail1. cbn. lia. }
      obs_app. rewrite Hexec, Hexec1, Hpaths1. reflexivity.
    + destruct (Restore.decode (Base s3Key)) as [dbName|] eqn:Hdec.
      * (* the name decodes: the restore tool runs *)
        match goal with
        | |- context [Restore.restoreDatabase _ ?n _ _ _ _ ?p ?s] =>
            destruct (restoreDatabase_spec n dbUser dbPassword dbHost dbPort p s)
              as (err & trr & st2 & Hrs & Htr2 & Hfs2 & Hrm2 & Hann2 & Hlog2
                  & Hfail2 & Hexec2 & Hpaths2)
        end.
        rewrite Hrs. cbn [trace fs penv] in *.
        destruct err as [e|].
        -- match goal with
           | |- context [Restore.restoreLoop _ _ _ _ _ _ _ rest ?d ?s] =>
               destruct (IH d s)
                 as (tr & d' & panic & st' & Hrun & Htr & Hd & Hfs & Hrm
                     & [n Hpre] & Hok & Hobs)
           end.
           rewrite Hrun. cbn [trace fs penv] in *.
           exists ([announce restore_marker s3Key] ++ trd ++ trr
                   ++ [LogPrintf ("Failed to restore database " +:+ dbName
                         +:+ ": " +:+ e)] ++ tr), d', panic, st'.
           split; [reflexivity|]. split.
           { rewrite Htr, Htr2, Htr1. now rewrite <- !app_assoc. }
           split. { obs_app. rewrite Hd, Hpaths1, Hpaths2. cbn.
                    now rewrite <- app_assoc. }
           split. { obs_app. rewrite Hfs, Hfs2, Hfs1. cbn. set_solver. }
           split. { obs_app. now rewrite Hrm, Hrm1, Hrm2. }
           split. { exists (S n). obs_app. rewrite Hpre, Hann1, Hann2.
                    cbn [List.filter]. now rewrite announces_announce. }
           split. { intros Hall. apply Hok. now inversion Hall. }
           intros Hnone. destruct (Hobs Hnone) as (Hann & Hlog & Hexec).
           split. { obs_app. rewrite Hann, Hann1, Hann2. cbn [List.filter].
                    now rewrite announces_announce. }
           split. { obs_app. rewrite Hlog, Hlog1, Hlog2, Hfail1, Hfail2. cbn. lia. }
           obs_app. rewrite Hexec, Hexec1, Hexec2, Hpaths1, Hpaths2. cbn. lia.
        -- match goal with
           | |- context [Restore.restoreLoop _ _ _ _ _ _ _ rest ?d ?s] =>
               destruct (IH d s)
                 as (tr & d' & panic & st' & Hrun & Htr & Hd & Hfs & Hrm
                     & [n Hpre] & Hok & Hobs)
           end.
           rewrite Hrun. cbn [trace fs penv] in *.
           exists ([announce restore_marker s3Key] ++ trd ++ trr ++ tr),
             d', panic, st'.
           split; [reflexivity|]. split.
           { rewrite Htr, Htr2, Htr1. now rewrite <- !app_assoc. }
           split. { obs_app. rewrite Hd, Hpaths1, Hpaths2. cbn.
                    now rewrite <- app_assoc. }
           split. { obs_app. rewrite Hfs, Hfs2, Hfs1. cbn. set_solver. }
           split. { obs_app. now rewrite Hrm, Hrm1, Hrm2. }
           split. { exists (S n). obs_app. rewrite Hpre, Hann1, Hann2.
                    cbn [List.filter]. now rewrite announces_announce. }
           split. { intros Hall. apply Hok. now inversion Hall. }
           intros Hnone. destruct (Hobs Hnone) as (Hann & Hlog & Hexec).
           split. { obs_app. rewrite Hann, Hann1, Hann2. cbn [List.filter].
                    now rewrite announces_announce. }
           split. { obs_app. rewrite Hlog, Hlog1, Hlog2, Hfail1, Hfail2. cbn. lia. }
           obs_app. rewrite Hexec, Hexec1, Hexec2, Hpaths1, Hpaths2. cbn. lia.
      * (* the slice expression panics: the loop is abandoned *)
        eexists ([announce restore_marker s3Key] ++ trd), _, _, _.
        split; [reflexivity|]. cbn [trace fs penv]. split.
        { rewrite Htr1. now rewrite <- !app_assoc. }
        split. { obs_app. rewrite Hpaths1. reflexivity. }
        split. { obs_app. rewrite Hfs1. cbn. set_solver. }
        split. { obs_app. now rewrite Hrm1. }
        split. { exists 1%nat. obs_app. rewrite Hann1. cbn [List.filter].
                 now rewrite announces_announce. }
        split; [|discriminate].
        intros Hall. inversion Hall as [|? ? Hk _]; subst.
        destruct (decode_decodable _ Hk) as (dbName & Hsome). congruence.
Qed.

Lemma list_to_set_rev (l : list string) :
  list_to_set (rev l) =@{gset string} list_to_set l.
Proof.
  induction l as [|x l IH]; [reflexivity|].
  cbn [rev]. rewrite list_to_set_app_L, IH. cbn. set_solver.
Qed.

Lemma run_deferred_spec (deferred : list string) :
  forall st : State,
  exists st',
    run_deferred deferred st = (tt, st')
    /\ trace st' = trace st ++ map OsRemove deferred
    /\ fs st' = fs st ∖ list_to_set deferred.
Proof.
  induction deferred as [|path rest IH]; intros st.
  - exists st. simpl. rewrite app_nil_r. repeat split. set_solver.
  - cbn [run_deferred]. unfold os_Remove. unfold bind, emit, del_file.
    cbv beta iota zeta. cbn [trace fs penv].
    match goal with
    | |- context [run_deferred rest ?s] =>
        destruct (IH s) as (st' & Hrun & Htr & Hfs)
    end.
    exists st'. rewrite Hrun. cbn [trace fs penv] in *.
    split; [reflexivity|]. split.
    + rewrite Htr. now rewrite <- app_assoc.
    + rewrite Hfs. cbn. set_solver.
Qed.

(** The value returned by [getDatabaseList], as a function of the
    answers of the catalog. *)
Lemma getDatabaseList_spec (dbHost : string) (dbPort : Z)
    (dbUser dbPassword : string) (st : State) :
  exists connStr r tr st',
    Backup.getDatabaseList env dbHost dbPort dbUser dbPassword st = (r, st')
    /\ r = match sql_open env (trace st) connStr with
           | Some e => ([], Some ("failed to connect to PostgreSQL: " +:+ e))
           | None =>
               match db_query env (trace st ++ [SqlOpen "postgres" connStr])
                       "SELECT datname FROM pg_database WHERE datistemplate = false;"
               with
               | QueryErr e => ([], Some ("failed to query databases: " +:+ e))
               | QueryRows rows => Backup.scanRows rows []
               end
           end
    /\ trace st' = trace st ++ tr
    /\ fs st' = fs st
    /\ List.filter is_remove tr = []
    /\ List.filter (announces backup_marker) tr = []
    /\ List.filter is_log tr = []
    /\ List.filter failed tr = []
    /\ List.filter is_exec tr = []
    /\ dumped_paths tr = []
    /\ created_files tr = []
    /\ uploaded_keys tr = []
    /\ forall bucket prefix dbs, Forall (put_layout bucket prefix dbs) tr.
Proof.
  unfold Backup.getDatabaseList. unfold_lib.
  match goal with
  | |- context [sql_open env (trace st) ?c] => exists c
  end.
  destruct (sql_open env (trace st) _) as [e|].
  { eexists _, [_], _. repeat split; try reflexivity. intros. repeat constructor. }
  unfold_lib. destruct (db_query env _ _) as [e|rows].
  - eexists _, [_; _; _], _. cbn [trace fs]. rewrite <- !app_assoc. cbn [app].
    repeat split; try reflexivity. intros. repeat constructor.
  - eexists _, [_; _; _; _], _. cbn [trace fs]. rewrite <- !app_assoc. cbn [app].
    repeat split; try reflexivity. intros. repeat constructor.
Qed.

Lemma backupAll_spec (dbHost : string) (dbPort : Z)
    (dbUser dbPassword s3Bucket s3KeyPrefix region : string) (st : State) :
  exists r tr0 st0 err tr st',
    Backup.getDatabaseList env dbHost dbPort dbUser dbPassword st = (r, st0)
    /\ trace st0 = trace st ++ tr0
    /\ Backup.backupAllDatabasesToS3 env dbHost dbPort dbUser dbPassword
         s3Bucket s3KeyPrefix region st = (err, st')
    /\ err = snd r
    /\ trace st' = trace st ++ tr ++ map OsRemove (rev (dumped_paths tr))
    /\ fs st' = (fs st ∪ list_to_set (created_files tr))
                  ∖ list_to_set (dumped_paths tr)
    /\ List.filter is_remove tr = []
    /\ (snd r = None ->
        List.filter (announces backup_marker) tr
        = map (announce backup_marker) (fst r)
        /\ length (List.filter is_log tr) = length (List.filter failed tr)
        /\ Forall (put_layout s3Bucket s3KeyPrefix (fst r)) tr).
Proof.
  destruct (getDatabaseList_spec dbHost dbPort dbUser dbPassword st)
    as (connStr & r & tr0 & st0 & Hlist & _ & Htr0 & Hfs0 & Hrm0 & Hann0 & Hlog0
        & Hfail0 & _ & Hdump0 & Hcr0 & _ & Hput0).
  unfold Backup.backupAllDatabasesToS3. unfold bind at 1. rewrite Hlist.
  destruct r as [databases [e|]].
  - exists (databases, Some e), tr0, st0, (Some e), tr0, st0. unfold ret.
    rewrite Hdump0, Hcr0. cbn [rev map snd]. rewrite app_nil_r.
    split; [reflexivity|]. split; [assumption|]. split; [reflexivity|].
    split; [reflexivity|]. split; [assumption|].
    split; [rewrite Hfs0; set_solver|]. split; [assumption | discriminate].
  - unfold bind, ret. 
    destruct (backupLoop_spec dbHost dbPort dbUser dbPassword s3Bucket
                s3KeyPrefix region databases [] st0)
      as (tr & d & st1 & Hloop & Htr1 & Hd & Hfs1 & Hrm1 & Hann1 & Hlog1 & Hput1).
    rewrite Hloop.
    destruct (run_deferred_spec d st1) as (st2 & Hrun & Htr2 & Hfs2).
    rewrite Hrun.
    exists (databases, None), tr0, st0, None, (tr0 ++ tr), st2.
    rewrite app_nil_r in Hd. subst d.
    split; [reflexivity|]. split; [assumption|]. split; [reflexivity|].
    split; [reflexivity|]. split.
    { rewrite Htr2, Htr1, Htr0. obs_app.
      rewrite Hdump0. now rewrite <- !app_assoc. }
    split.
    { rewrite Hfs2, Hfs1, Hfs0. obs_app. rewrite Hdump0, Hcr0.
      cbn. rewrite list_to_set_rev. set_solver. }
    split. { obs_app. now rewrite Hrm0, Hrm1. }
    intros _. cbn [fst].
    split. { obs_app. now rewrite Hann0, Hann1. }
    split. { obs_app. now rewrite Hlog0, Hfail0, Hlog1. }
    apply Forall_app. split; [apply Hput0 | exact Hput1].
Qed.

Lemma fold_left_snoc (l acc : list string) :
  fold_left (fun files key => files ++ [key]) l acc = acc ++ l.
Proof.
  revert acc. induction l as [|x l IH]; intros acc; simpl.
  - now rewrite app_nil_r.
  - rewrite IH. now rewrite <- app_assoc.
Qed.

(** The value returned by [listS3BackupFiles] and the calls it makes, as
    a function of the answers of the object store. *)
Lemma listS3BackupFiles_spec (s3Bucket s3KeyPrefix region : string)
    (st : State) :
  exists r tr st',
    Restore.listS3BackupFiles env s3Bucket s3KeyPrefix region st = (r, st')
    /\ trace st' = trace st ++ tr
    /\ fs st' = fs st
    /\ r = match config_load env (trace st) region with
           | Some e => ([], Some ("unable to load AWS config: " +:+ e))
           | None =>
               match s3_list env (trace st ++ [LoadDefaultConfig region None])
                       s3Bucket s3KeyPrefix with
               | Some e =>
                   ([], Some ("failed to list objects in S3 bucket: " +:+ e))
               | None =>
                   (Contents (first_page (s3_keys env s3Bucket) s3KeyPrefix),
                    None)
               end
           end
    /\ tr = LoadDefaultConfig region (config_load env (trace st) region)
            :: match config_load env (trace st) region with
               | Some _ => []
               | None =>
                   [ListObjectsV2 s3Bucket s3KeyPrefix
                      (s3_list env (trace st ++ [LoadDefaultConfig region None])
                         s3Bucket s3KeyPrefix)]
               end
    /\ List.filter is_remove tr = []
    /\ List.filter (announces restore_marker) tr = []
    /\ List.filter is_log tr = []
    /\ List.filter is_exec tr = []
    /\ downloaded_paths tr = []
    /\ created_files tr = []
    /\ (snd r = None -> List.filter failed tr = []).
Proof.
  unfold Restore.listS3BackupFiles. unfold_lib.
  destruct (config_load env (trace st) region) as [e|].
  { eexists _, _, _. repeat split; try reflexivity. discriminate. }
  unfold_lib.
  destruct (s3_list env _ s3Bucket s3KeyPrefix) as [e|].
  - eexists _, _, _. cbn [trace fs]. rewrite snoc2.
    repeat split; try reflexivity. discriminate.
  - eexists _, _, _. cbn [trace fs]. rewrite snoc2, fold_left_snoc.
    repeat split; reflexivity.
Qed.

Lemma restoreAll_spec (dbHost : string) (dbPort : Z)
    (dbUser dbPassword s3Bucket s3KeyPrefix region : string) (st : State) :
  exists r st0 out tr st',
    Restore.listS3BackupFiles env s3Bucket s3KeyPrefix region st = (r, st0)
    /\ Restore.restoreAllDatabasesFromS3 env dbHost dbPort dbUser dbPassword
         s3Bucket s3KeyPrefix region st = (out, st')
    /\ trace st' = trace st ++ tr ++ map OsRemove (rev (downloaded_paths tr))
    /\ fs st' = (fs st ∪ list_to_set (created_files tr))
                  ∖ list_to_set (downloaded_paths tr)
    /\ List.filter is_remove tr = []
    /\ (forall e, snd r = Some e -> out = Returned (Some e))
    /\ (snd r = None ->
        (forall e, out <> Returned (Some e))
        /\ (exists n,
              List.filter (announces restore_marker) tr
              = map (announce restore_marker) (take n (fst r)))
        /\ (Forall decodable (fst r) -> out = Returned None)
        /\ (out = Returned None ->
            List.filter (announces restore_marker) tr
            = map (announce restore_marker) (fst r)
            /\ length (List.filter is_log tr) = length (List.filter failed tr)
            /\ length (List.filter is_exec tr)
               = length (downloaded_paths tr))).
Proof.
  destruct (listS3BackupFiles_spec s3Bucket s3KeyPrefix region st)
    as (r & tr0 & st0 & Hlist & Htr0 & Hfs0 & _ & _ & Hrm0 & Hann0 & Hlog0
        & Hexec0 & Hdl0 & Hcr0 & Hfail0).
  unfold Restore.restoreAllDatabasesFromS3. unfold bind at 1. rewrite Hlist.
  destruct r as [backupFiles [e|]].
  - exists (backupFiles, Some e), st0, (Returned (Some e)), tr0, st0.
    unfold ret. rewrite Hdl0, Hcr0. cbn [rev map snd]. rewrite app_nil_r.
    split; [reflexivity|]. split; [reflexivity|]. split; [assumption|].
    split; [rewrite Hfs0; set_solver|]. split; [assumption|].
    split; [|discriminate]. intros e' [= <-]. reflexivity.
  - unfold bind, ret.
    destruct (restoreLoop_spec dbHost dbPort dbUser dbPassword s3Bucket region
                backupFiles [] st0)
      as (tr & d & panic & st1 & Hloop & Htr1 & Hd & Hfs1 & Hrm1 & [n Hpre]
          & Hok & Hobs).
    rewrite Hloop.
    destruct (run_deferred_spec d st1) as (st2 & Hrun & Htr2 & Hfs2).
    rewrite Hrun. rewrite app_nil_r in Hd. subst d.
    specialize (Hfail0 eq_refl).
    exists (backupFiles, None), st0,
      (match panic with Some msg => Panicked msg | None => Returned None end),
      (tr0 ++ tr), st2.
    split; [reflexivity|]. split; [now destruct panic|]. split.
    { rewrite Htr2, Htr1, Htr0. obs_app. rewrite Hdl0.
      now rewrite <- !app_assoc. }
    split.
    { rewrite Hfs2, Hfs1, Hfs0. obs_app. rewrite Hdl0, Hcr0.
      cbn. rewrite list_to_set_rev. set_solver. }
    split. { obs_app. now rewrite Hrm0, Hrm1. }
    split; [discriminate|]. intros _. cbn [fst].
    split. { intros e. now destruct panic. }
    split. { exists n. obs_app. now rewrite Hann0, Hpre. }
    split. { intros Hall. now rewrite (Hok Hall). }
    intros Hout. destruct panic as [msg|]; [discriminate|].
    destruct (Hobs eq_refl) as (Hann & Hlog & Hexec).
    split. { obs_app. now rewrite Hann0, Hann. }
    split. { obs_app. now rewrite Hlog0, Hfail0, Hlog. }
    obs_app. now rewrite Hexec0, Hdl0, Hexec.
Qed.

End Runs.
(** ** The claims *)

Section Claims.
Import Go World Lib Obs Layout Scenario.

(** *** Artifact Namer *)

Lemma decode_encode_roundtrip_witness :
  Restore.decode (Backup.encode "admindb" t2023) = Some "admindb".
Proof. apply decode_encode_roundtrip. simpl. lia. Defined.

(** C1, the claim as stated fails: in year 10000 the timestamp is
    rendered in 16 bytes, the suffix has 28 bytes, and cutting 27 bytes
    leaves the name followed by an underscore. *)
Lemma roundtrip_fails_in_year_10000 :
  Restore.decode (Backup.encode "admindb" t10000) = Some "admindb_"
  /\ Restore.decode (Backup.encode "admindb" t10000) <> Some "admindb".
Proof. split; [reflexivity | vm_compute; discriminate]. Qed.

Lemma decode_defined_on_long_names_witness :
  (exists dbName tail,
     Restore.decode "quarterly-report-2023-final.pdf" = Some dbName
     /\ "quarterly-report-2023-final.pdf" = dbName +:+ tail
     /\ String.length tail = 27%nat)
  /\ Restore.decode "1700000000" = None.
Proof.
  split.
  - apply (proj1 (decode_defined_on_long_names "quarterly-report-2023-final.pdf")).
    vm_compute. discriminate.
  - apply (proj2 (decode_defined_on_long_names "1700000000")).
    vm_compute. reflexivity.
Defined.

(** C3, the claim as stated fails: the base name of the key
    [1700000000/] has 10 bytes and the decoder returns nothing for it. *)
Lemma decode_panics_on_short_name :
  ~ exists dbName, Restore.decode (Base "1700000000/") = Some dbName.
Proof. intros [dbName H]. vm_compute in H. discriminate. Qed.

(** The scenario of the specification: the name is recovered from a
    well-formed file name. *)
Example decode_admindb :
  Restore.decode "admindb_backup_20231114_120000.sql" = Some "admindb".
Proof. reflexivity. Qed.

(** *** Orchestration *)


Lemma filter_removals (paths : list string) :
  List.filter is_remove (map OsRemove paths) = map OsRemove paths.
Proof. induction paths as [|p l IH]; [reflexivity | cbn; now rewrite IH]. Qed.

(** C4 (as amended).  In a backup run whose enumeration succeeded, every
    object is stored privately in the bucket under the key made of the
    run prefix -- the decimal Unix time read at process start --, a slash
    and the base name of the uploaded local file; whenever no enumerated
    database name contains a slash, that key is
    [<prefix>/<databaseName>_backup_<timestamp>.sql] for one of the
    enumerated databases. *)
Theorem uploaded_key_layout (env : Env) (files : gset string)
    (dbs : list string) (st1 : State) :
  Backup.getDatabaseList env "localhost" 5432 "postgres" "postgres"
    (initial files) = ((dbs, None), st1) ->
  forall bucket key body acl err,
    In (PutObject bucket key body acl err)
      (trace (Backup.main env (initial files)).2) ->
    let prefix := Itoa (Unix (clock env [])) in
    bucket = "kmf-db" /\ acl = ObjectCannedACLPrivate
    /\ key = prefix +:+ "/" +:+ Base body
    /\ (Forall (fun db => contains_slash db = false) dbs ->
        exists dbName t,
          In dbName dbs
          /\ key = prefix +:+ "/" +:+ dbName +:+ "_backup_" +:+ Format t
                   +:+ ".sql").
Proof.
  intros Henum bucket key body acl err.
  unfold Backup.main, time_Now, history. unfold bind, ret.
  cbv beta iota zeta.
  match goal with
  | |- context [Backup.backupAllDatabasesToS3 _ ?h ?p ?u ?w ?b ?k ?r ?s] =>
      destruct (backupAll_spec env h p u w b k r s)
        as (r0 & tr0 & st0 & e & tr & st' & Hlist & _ & Hall & Herr & Htr
            & _ & _ & Hobs)
  end.
  rewrite Henum in Hlist. injection Hlist as <- <-.
  cbn [fst snd] in *. subst e. rewrite Hall. cbn [snd].
  destruct (Hobs eq_refl) as (_ & _ & Hput).
  rewrite Htr. cbn [trace initial app]. intros Hin.
  apply in_app_or in Hin as [Hin|Hin].
  2:{ apply in_map_iff in Hin as (p & Heq & _). discriminate. }
  apply (proj1 (List.Forall_forall _ _) Hput) in Hin.
  destruct Hin as (Hb & Ha & Hk & dbName & t & tmp & Hdb & Htmp & Hbody).
  split; [exact Hb|]. split; [exact Ha|]. split; [exact Hk|].
  intros Hplain. exists dbName, t. split; [exact Hdb|].
  destruct (encode_plain dbName t
              (proj1 (List.Forall_forall _ _) Hplain _ Hdb))
    as (H0 & H1 & H2 & H3).
  rewrite Hk, Hbody, Base_Join by assumption. reflexivity.
Qed.

Lemma uploaded_key_layout_witness :
  "1700000000/userdb_backup_20231114_221320.sql"
  = "1700000000" +:+ "/" +:+ Base "/tmp/userdb_backup_20231114_221320.sql"
  /\ exists dbName t,
       In dbName ["admindb"; "agentdb"; "userdb"]
       /\ "1700000000/userdb_backup_20231114_221320.sql"
          = "1700000000" +:+ "/" +:+ dbName +:+ "_backup_" +:+ Format t
              +:+ ".sql".
Proof.
  destruct (uploaded_key_layout healthy ∅ ["admindb"; "agentdb"; "userdb"]
              (Backup.getDatabaseList healthy "localhost" 5432 "postgres"
                 "postgres" (initial ∅)).2)
    with (bucket := "kmf-db")
         (key := "1700000000/userdb_backup_20231114_221320.sql")
         (body := "/tmp/userdb_backup_20231114_221320.sql")
         (acl := ObjectCannedACLPrivate) (err := @None error)
    as (_ & _ & Hkey & Hname).
  - vm_compute. reflexivity.
  - vm_compute. auto 30.
  - split; [exact Hkey|]. apply Hname. repeat constructor.
Defined.

(** C4, the claim as stated fails: the database named [/b] is dumped to
    [/tmp/b_backup_20231114_221320.sql] and stored under
    [1700000000/b_backup_20231114_221320.sql], which is not
    [1700000000/] followed by [/b_backup_<timestamp>.sql] for any
    timestamp. *)
Lemma key_layout_fails_for_slash_in_name :
  (Backup.getDatabaseList slashed "localhost" 5432 "postgres" "postgres"
     (initial ∅)).1 = (["/b"], None)
  /\ uploaded_keys (trace (Backup.main slashed (initial ∅)).2)
     = ["1700000000/b_backup_20231114_221320.sql"]
  /\ forall t,
       "1700000000/b_backup_20231114_221320.sql"
       <> Itoa (Unix (clock slashed [])) +:+ "/" +:+ "/b" +:+ "_backup_"
            +:+ Format t +:+ ".sql".
Proof.
  split; [reflexivity|]. split; [reflexivity|].
  intros t H. cbv in H. discriminate H.
Qed.

(** The scenarios of the specification: three databases and the run
    prefix 1700000000 give three keys; a server without databases gives an
    empty, successful run. *)
Example healthy_backup_keys :
  (Backup.main healthy (initial ∅)).1 = 0
  /\ uploaded_keys (trace (Backup.main healthy (initial ∅)).2) = three_keys.
Proof. split; vm_compute; reflexivity. Qed.

Example empty_server_backup :
  (Backup.main unset_prefix (initial ∅)).1 = 0
  /\ uploaded_keys (trace (Backup.main unset_prefix (initial ∅)).2) = []
  /\ List.filter is_exec (trace (Backup.main unset_prefix (initial ∅)).2) = [].
Proof. repeat split; vm_compute; reflexivity. Qed.

(** With the dump of one database failing, the other two are still dumped
    and uploaded. *)
Example failed_dump_is_isolated :
  dumped_paths (trace (Backup.main troubled (initial ∅)).2)
  = ["/tmp/admindb_backup_20231114_221320.sql";
     "/tmp/userdb_backup_20231114_221320.sql"].
Proof. vm_compute. reflexivity. Qed.

(** *** Enumeration *)

(** The row loop returns all the names it was given or an error, never
    both. *)
Lemma scanRows_all_or_nothing (rows : Rows) (databases : list string) :
  (exists names, Backup.scanRows rows databases = (databases ++ names, None))
  \/ (exists e, Backup.scanRows rows databases = ([], Some e)).
Proof.
  revert databases. induction rows as [err|[dbName|e] rest IH]; intros databases.
  - left. exists []. simpl. now rewrite app_nil_r.
  - simpl. destruct (IH (databases ++ [dbName])) as [(names & H)|(e & H)].
    + left. exists (dbName :: names). rewrite H. now rewrite <- app_assoc.
    + right. now exists e.
  - right. simpl. now eexists.
Qed.

(** Failures of [sql.Open], of the query and of a [Scan] are fatal: the
    process exits with status 1 and nothing is dumped. *)
Lemma reported_enumeration_error_is_fatal (env : Env) (files : gset string)
    (dbs : list string) (e : error) (st1 : State) :
  Backup.getDatabaseList env "localhost" 5432 "postgres" "postgres"
    (initial files) = ((dbs, Some e), st1) ->
  (Backup.main env (initial files)).1 = 1
  /\ List.filter is_exec (trace (Backup.main env (initial files)).2) = [].
Proof.
  intros Henum.
  destruct (getDatabaseList_spec env "localhost" 5432 "postgres" "postgres"
              (initial files))
    as (c & r & tr & st' & Hlist & _ & Htr & _ & _ & _ & _ & _ & Hexec & _).
  rewrite Henum in Hlist. injection Hlist as <- <-.
  unfold Backup.main, time_Now, history, Backup.backupAllDatabasesToS3.
  unfold bind, ret, emit. cbv beta iota zeta. rewrite Henum.
  cbn [fst snd trace]. split; [reflexivity|].
  rewrite Htr. cbn [trace initial app]. rewrite List.filter_app, Hexec.
  reflexivity.
Qed.

(** C5, the code at the failing input.  The catalog connection breaks
    after the first row: [rows.Next()] returns false with a non-nil
    [rows.Err()].  [getDatabaseList] returns the one name read so far
    with a nil error, that database alone is dumped and uploaded, and the
    process exits with status 0. *)
Theorem interrupted_enumeration_goes_unnoticed :
  (Backup.getDatabaseList interrupted "localhost" 5432 "postgres" "postgres"
     (initial ∅)).1 = (["admindb"], None)
  /\ (Backup.main interrupted (initial ∅)).1 = 0
  /\ uploaded_keys (trace (Backup.main interrupted (initial ∅)).2)
     = ["1700000000/admindb_backup_20231114_221320.sql"].
Proof. repeat split; vm_compute; reflexivity. Qed.

(** *** Listing *)



(** C6.  [listS3BackupFiles] never issues more than one listing request,
    and exactly one once the client configuration is loaded.  When that
    request succeeds the function returns, with a nil error, the keys of
    the first page: the first [MaxKeys] keys carrying the prefix.  If
    more keys carry the prefix, the result is therefore shorter than the
    set of matching keys and still comes with a nil error. *)
Theorem single_listing_call (env : Env)
    (s3Bucket s3KeyPrefix region : string) (st : State) :
  let run := Restore.listS3BackupFiles env s3Bucket s3KeyPrefix region st in
  let matching :=
    List.filter (fun k => HasPrefix k s3KeyPrefix) (s3_keys env s3Bucket) in
  exists tr,
    trace run.2 = trace st ++ tr
    /\ (length (List.filter is_list_call tr) <= 1)%nat
    /\ (config_load env (trace st) region = None ->
        length (List.filter is_list_call tr) = 1%nat
        /\ (s3_list env (trace st ++ [LoadDefaultConfig region None])
              s3Bucket s3KeyPrefix = None ->
            run.1 = (take MaxKeys matching, None)
            /\ ((MaxKeys < length matching)%nat ->
                length run.1.1 = MaxKeys
                /\ (length run.1.1 < length matching)%nat))).
Proof.
  cbv zeta.
  destruct (listS3BackupFiles_spec env s3Bucket s3KeyPrefix region st)
    as (r & tr & st' & Hrun & Htr & _ & Hr & Htrace & _).
  rewrite Hrun. cbn [fst snd]. exists tr. split; [exact Htr|].
  subst tr. destruct (config_load env (trace st) region) as [e|].
  - split; [cbn; lia|]. discriminate.
  - split; [cbn; lia|]. intros _. split; [reflexivity|].
    intros Hlist. rewrite Hlist in Hr. subst r. cbn [fst snd first_page Contents].
    split; [reflexivity|]. intros Hmany.
    rewrite length_take. lia.
Qed.

Lemma single_listing_call_witness :
  exists tr,
    trace (Restore.listS3BackupFiles crowded "kmf-db" "1700000000"
             "ap-south-1" (initial ∅)).2 = trace (initial ∅) ++ tr
    /\ length (List.filter is_list_call tr) = 1%nat
    /\ length (Restore.listS3BackupFiles crowded "kmf-db" "1700000000"
                 "ap-south-1" (initial ∅)).1.1 = MaxKeys
    /\ (length (Restore.listS3BackupFiles crowded "kmf-db" "1700000000"
                  "ap-south-1" (initial ∅)).1.1
        < length (List.filter (fun k => HasPrefix k "1700000000")
                    (s3_keys crowded "kmf-db")))%nat.
Proof.
  destruct (single_listing_call crowded "kmf-db" "1700000000" "ap-south-1"
              (initial ∅)) as (tr & Htr & _ & H).
  destruct (H eq_refl) as (Hone & H').
  destruct (H' eq_refl) as (_ & H'').
  exists tr. split; [exact Htr|]. split; [exact Hone|].
  apply H''. vm_compute. lia.
Defined.

(** *** Cleanup *)

(** C7.  Whatever the collaborators answer, the trace of a backup run
    (resp. restore run) consists of a part without any removal followed by
    one [os.Remove] for each local file whose dump (resp. download)
    succeeded in that part, most recent first; the files left are those
    present or created before, minus the removed ones.  This covers every
    way the run function ends: the early return after a failed
    enumeration or listing, the normal return after per-item failures,
    and the panic of the restore loop. *)
Theorem cleanup_deferred_to_end_of_run (env : Env) (dbHost : string)
    (dbPort : Z) (dbUser dbPassword s3Bucket s3KeyPrefix region : string)
    (st : State) :
  (exists tr,
     let st' := (Backup.backupAllDatabasesToS3 env dbHost dbPort dbUser
                   dbPassword s3Bucket s3KeyPrefix region st).2 in
     trace st' = trace st ++ tr ++ map OsRemove (rev (dumped_paths tr))
     /\ List.filter is_remove tr = []
     /\ fs st' = (fs st ∪ list_to_set (created_files tr))
                   ∖ list_to_set (dumped_paths tr))
  /\ (exists tr,
       let st' := (Restore.restoreAllDatabasesFromS3 env dbHost dbPort dbUser
                     dbPassword s3Bucket s3KeyPrefix region st).2 in
       trace st' = trace st ++ tr ++ map OsRemove (rev (downloaded_paths tr))
       /\ List.filter is_remove tr = []
       /\ fs st' = (fs st ∪ list_to_set (created_files tr))
                     ∖ list_to_set (downloaded_paths tr)).
Proof.
  split.
  - destruct (backupAll_spec env dbHost dbPort dbUser dbPassword s3Bucket
                s3KeyPrefix region st)
      as (r & tr0 & st0 & err & tr & st' & _ & _ & Hall & _ & Htr & Hfs & Hrm & _).
    exists tr. rewrite Hall. cbn [snd]. now repeat split.
  - destruct (restoreAll_spec env dbHost dbPort dbUser dbPassword s3Bucket
                s3KeyPrefix region st)
      as (r & st0 & out & tr & st' & _ & Hall & Htr & Hfs & Hrm & _).
    exists tr. rewrite Hall. cbn [snd]. now repeat split.
Qed.

(** The panic of the restore loop is one of the exit paths: the file
    downloaded for the offending key is removed before the process
    dies. *)
Example cleanup_runs_before_panic :
  let run := Restore.main stray_key (initial ∅) in
  run.1 = 2
  /\ List.filter is_remove (trace run.2) = [OsRemove "/tmp/1600000000"]
  /\ fs run.2 = ∅.
Proof. repeat split; vm_compute; reflexivity. Qed.



(** *** Restore entry point *)




(** *** Restore executor *)

(** Every [pg_restore] command line carries the clean flag. *)
Lemma restore_argv_clean (dbName dbUser dbHost : string) (dbPort : Z)
    (backupFilePath : string) :
  In "-c" (Restore.restore_argv dbName dbUser dbHost dbPort backupFilePath)
  /\ hd EmptyString
       (Restore.restore_argv dbName dbUser dbHost dbPort backupFilePath)
     = "pg_restore".
Proof. split; [|reflexivity]. unfold Restore.restore_argv. simpl. auto 20. Qed.

End Claims.

(** ** More on paths and decimal renderings *)

Section MorePaths.
Import Go Obs.

Lemma split_plain (s : string) :
  Forall (fun x => contains_slash x = false) (split s).
Proof.
  induction s as [|c s IH]; simpl.
  - repeat constructor.
  - destruct (Ascii.eqb c slash) eqn:Hc.
    + constructor; [reflexivity | exact IH].
    + destruct (split s) as [|x xs]; [repeat constructor; simpl; now rewrite Hc|].
      inversion IH as [|? ? Hx Hxs]; subst.
      constructor; [simpl; now rewrite Hc | exact Hxs].
Qed.

Lemma last_nonempty_plain (l : list string) (x : string) :
  Forall (fun x => contains_slash x = false) l ->
  last_nonempty l = Some x ->
  contains_slash x = false /\ x <> EmptyString.
Proof.
  induction l as [|y l IH]; simpl; [discriminate|].
  intros Hall Hlast. inversion Hall as [|? ? Hy Hl]; subst.
  destruct (last_nonempty l) as [z|].
  - apply IH; assumption.
  - destruct (String.eqb_spec y EmptyString); [discriminate|].
    injection Hlast as <-. now split.
Qed.

(** [Base] returns a single slash or a path element without separator. *)
Lemma Base_plain (path : string) :
  Base path = "/"
  \/ (contains_slash (Base path) = false /\ Base path <> EmptyString).
Proof.
  unfold Base. destruct (String.eqb path EmptyString); [now right|].
  destruct (last_nonempty (split path)) as [x|] eqn:Hlast; [right | now left].
  exact (last_nonempty_plain _ _ (split_plain path) Hlast).
Qed.

(** What follows the last separator is the base name. *)
Lemma Base_after_slash (dir f : string) :
  contains_slash f = false -> f <> EmptyString ->
  Base (dir +:+ "/" +:+ f) = f.
Proof.
  intros Hslash Hne. unfold Base.
  destruct (String.eqb_spec (dir +:+ "/" +:+ f) EmptyString) as [Hemp|_].
  { destruct dir; discriminate. }
  rewrite split_append_slash, (split_no_slash f Hslash).
  now rewrite last_nonempty_snoc.
Qed.

(** The local copy of a key whose base name the decoder accepts carries
    that base name. *)
Lemma Base_Join_Base (dir s3Key : string) :
  dir <> EmptyString -> 3 <= len (Base s3Key) ->
  Base (Join dir (Base s3Key)) = Base s3Key.
Proof.
  intros Hdir Hlen.
  destruct (Base_plain s3Key) as [Hroot|[Hslash Hne]].
  { rewrite Hroot in Hlen. vm_compute in Hlen. now destruct Hlen. }
  apply Base_Join; try assumption;
    intros Heq; rewrite Heq in Hlen; vm_compute in Hlen; now destruct Hlen.
Qed.

Lemma decode_Some_long (backupFilename dbName : string) :
  Restore.decode backupFilename = Some dbName -> 27 <= len backupFilename.
Proof.
  intros Hdec. destruct (Z_lt_le_dec (len backupFilename) 27) as [Hlt|Hge].
  - rewrite (decode_short _ Hlt) in Hdec. discriminate.
  - exact Hge.
Qed.

Lemma decode_None_short (backupFilename : string) :
  Restore.decode backupFilename = None -> len backupFilename < 27.
Proof.
  intros Hdec. destruct (Z_lt_le_dec (len backupFilename) 27) as [Hlt|Hge].
  - exact Hlt.
  - rewrite (decode_long _ Hge) in Hdec. discriminate.
Qed.

(** Decimal renderings. *)

Lemma FormatUint_injective (m n : N) : FormatUint m = FormatUint n -> m = n.
Proof.
  unfold FormatUint. intros H.
  apply (f_equal NilEmpty.uint_of_string) in H.
  rewrite !NilEmpty.usu in H. injection H as H.
  apply (f_equal N.of_uint) in H.
  now rewrite !DecimalN.Unsigned.of_to in H.
Qed.

Lemma FormatUint_unsigned (n : N) (rest : string) :
  FormatUint n <> "-" +:+ rest.
Proof.
  rewrite append_cons, append_nil_l.
  unfold FormatUint. destruct (N.to_uint n); simpl; discriminate.
Qed.

Lemma Itoa_injective (x y : Z) : Itoa x = Itoa y -> x = y.
Proof.
  unfold Itoa.
  destruct (Z.ltb_spec x 0) as [Hx|Hx], (Z.ltb_spec y 0) as [Hy|Hy]; intros H.
  - rewrite !append_cons, !append_nil_l in H. injection H as H.
    apply FormatUint_injective in H. lia.
  - symmetry in H. now apply FormatUint_unsigned in H.
  - now apply FormatUint_unsigned in H.
  - apply FormatUint_injective in H. lia.
Qed.

Lemma Itoa_no_slash (x : Z) : contains_slash (Itoa x) = false.
Proof.
  unfold Itoa. destruct (x <? 0).
  - rewrite contains_slash_append, FormatUint_no_slash. reflexivity.
  - apply FormatUint_no_slash.
Qed.

(** Two strings that agree after a separator-free head and a separator
    have the same head. *)
Lemma head_before_slash (a b c d : string) :
  contains_slash a = false -> contains_slash c = false ->
  a +:+ "/" +:+ b = c +:+ "/" +:+ d -> a = c /\ b = d.
Proof.
  revert c. induction a as [|x a IH]; intros [|y c] Ha Hc Heq;
    repeat (rewrite append_cons in Heq || rewrite append_nil_l in Heq).
  - injection Heq as <-. now split.
  - injection Heq as <- _. simpl in Hc. discriminate.
  - injection Heq as -> _. simpl in Ha. discriminate.
  - injection Heq as <- Heq.
    simpl in Ha, Hc. apply orb_false_elim in Ha as [_ Ha].
    apply orb_false_elim in Hc as [_ Hc].
    destruct (IH c Ha Hc Heq) as [-> ->]. now split.
Qed.

(** A suffix can be cancelled. *)
Lemma append_cancel_r (a b s : string) : a +:+ s = b +:+ s -> a = b.
Proof.
  revert b. induction a as [|x a IH]; intros [|y b] Heq.
  - reflexivity.
  - apply (f_equal String.length) in Heq.
    rewrite append_nil_l, length_append in Heq. simpl in Heq. lia.
  - apply (f_equal String.length) in Heq.
    rewrite append_nil_l, length_append in Heq. simpl in Heq. lia.
  - rewrite !append_cons in Heq. injection Heq as <- Heq.
    now rewrite (IH b Heq).
Qed.

End MorePaths.

(** * Further properties of the two programs *)

Section Shapes.
Import Go World Lib Obs Layout Scenario Shape.

Ltac unfold_calls :=
  unfold exec_Run, config_LoadDefaultConfig, os_TempDir, os_Getenv,
    os_Setenv, time_Now, os_Remove, bind, ret, emit, history, add_files,
    del_file, set_var, get_var;
  cbn [trace fs penv fst snd].

Variable env : Env.

Lemma backupDatabase_shape (dbName dbUser dbPassword dbHost : string)
    (dbPort : Z) (st : State) :
  exists tmp t r st',
    tmp <> EmptyString
    /\ Backup.backupDatabase env dbName dbUser dbPassword dbHost dbPort st
       = (match exit_error r with
          | Some e => (EmptyString, Some ("failed to backup database: " +:+ e))
          | None => (Join tmp (Backup.encode dbName t), None)
          end, st')
    /\ trace st' = trace st
         ++ [Setenv "PGPASSWORD" dbPassword;
             Exec (dump_argv dbName dbUser dbHost dbPort
                     (Join tmp (Backup.encode dbName t))) r].
Proof.
  unfold Backup.backupDatabase. unfold_calls.
  match goal with
  | |- context [Join ?tmp (Backup.encode dbName ?t)] => exists tmp, t
  end.
  match goal with
  | |- context [cmd_run env ?h ?argv] => exists (cmd_run env h argv)
  end.
  eexists. split; [apply temp_dir_nonempty|]. split.
  - destruct (exit_error _); reflexivity.
  - cbn [trace]. apply snoc2.
Qed.

Lemma uploadToS3_shape (backupFilePath s3Bucket s3KeyPrefix region : string)
    (st : State) :
  exists err tr st',
    Backup.uploadToS3 env backupFilePath s3Bucket s3KeyPrefix region st
    = (err, st')
    /\ trace st' = trace st ++ tr
    /\ upload_segment backupFilePath s3Bucket s3KeyPrefix region err tr.
Proof.
  unfold Backup.uploadToS3. unfold_calls.
  destruct (config_load env (trace st) region) as [e|].
  { eexists _, _, _. split; [reflexivity|]. split; [reflexivity|]. constructor. }
  unfold_calls. destruct (os_open env _ backupFilePath) as [e|].
  { eexists _, _, _. split; [reflexivity|]. cbn [trace].
    split; [apply snoc2|]. constructor. }
  unfold_calls. destruct (s3_put env _ s3Bucket _ backupFilePath) as [e|].
  - eexists _, _, _. split; [reflexivity|]. cbn [trace]. split.
    + rewrite <- !app_assoc. reflexivity.
    + constructor.
  - eexists _, _, _. split; [reflexivity|]. cbn [trace]. split.
    + rewrite <- !app_assoc. reflexivity.
    + constructor.
Qed.

Lemma backupLoop_shape (dbHost : string) (dbPort : Z)
    (dbUser dbPassword s3Bucket s3KeyPrefix region : string)
    (databases : list string) :
  forall (deferred : list string) (st : State),
  exists segments d st',
    Backup.backupLoop env dbHost dbPort dbUser dbPassword s3Bucket
      s3KeyPrefix region databases deferred st = (d, st')
    /\ trace st' = trace st ++ concat segments
    /\ Forall2 (backup_segment dbHost dbPort dbUser dbPassword s3Bucket
                 s3KeyPrefix region) databases segments.
Proof.
  induction databases as [|dbName rest IH]; intros deferred st.
  - exists [], deferred, st. cbn. rewrite app_nil_r. repeat split. constructor.
  - cbn [Backup.backupLoop]. unfold bind, emit. cbv beta iota zeta.
    match goal with
    | |- context [Backup.backupDatabase _ _ _ _ _ _ ?s] =>
        destruct (backupDatabase_shape dbName dbUser dbPassword dbHost dbPort s)
          as (tmp & t & [[e|] crt] & st1 & Htmp & Heq & Htr1)
    end; rewrite Heq; cbn [trace fs penv exit_error] in *.
    + match goal with
      | |- context [Backup.backupLoop _ _ _ _ _ _ _ _ rest ?d ?s] =>
          destruct (IH d s) as (segments & d' & st' & Hrun & Htr & Hall)
      end.
      rewrite Hrun. cbn [trace] in Htr.
      exists ([announce backup_marker dbName; Setenv "PGPASSWORD" dbPassword;
               Exec (dump_argv dbName dbUser dbHost dbPort
                       (Join tmp (Backup.encode dbName t)))
                 (mkExec (Some e) crt);
               LogPrintf ("Failed to backup database " +:+ dbName +:+ ": "
                            +:+ "failed to backup database: " +:+ e)]
              :: segments), d', st'.
      split; [reflexivity|]. split.
      * rewrite Htr, Htr1. cbn [concat]. rewrite <- !app_assoc. reflexivity.
      * constructor; [|exact Hall]. constructor. exact Htmp.
    + match goal with
      | |- context [Backup.uploadToS3 _ ?p _ _ _ ?s] =>
          destruct (uploadToS3_shape p s3Bucket s3KeyPrefix region s)
            as (err & upload & st2 & Hup & Htr2 & Hshape)
      end.
      rewrite Hup. destruct err as [e|].
      * match goal with
        | |- context [Backup.backupLoop _ _ _ _ _ _ _ _ rest ?d ?s] =>
            destruct (IH d s) as (segments & d' & st' & Hrun & Htr & Hall)
        end.
        rewrite Hrun. cbn [trace] in Htr.
        exists (([announce backup_marker dbName;
                  Setenv "PGPASSWORD" dbPassword;
                  Exec (dump_argv dbName dbUser dbHost dbPort
                          (Join tmp (Backup.encode dbName t)))
                    (mkExec None crt)]
                 ++ upload
                 ++ [LogPrintf ("Failed to upload backup for database "
                                  +:+ dbName +:+ ": " +:+ e)])
                :: segments), d', st'.
        split; [reflexivity|]. split.
        -- rewrite Htr, Htr2, Htr1. cbn [concat].
           rewrite <- !app_assoc. reflexivity.
        -- constructor; [|exact Hall]. constructor; assumption.
      * match goal with
        | |- context [Backup.backupLoop _ _ _ _ _ _ _ _ rest ?d ?s] =>
            destruct (IH d s) as (segments & d' & st' & Hrun & Htr & Hall)
        end.
        rewrite Hrun.
        exists (([announce backup_marker dbName;
                  Setenv "PGPASSWORD" dbPassword;
                  Exec (dump_argv dbName dbUser dbHost dbPort
                          (Join tmp (Backup.encode dbName t)))
                    (mkExec None crt)]
                 ++ upload)
                :: segments), d', st'.
        split; [reflexivity|]. split.
        -- rewrite Htr, Htr2, Htr1. cbn [concat].
           rewrite <- !app_assoc. reflexivity.
        -- constructor; [|exact Hall]. constructor; assumption.
Qed.

Lemma scanRows_error (rows : Rows) (databases names : list string)
    (msg : error) :
  Backup.scanRows rows databases = (names, Some msg) ->
  names = [] /\ exists e, msg = "failed to scan database name: " +:+ e.
Proof.
  revert databases. induction rows as [err|[dbName|e] rest IH];
    intros databases; cbn [Backup.scanRows].
  - discriminate.
  - apply IH.
  - intros [= <- <-]. split; [reflexivity | now exists e].
Qed.

Lemma scanRows_rows_then (names : list string) (tail : Rows)
    (databases : list string) :
  Backup.scanRows (rows_then names tail) databases
  = Backup.scanRows tail (databases ++ names).
Proof.
  revert databases. induction names as [|n names IH]; intros databases.
  - cbn. now rewrite app_nil_r.
  - cbn [rows_then fold_right Backup.scanRows]. fold (rows_then names tail).
    rewrite IH. now rewrite <- app_assoc.
Qed.

(** The result and the events of [getDatabaseList]: the connection is
    closed on every path after a successful open, the cursor after a
    successful query, cursor first. *)
Lemma getDatabaseList_shape (dbHost : string) (dbPort : Z)
    (dbUser dbPassword : string) (st : State) :
  exists r tr st',
    Backup.getDatabaseList env dbHost dbPort dbUser dbPassword st = (r, st')
    /\ trace st' = trace st ++ tr
    /\ fs st' = fs st
    /\ match snd r with
       | None => tr = enumeration_events dbHost dbPort dbUser dbPassword
       | Some msg =>
           fst r = []
           /\ failed_enumeration dbHost dbPort dbUser dbPassword msg tr
       end.
Proof.
  unfold Backup.getDatabaseList. unfold_calls.
  fold (conn_string dbHost dbPort dbUser dbPassword). fold catalog_query.
  destruct (sql_open env (trace st) _) as [e|].
  { eexists _, _, _. split; [reflexivity|]. split; [reflexivity|].
    split; [reflexivity|]. cbn [snd fst]. split; [reflexivity | constructor]. }
  unfold_calls. destruct (db_query env _ _) as [e|rows].
  { eexists _, _, _. split; [reflexivity|]. cbn [trace fs].
    split; [rewrite <- !app_assoc; reflexivity|].
    split; [reflexivity|]. cbn [snd fst]. split; [reflexivity | constructor]. }
  eexists _, _, _. split; [reflexivity|]. cbn [trace fs].
  split; [rewrite <- !app_assoc; reflexivity|]. split; [reflexivity|].
  destruct (Backup.scanRows rows []) as [names [msg|]] eqn:Hscan; cbn [snd fst].
  - destruct (scanRows_error _ _ _ _ Hscan) as (-> & e & ->).
    split; [reflexivity | constructor].
  - reflexivity.
Qed.

Lemma listS3BackupFiles_shape (s3Bucket s3KeyPrefix region : string)
    (st : State) :
  exists r tr st',
    Restore.listS3BackupFiles env s3Bucket s3KeyPrefix region st = (r, st')
    /\ trace st' = trace st ++ tr
    /\ fs st' = fs st
    /\ match snd r with
       | None => tr = listing_events s3Bucket s3KeyPrefix region
       | Some msg =>
           fst r = [] /\ failed_listing s3Bucket s3KeyPrefix region msg tr
       end.
Proof.
  unfold Restore.listS3BackupFiles. unfold_calls.
  destruct (config_load env (trace st) region) as [e|].
  { eexists _, _, _. split; [reflexivity|]. split; [reflexivity|].
    split; [reflexivity|]. cbn [snd fst]. split; [reflexivity | constructor]. }
  unfold_calls. destruct (s3_list env _ s3Bucket s3KeyPrefix) as [e|].
  - eexists _, _, _. split; [reflexivity|]. cbn [trace fs].
    split; [apply snoc2|]. split; [reflexivity|]. cbn [snd fst].
    split; [reflexivity | constructor].
  - eexists _, _, _. split; [reflexivity|]. cbn [trace fs].
    split; [apply snoc2|]. split; reflexivity.
Qed.

Lemma downloadFromS3_shape (s3Bucket s3Key destinationPath region : string)
    (st : State) :
  exists err tr st',
    Restore.downloadFromS3 env s3Bucket s3Key destinationPath region st
    = (err, st')
    /\ trace st' = trace st ++ tr
    /\ download_segment s3Bucket s3Key destinationPath region err tr.
Proof.
  unfold Restore.downloadFromS3. unfold_calls.
  destruct (config_load env (trace st) region) as [e|].
  { eexists _, _, _. split; [reflexivity|]. split; [reflexivity|]. constructor. }
  unfold_calls. destruct (os_create env _ destinationPath) as [e|].
  { eexists _, _, _. split; [reflexivity|]. cbn [trace].
    split; [apply snoc2|]. constructor. }
  unfold_calls. destruct (s3_get env _ s3Bucket s3Key) as [e|].
  - eexists _, _, _. split; [reflexivity|]. cbn [trace]. split.
    + rewrite <- !app_assoc. reflexivity.
    + constructor.
  - eexists _, _, _. split; [reflexivity|]. cbn [trace]. split.
    + rewrite <- !app_assoc. reflexivity.
    + constructor.
Qed.

Lemma restoreDatabase_shape (dbName dbUser dbPassword dbHost : string)
    (dbPort : Z) (backupFilePath : string) (st : State) :
  exists r st',
    Restore.restoreDatabase env dbName dbUser dbPassword dbHost dbPort
      backupFilePath st
    = (match exit_error r with
       | Some e =>
           Some ("failed to restore database " +:+ dbName +:+ ": " +:+ e)
       | None => None
       end, st')
    /\ trace st' = trace st
         ++ [Setenv "PGPASSWORD" dbPassword;
             Exec (Restore.restore_argv dbName dbUser dbHost dbPort
                     backupFilePath) r]
         ++ match exit_error r with
            | Some _ => []
            | None =>
                [Stdout ("Database " +:+ dbName
                           +:+ " restored successfully from "
                           +:+ backupFilePath +:+ nl)]
            end.
Proof.
  unfold Restore.restoreDatabase. unfold_calls.
  match goal with
  | |- context [cmd_run env ?h ?argv] => exists (cmd_run env h argv)
  end.
  destruct (exit_error _).
  - eexists. split; [reflexivity|]. cbn [trace].
    rewrite <- !app_assoc. reflexivity.
  - eexists. split; [reflexivity|]. cbn [trace].
    rewrite <- !app_assoc. reflexivity.
Qed.

Lemma restoreLoop_shape (dbHost : string) (dbPort : Z)
    (dbUser dbPassword s3Bucket region : string) (backupFiles : list string) :
  forall (deferred : list string) (st : State),
  exists d panic st',
    Restore.restoreLoop env dbHost dbPort dbUser dbPassword s3Bucket region
      backupFiles deferred st = ((d, panic), st')
    /\ ((panic = None
         /\ exists segments,
              trace st' = trace st ++ concat segments
              /\ Forall2 (restore_segment dbHost dbPort dbUser dbPassword
                            s3Bucket region) backupFiles segments)
        \/ (exists processed s3Key rest segments last,
              panic = Some ("runtime error: slice bounds out of range [:"
                              +:+ Itoa (len (Base s3Key) - 27) +:+ "]")
              /\ backupFiles = processed ++ s3Key :: rest
              /\ trace st' = trace st ++ concat segments ++ last
              /\ Forall2 (restore_segment dbHost dbPort dbUser dbPassword
                            s3Bucket region) processed segments
              /\ panic_segment s3Bucket region s3Key last)).
Proof.
  induction backupFiles as [|s3Key rest IH]; intros deferred st.
  - exists deferred, None, st. split; [reflexivity|]. left.
    split; [reflexivity|]. exists []. cbn. rewrite app_nil_r.
    split; [reflexivity | constructor].
  - cbn [Restore.restoreLoop].
    unfold os_TempDir, os_Getenv, get_var. unfold bind, emit, ret.
    cbv beta iota zeta. cbn [trace fs penv].
    match goal with
    | |- context [Restore.downloadFromS3 _ _ _ (Join ?tmp _) _ ?s] =>
        destruct (downloadFromS3_shape s3Bucket s3Key
                    (Join tmp (Base s3Key)) region s)
          as (err & download & st1 & Hdl & Htr1 & Hshape);
        pose proof (temp_dir_nonempty
                      (default (environ env "TMPDIR") (penv st !! "TMPDIR")))
          as Htmp;
        set (dir := tmp) in *
    end.
    rewrite Hdl. cbn [trace] in Htr1.
    assert (Hcons : forall seg d panic st',
      (exists d0 st0,
         Restore.restoreLoop env dbHost dbPort dbUser dbPassword s3Bucket
           region rest d0 st0 = ((d, panic), st')
         /\ trace st0 = trace st ++ seg)
      -> restore_segment dbHost dbPort dbUser dbPassword s3Bucket region
           s3Key seg
      -> (panic = None
          /\ exists segments,
               trace st' = trace st ++ concat segments
               /\ Forall2 (restore_segment dbHost dbPort dbUser dbPassword
                             s3Bucket region) (s3Key :: rest) segments)
         \/ (exists processed key rest' segments last,
               panic = Some ("runtime error: slice bounds out of range [:"
                               +:+ Itoa (len (Base key) - 27) +:+ "]")
               /\ s3Key :: rest = processed ++ key :: rest'
               /\ trace st' = trace st ++ concat segments ++ last
               /\ Forall2 (restore_segment dbHost dbPort dbUser dbPassword
                             s3Bucket region) processed segments
               /\ panic_segment s3Bucket region key last)).
    { intros seg d panic st' (d0 & st0 & Hrun & Htr0) Hseg.
      destruct (IH d0 st0) as (d' & panic' & st'' & Hrun' & Hcases).
      rewrite Hrun in Hrun'. injection Hrun' as <- <- <-.
      destruct Hcases as [(-> & segments & Htr & Hall)
                         |(processed & key & rest' & segments & last & -> & ->
                           & Htr & Hall & Hlast)].
      - left. split; [reflexivity|]. exists (seg :: segments). split.
        + rewrite Htr, Htr0. cbn [concat]. now rewrite <- !app_assoc.
        + now constructor.
      - right. exists (s3Key :: processed), key, rest', (seg :: segments), last.
        split; [reflexivity|]. split; [reflexivity|]. split.
        + rewrite Htr, Htr0. cbn [concat]. now rewrite <- !app_assoc.
        + split; [now constructor | exact Hlast]. }
    destruct err as [e|].
    + match goal with
      | |- context [Restore.restoreLoop _ _ _ _ _ _ _ rest ?d ?s] =>
          destruct (Restore.restoreLoop env dbHost dbPort dbUser dbPassword
                      s3Bucket region rest d s) as [[d' panic] st'] eqn:Hrun
      end.
      exists d', panic, st'. split; [reflexivity|].
      refine (Hcons ([announce restore_marker s3Key] ++ download
                    ++ [LogPrintf ("Failed to download backup file "
                                     +:+ s3Key +:+ ": " +:+ e)]) d' panic st' _ _).
      * eexists _, _. split; [exact Hrun|]. cbn [trace]. rewrite Htr1.
        now rewrite <- !app_assoc.
      * now apply (restore_download_failed _ _ _ _ _ _ _ dir).
    + destruct (Restore.decode (Base s3Key)) as [dbName|] eqn:Hdec.
      * match goal with
        | |- context [Restore.restoreDatabase _ ?n _ _ _ _ ?p ?s] =>
            destruct (restoreDatabase_shape n dbUser dbPassword dbHost dbPort
                        p s) as ([[e|] crt] & st2 & Hrs & Htr2)
        end; rewrite Hrs; cbn [exit_error] in *.
        -- match goal with
           | |- context [Restore.restoreLoop _ _ _ _ _ _ _ rest ?d ?s] =>
               destruct (Restore.restoreLoop env dbHost dbPort dbUser
                           dbPassword s3Bucket region rest d s)
                 as [[d' panic] st'] eqn:Hrun
           end.
           exists d', panic, st'. split; [reflexivity|].
           refine (Hcons ([announce restore_marker s3Key] ++ download
                    ++ [Setenv "PGPASSWORD" dbPassword;
                        Exec (Restore.restore_argv dbName dbUser dbHost dbPort
                                (Join dir (Base s3Key)))
                          (mkExec (Some e) crt);
                        LogPrintf ("Failed to restore database " +:+ dbName
                                     +:+ ": " +:+ "failed to restore database "
                                     +:+ dbName +:+ ": " +:+ e)]) d' panic st' _ _).
           ++ eexists _, _. split; [exact Hrun|]. cbn [trace].
              rewrite Htr2, Htr1. rewrite <- !app_assoc. reflexivity.
           ++ now apply (restore_tool_failed _ _ _ _ _ _ _ dir).
        -- match goal with
           | |- context [Restore.restoreLoop _ _ _ _ _ _ _ rest ?d ?s] =>
               destruct (Restore.restoreLoop env dbHost dbPort dbUser
                           dbPassword s3Bucket region rest d s)
                 as [[d' panic] st'] eqn:Hrun
           end.
           exists d', panic, st'. split; [reflexivity|].
           refine (Hcons ([announce restore_marker s3Key] ++ download
                    ++ [Setenv "PGPASSWORD" dbPassword;
                        Exec (Restore.restore_argv dbName dbUser dbHost dbPort
                                (Join dir (Base s3Key)))
                          (mkExec None crt);
                        Stdout ("Database " +:+ dbName
                                  +:+ " restored successfully from "
                                  +:+ Join dir (Base s3Key) +:+ nl)]) d' panic st' _ _).
           ++ eexists _, _. split; [exact Hrun|].
              rewrite Htr2, Htr1. rewrite <- !app_assoc. reflexivity.
           ++ now apply (restore_done _ _ _ _ _ _ _ dir).
      * eexists _, _, _. split; [reflexivity|]. right.
        exists [], s3Key, rest, [], ([announce restore_marker s3Key] ++ download).
        split; [reflexivity|]. split; [reflexivity|]. split.
        -- rewrite Htr1. cbn [concat]. now rewrite <- !app_assoc.
        -- split; [constructor|]. now apply (restore_panicked _ _ _ dir).
Qed.

End Shapes.

(** ** Properties of traces *)

Section TraceProperties.
Import Go World Lib Obs Layout Scenario Shape.

Lemma each_after_nil (P : list Event -> Event -> Prop) : each_after P [].
Proof. intros pre e post H. now destruct pre. Qed.

Lemma each_after_app (P : list Event -> Event -> Prop) (a b : list Event) :
  each_after P (a ++ b)
  <-> each_after P a /\ each_after (fun pre e => P (a ++ pre) e) b.
Proof.
  split.
  - intros H. split.
    + intros pre e post ->. apply (H pre e (post ++ b)).
      now rewrite <- app_assoc.
    + intros pre e post ->. apply (H (a ++ pre) e post).
      now rewrite <- app_assoc.
  - intros [Ha Hb] pre e post Heq.
    apply app_eq_inv in Heq as [(k & -> & Hk)|(k & -> & ->)].
    + destruct k as [|x k].
      * cbn in Hk. subst b. specialize (Hb [] e post eq_refl).
        now rewrite !app_nil_r in Hb.
      * injection Hk as <- ->. now apply (Ha pre e k).
    + now apply (Hb k e post).
Qed.

Lemma each_after_cons (P : list Event -> Event -> Prop) (x : Event)
    (tr : list Event) :
  each_after P (x :: tr)
  <-> P [] x /\ each_after (fun pre e => P (x :: pre) e) tr.
Proof.
  change (x :: tr) with ([x] ++ tr). rewrite each_after_app. split.
  - intros [Hx Htr]. split; [now apply (Hx [] x []) | exact Htr].
  - intros [Hx Htr]. split; [|exact Htr].
    intros pre e post Heq. destruct pre as [|y pre].
    + now injection Heq as <- _.
    + injection Heq as _ Heq. now destruct pre.
Qed.

Lemma each_after_impl (P Q : list Event -> Event -> Prop) (tr : list Event) :
  (forall pre e, P pre e -> Q pre e) -> each_after P tr -> each_after Q tr.
Proof. intros HPQ H pre e post Heq. now apply HPQ, (H pre e post). Qed.

Lemma each_after_join (P : list Event -> Event -> Prop) (a b : list Event) :
  past_monotone P -> each_after P a -> each_after P b -> each_after P (a ++ b).
Proof.
  intros Hmono Ha Hb. apply each_after_app. split; [exact Ha|].
  eapply each_after_impl; [|exact Hb]. intros pre e. apply Hmono.
Qed.

Lemma each_after_concat (P : list Event -> Event -> Prop)
    (segments : list (list Event)) :
  past_monotone P -> Forall (each_after P) segments ->
  each_after P (concat segments).
Proof.
  intros Hmono Hall. induction Hall as [|seg segments Hseg _ IH].
  - apply each_after_nil.
  - cbn [concat]. now apply each_after_join.
Qed.

End TraceProperties.

(** ** Properties of segments *)

Section Segments.
Import Go World Lib Obs Layout Scenario Shape.

Local Arguments Join : simpl never.
Local Arguments Base : simpl never.
Local Arguments Backup.encode : simpl never.
Local Arguments Restore.decode : simpl never.
Local Arguments Itoa : simpl never.

Ltac each_after_list :=
  repeat (apply each_after_cons; split; [cbn; try exact I|]);
  try apply each_after_nil.

Lemma sends_dumped_file_monotone : past_monotone sends_dumped_file.
Proof.
  intros a pre [] H; try exact I. cbn in *. unfold dumped_paths.
  rewrite omap_app. apply in_or_app. now right.
Qed.

Lemma runs_with_password_monotone (password : string) :
  past_monotone (runs_with_password password).
Proof.
  intros a pre [] H; try exact I. cbn in *. destruct H as [before ->].
  exists (a ++ before). now rewrite app_assoc.
Qed.

Lemma restores_downloaded_file_monotone (dbUser dbHost : string) (dbPort : Z) :
  past_monotone (restores_downloaded_file dbUser dbHost dbPort).
Proof.
  intros a pre [] H; try exact I. cbn in *.
  destruct H as (dbName & path & Hargv & Hin & Hdec).
  exists dbName, path. split; [exact Hargv|]. split; [|exact Hdec].
  unfold downloaded_paths. rewrite omap_app. apply in_or_app. now right.
Qed.

Lemma downloads_into_created_file_monotone :
  past_monotone downloads_into_created_file.
Proof.
  intros a pre [] H; try exact I. cbn in *. unfold created_files.
  rewrite flat_map_app. apply in_or_app. now right.
Qed.

(** Segments of the backup loop. *)

Lemma backup_segment_sends_dumped (dbHost : string) (dbPort : Z)
    (dbUser dbPassword s3Bucket s3KeyPrefix region dbName : string)
    (seg : list Event) :
  backup_segment dbHost dbPort dbUser dbPassword s3Bucket s3KeyPrefix region
    dbName seg ->
  each_after sends_dumped_file seg.
Proof.
  intros [tmp t crt e _|tmp t crt e upload _ Hup|tmp t crt upload _ Hup].
  - each_after_list.
  - inversion Hup; subst; cbn [app]; each_after_list; now left.
  - inversion Hup; subst; cbn [app]; each_after_list; now left.
Qed.

Lemma backup_segment_password (dbHost : string) (dbPort : Z)
    (dbUser dbPassword s3Bucket s3KeyPrefix region dbName : string)
    (seg : list Event) :
  backup_segment dbHost dbPort dbUser dbPassword s3Bucket s3KeyPrefix region
    dbName seg ->
  each_after (runs_with_password dbPassword) seg.
Proof.
  intros [tmp t crt e _|tmp t crt e upload _ Hup|tmp t crt upload _ Hup].
  - each_after_list. now exists [announce backup_marker dbName].
  - inversion Hup; subst; cbn [app]; each_after_list;
      now exists [announce backup_marker dbName].
  - inversion Hup; subst; cbn [app]; each_after_list;
      now exists [announce backup_marker dbName].
Qed.

Lemma backup_segment_handles (dbHost : string) (dbPort : Z)
    (dbUser dbPassword s3Bucket s3KeyPrefix region dbName : string)
    (seg : list Event) :
  backup_segment dbHost dbPort dbUser dbPassword s3Bucket s3KeyPrefix region
    dbName seg ->
  handles_balanced None seg.
Proof.
  intros [tmp t crt e _|tmp t crt e upload _ Hup|tmp t crt upload _ Hup].
  - reflexivity.
  - inversion Hup; subst; cbn; auto.
  - inversion Hup; subst; cbn; auto.
Qed.

(** Segments of the restore loop. *)

Ltac ends_with_setenv :=
  first [ now exists [] | now eexists [_] | now eexists [_; _]
        | now eexists [_; _; _] | now eexists [_; _; _; _]
        | now eexists [_; _; _; _; _] | now eexists [_; _; _; _; _; _] ].

Lemma restore_segment_password (dbHost : string) (dbPort : Z)
    (dbUser dbPassword s3Bucket region s3Key : string) (seg : list Event) :
  restore_segment dbHost dbPort dbUser dbPassword s3Bucket region s3Key seg ->
  each_after (runs_with_password dbPassword) seg.
Proof.
  intros [tmp e download _ Hdl|tmp dbName crt e download _ Hdl _
         |tmp dbName crt download _ Hdl _];
    inversion Hdl; subst; cbn [app]; each_after_list; ends_with_setenv.
Qed.

Lemma restore_segment_reads_download (dbHost : string) (dbPort : Z)
    (dbUser dbPassword s3Bucket region s3Key : string) (seg : list Event) :
  restore_segment dbHost dbPort dbUser dbPassword s3Bucket region s3Key seg ->
  each_after (restores_downloaded_file dbUser dbHost dbPort) seg.
Proof.
  intros [tmp e download _ Hdl|tmp dbName crt e download Htmp Hdl Hdec
         |tmp dbName crt download Htmp Hdl Hdec];
    inversion Hdl; subst; cbn [app]; each_after_list;
    exists dbName, (Join tmp (Base s3Key));
    (split; [reflexivity|]); (split; [now left|]);
    rewrite Base_Join_Base; try assumption;
    apply decode_Some_long in Hdec; lia.
Qed.

Lemma restore_segment_creates_first (dbHost : string) (dbPort : Z)
    (dbUser dbPassword s3Bucket region s3Key : string) (seg : list Event) :
  restore_segment dbHost dbPort dbUser dbPassword s3Bucket region s3Key seg ->
  each_after downloads_into_created_file seg.
Proof.
  intros [tmp e download _ Hdl|tmp dbName crt e download _ Hdl _
         |tmp dbName crt download _ Hdl _];
    inversion Hdl; subst; cbn [app]; each_after_list; now left.
Qed.

Lemma restore_segment_handles (dbHost : string) (dbPort : Z)
    (dbUser dbPassword s3Bucket region s3Key : string) (seg : list Event) :
  restore_segment dbHost dbPort dbUser dbPassword s3Bucket region s3Key seg ->
  handles_balanced None seg.
Proof.
  intros [tmp e download _ Hdl|tmp dbName crt e download _ Hdl _
         |tmp dbName crt download _ Hdl _];
    inversion Hdl; subst; cbn; auto.
Qed.

Lemma panic_segment_quiet (s3Bucket region s3Key : string)
    (seg : list Event) (dbUser dbHost dbPassword : string) (dbPort : Z) :
  panic_segment s3Bucket region s3Key seg ->
  each_after (runs_with_password dbPassword) seg
  /\ each_after (restores_downloaded_file dbUser dbHost dbPort) seg
  /\ each_after downloads_into_created_file seg
  /\ handles_balanced None seg.
Proof.
  intros [tmp download _ Hdl _].
  inversion Hdl; subst; cbn [app]; repeat split; try each_after_list;
    cbn; auto.
Qed.

End Segments.

(** ** Whole runs as sequences of segments *)

Section WholeRuns.
Import Go World Lib Obs Layout Scenario Shape.

Lemma handles_balanced_app (a b : list Event) :
  forall holding,
  handles_balanced holding a -> handles_balanced None b ->
  handles_balanced holding (a ++ b).
Proof.
  induction a as [|e a IH]; intros holding Ha Hb.
  - simpl in Ha. subst holding. exact Hb.
  - destruct e as [| | | | | | | | | |path [err|]|path [err|]|path| | | | |];
      cbn in Ha |- *; try (apply IH; assumption);
      destruct Ha as [Hh Ha]; (split; [exact Hh | now apply IH]).
Qed.

Lemma handles_balanced_concat (segments : list (list Event)) :
  Forall (handles_balanced None) segments ->
  handles_balanced None (concat segments).
Proof.
  induction 1 as [|seg segments Hseg _ IH]; [reflexivity|].
  cbn [concat]. now apply handles_balanced_app.
Qed.

Lemma handles_balanced_removals (paths : list string) :
  handles_balanced None (map OsRemove paths).
Proof. induction paths as [|p l IH]; [reflexivity | exact IH]. Qed.

(** Events that a property does not select satisfy it anywhere. *)
Lemma each_after_Forall (P : list Event -> Event -> Prop)
    (Q : Event -> Prop) (tr : list Event) :
  (forall pre e, Q e -> P pre e) -> Forall Q tr -> each_after P tr.
Proof.
  intros HQ Hall pre e post ->. apply HQ.
  apply Forall_app in Hall as [_ Hall]. now inversion Hall.
Qed.

Lemma removals_are_removals (paths : list string) :
  Forall (fun e => is_remove e = true) (map OsRemove paths).
Proof. induction paths; constructor; auto. Qed.

Lemma Forall2_right {A B} (R : A -> B -> Prop) (Q : B -> Prop)
    (l : list A) (k : list B) :
  (forall a b, R a b -> Q b) -> Forall2 R l k -> Forall Q k.
Proof. intros HR. induction 1; constructor; eauto. Qed.

Variable env : Env.

(** The backup program, from start to exit. *)
Lemma backup_main_trace (st : State) :
  exists r st0 code st',
    Backup.getDatabaseList env "localhost" 5432 "postgres" "postgres" st
    = (r, st0)
    /\ Backup.main env st = (code, st')
    /\ match snd r with
       | Some msg =>
           code = 1 /\ fs st' = fs st
           /\ exists tr,
                failed_enumeration "localhost" 5432 "postgres" "postgres" msg tr
                /\ trace st' = trace st ++ tr ++ [LogFatalf ("Error: " +:+ msg)]
       | None =>
           code = 0
           /\ exists segments,
                Forall2 (backup_segment "localhost" 5432 "postgres" "postgres"
                           "kmf-db" (Itoa (Unix (clock env (trace st))))
                           "ap-south-1") (fst r) segments
                /\ trace st'
                   = trace st
                     ++ enumeration_events "localhost" 5432 "postgres" "postgres"
                     ++ concat segments
                     ++ map OsRemove (rev (dumped_paths (concat segments)))
                /\ fs st'
                   = (fs st ∪ list_to_set (created_files (concat segments)))
                       ∖ list_to_set (dumped_paths (concat segments))
       end.
Proof.
  destruct (getDatabaseList_shape env "localhost" 5432 "postgres" "postgres" st)
    as ([databases err] & tr0 & st0 & Hlist & Htr0 & Hfs0 & Hshape).
  cbn [fst snd] in Hshape.
  exists (databases, err), st0.
  destruct err as [msg|].
  - destruct Hshape as [_ Hfail].
    eexists _, _. split; [exact Hlist|].
    unfold Backup.main, time_Now, history, Backup.backupAllDatabasesToS3.
    unfold bind, ret, emit. cbv beta iota zeta. rewrite Hlist.
    cbn [trace fs penv].
    split; [reflexivity|]. cbn [snd trace fs].
    split; [reflexivity|]. split; [exact Hfs0|].
    exists tr0. split; [exact Hfail|]. rewrite Htr0. now rewrite <- app_assoc.
  - subst tr0.
    set (prefix := Itoa (Unix (clock env (trace st)))).
    destruct (backupLoop_shape env "localhost" 5432 "postgres" "postgres"
                "kmf-db" prefix "ap-south-1" databases [] st0)
      as (segments & d & st1 & Hloop & Htr1 & Hsegs).
    destruct (backupLoop_spec env "localhost" 5432 "postgres" "postgres"
                "kmf-db" prefix "ap-south-1" databases [] st0)
      as (tr & d' & st1' & Hloop' & Htr1' & Hd & Hfs1 & _).
    rewrite Hloop in Hloop'. injection Hloop' as <- <-.
    rewrite Htr1 in Htr1'. apply app_inv_head in Htr1'. subst tr.
    rewrite app_nil_r in Hd. subst d.
    destruct (run_deferred_spec (rev (dumped_paths (concat segments))) st1)
      as (st2 & Hrun & Htr2 & Hfs2).
    eexists _, _. split; [exact Hlist|].
    unfold Backup.main, time_Now, history, Backup.backupAllDatabasesToS3.
    unfold bind, ret. cbv beta iota zeta. fold prefix.
    rewrite Hlist, Hloop, Hrun.
    split; [reflexivity|]. cbn [snd fst].
    split; [reflexivity|]. exists segments. split; [exact Hsegs|]. split.
    + rewrite Htr2, Htr1, Htr0. now rewrite <- !app_assoc.
    + rewrite Hfs2, Hfs1, Hfs0. now rewrite list_to_set_rev.
Qed.

(** The restore program, from start to exit. *)
Lemma restore_main_trace (st : State) :
  let s3KeyPrefix := default (environ env "S3_DIR") (penv st !! "S3_DIR") in
  exists r st0 code st',
    Restore.listS3BackupFiles env "kmf-db" s3KeyPrefix "ap-south-1" st
    = (r, st0)
    /\ Restore.main env st = (code, st')
    /\ match snd r with
       | Some msg =>
           code = 1 /\ fs st' = fs st
           /\ exists tr,
                failed_listing "kmf-db" s3KeyPrefix "ap-south-1" msg tr
                /\ trace st' = trace st ++ tr ++ [LogFatalf ("Error: " +:+ msg)]
       | None =>
           exists processed segments body,
             Forall2 (restore_segment "localhost" 5432 "postgres" "postgres"
                        "kmf-db" "ap-south-1") processed segments
             /\ fs st' = (fs st ∪ list_to_set (created_files body))
                           ∖ list_to_set (downloaded_paths body)
             /\ ((code = 0 /\ processed = fst r /\ body = concat segments
                  /\ trace st'
                     = trace st
                       ++ listing_events "kmf-db" s3KeyPrefix "ap-south-1"
                       ++ body
                       ++ map OsRemove (rev (downloaded_paths body)))
                 \/ (code = 2
                     /\ exists s3Key rest last,
                          fst r = processed ++ s3Key :: rest
                          /\ panic_segment "kmf-db" "ap-south-1" s3Key last
                          /\ body = concat segments ++ last
                          /\ trace st'
                             = trace st
                               ++ listing_events "kmf-db" s3KeyPrefix "ap-south-1"
                               ++ body
                               ++ map OsRemove (rev (downloaded_paths body))
                               ++ [RuntimePanic
                                     ("runtime error: slice bounds out of range [:"
                                        +:+ Itoa (len (Base s3Key) - 27)
                                        +:+ "]")]))
       end.
Proof.
  intros s3KeyPrefix.
  destruct (listS3BackupFiles_shape env "kmf-db" s3KeyPrefix "ap-south-1" st)
    as ([backupFiles err] & tr0 & st0 & Hlist & Htr0 & Hfs0 & Hshape).
  cbn [fst snd] in Hshape.
  exists (backupFiles, err), st0.
  destruct err as [msg|].
  - destruct Hshape as [_ Hfail].
    eexists _, _. split; [exact Hlist|].
    unfold Restore.main, os_Getenv, get_var, Restore.restoreAllDatabasesFromS3.
    unfold bind, ret, emit. cbv beta iota zeta. fold s3KeyPrefix.
    rewrite Hlist. cbn [trace fs penv].
    split; [reflexivity|]. cbn [snd trace fs].
    split; [reflexivity|]. split; [exact Hfs0|].
    exists tr0. split; [exact Hfail|]. rewrite Htr0. now rewrite <- app_assoc.
  - subst tr0.
    destruct (restoreLoop_shape env "localhost" 5432 "postgres" "postgres"
                "kmf-db" "ap-south-1" backupFiles [] st0)
      as (d & panic & st1 & Hloop & Hcases).
    destruct (restoreLoop_spec env "localhost" 5432 "postgres" "postgres"
                "kmf-db" "ap-south-1" backupFiles [] st0)
      as (tr & d' & panic' & st1' & Hloop' & Htr1' & Hd & Hfs1 & _).
    rewrite Hloop in Hloop'. injection Hloop' as <- <- <-.
    rewrite app_nil_r in Hd. subst d.
    destruct (run_deferred_spec (rev (downloaded_paths tr)) st1)
      as (st2 & Hrun & Htr2 & Hfs2).
    destruct Hcases as [(-> & segments & Htr1 & Hsegs)
                       |(processed & s3Key & rest & segments & last & -> & Hfiles
                         & Htr1 & Hsegs & Hlast)];
      rewrite Htr1 in Htr1'; apply app_inv_head in Htr1'; subst tr;
      (eexists _, _; split; [exact Hlist|]);
      unfold Restore.main, os_Getenv, get_var,
        Restore.restoreAllDatabasesFromS3;
      unfold bind, ret, emit; cbv beta iota zeta; fold s3KeyPrefix;
      rewrite Hlist, Hloop, Hrun; cbn [snd fst].
    + split; [reflexivity|].
      exists backupFiles, segments, (concat segments).
      split; [exact Hsegs|]. split.
      { rewrite Hfs2, Hfs1, Hfs0. now rewrite list_to_set_rev. }
      left. repeat split.
      rewrite Htr2, Htr1, Htr0. now rewrite <- !app_assoc.
    + split; [reflexivity|].
      exists processed, segments, (concat segments ++ last).
      split; [exact Hsegs|]. cbn [fs trace]. split.
      { rewrite Hfs2, Hfs1, Hfs0. now rewrite list_to_set_rev. }
      right. split; [reflexivity|]. exists s3Key, rest, last.
      repeat split; try assumption.
      rewrite Htr2, Htr1, Htr0. now rewrite <- !app_assoc.
Qed.

End WholeRuns.

(** ** Properties that hold along every run *)

Section AlongRuns.
Import Go World Lib Obs Layout Scenario Shape.

Lemma failed_enumeration_framing (dbHost : string) (dbPort : Z)
    (dbUser dbPassword : string) (msg : error) (tr : list Event) :
  failed_enumeration dbHost dbPort dbUser dbPassword msg tr ->
  Forall (fun e => is_framing e = true) tr.
Proof. intros []; repeat constructor. Qed.

Lemma failed_listing_framing (s3Bucket s3KeyPrefix region : string)
    (msg : error) (tr : list Event) :
  failed_listing s3Bucket s3KeyPrefix region msg tr ->
  Forall (fun e => is_framing e = true) tr.
Proof. intros []; repeat constructor. Qed.

Lemma removals_framing (paths : list string) :
  Forall (fun e => is_framing e = true) (map OsRemove paths).
Proof. induction paths; constructor; auto. Qed.

Variable env : Env.
Variable files : gset string.

(** A property of the per-item segments holds along the whole backup
    run. *)
Lemma backup_run_each_after (P : list Event -> Event -> Prop) :
  past_monotone P ->
  (forall pre e, is_framing e = true -> P pre e) ->
  (forall dbName seg,
     backup_segment "localhost" 5432 "postgres" "postgres" "kmf-db"
       (Itoa (Unix (clock env []))) "ap-south-1" dbName seg ->
     each_after P seg) ->
  each_after P (trace (Backup.main env (initial files)).2).
Proof.
  intros Hmono Hframe Hseg.
  destruct (backup_main_trace env (initial files))
    as ([dbs [msg|]] & st0 & code & st' & _ & Hmain & Hshape);
    rewrite Hmain; cbn [snd fst trace initial app] in *.
  - destruct Hshape as (_ & _ & tr & Hfail & ->).
    apply (each_after_Forall _ _ _ Hframe). apply Forall_app. split.
    + exact (failed_enumeration_framing _ _ _ _ _ _ Hfail).
    + repeat constructor.
  - destruct Hshape as (_ & segments & Hsegs & -> & _).
    apply each_after_join; [exact Hmono| |apply each_after_join]; trivial.
    + apply (each_after_Forall _ _ _ Hframe). repeat constructor.
    + apply each_after_concat; [exact Hmono|].
      apply (Forall2_right _ _ _ _ Hseg Hsegs).
    + apply (each_after_Forall _ _ _ Hframe), removals_framing.
Qed.

(** A property of the per-item segments holds along the whole restore
    run. *)
Lemma restore_run_each_after (P : list Event -> Event -> Prop) :
  past_monotone P ->
  (forall pre e, is_framing e = true -> P pre e) ->
  (forall s3Key seg,
     restore_segment "localhost" 5432 "postgres" "postgres" "kmf-db"
       "ap-south-1" s3Key seg ->
     each_after P seg) ->
  (forall s3Key seg,
     panic_segment "kmf-db" "ap-south-1" s3Key seg -> each_after P seg) ->
  each_after P (trace (Restore.main env (initial files)).2).
Proof.
  intros Hmono Hframe Hseg Hpanic.
  destruct (restore_main_trace env (initial files))
    as ([keys [msg|]] & st0 & code & st' & _ & Hmain & Hshape);
    rewrite Hmain; cbn [snd fst trace initial app] in *.
  - destruct Hshape as (_ & _ & tr & Hfail & ->).
    apply (each_after_Forall _ _ _ Hframe). apply Forall_app. split.
    + exact (failed_listing_framing _ _ _ _ _ Hfail).
    + repeat constructor.
  - destruct Hshape as (processed & segments & body & Hsegs & _ & Hcases).
    assert (Hbody : each_after P (concat segments)).
    { apply each_after_concat; [exact Hmono|].
      apply (Forall2_right _ _ _ _ Hseg Hsegs). }
    destruct Hcases as [(_ & _ & -> & ->)
                       |(_ & s3Key & rest & last & _ & Hlast & -> & ->)].
    + apply each_after_join; [exact Hmono| |apply each_after_join]; trivial.
      * apply (each_after_Forall _ _ _ Hframe). repeat constructor.
      * apply (each_after_Forall _ _ _ Hframe), removals_framing.
    + apply each_after_join; [exact Hmono| |apply each_after_join]; trivial.
      * apply (each_after_Forall _ _ _ Hframe). repeat constructor.
      * apply each_after_join; [exact Hmono|exact Hbody|].
        exact (Hpanic _ _ Hlast).
      * apply each_after_join; [exact Hmono| |].
        -- apply (each_after_Forall _ _ _ Hframe), removals_framing.
        -- apply (each_after_Forall _ _ _ Hframe). repeat constructor.
Qed.

End AlongRuns.

(** ** Further properties of the two programs *)

(** *** Enumeration of the databases *)

Section Enumeration.
Import Go World Lib Obs Layout Scenario Shape.

Ltac unfold_calls :=
  unfold exec_Run, config_LoadDefaultConfig, os_TempDir, os_Getenv,
    os_Setenv, time_Now, os_Remove, bind, ret, emit, history, add_files,
    del_file, set_var, get_var;
  cbn [trace fs penv fst snd].

(** X1.  When the connection opens and the query succeeds,
    [getDatabaseList] returns the names of all rows the cursor delivers
    before it ends, in the order of delivery, with a nil error; it has
    opened the connection, sent the one query, and closed the cursor and
    the connection, in this order, and touched no file. *)
Theorem enumeration_keeps_cursor_order (env : Env) (dbHost : string)
    (dbPort : Z) (dbUser dbPassword : string) (st : State)
    (names : list string) (final : option error) :
  sql_open env (trace st) (conn_string dbHost dbPort dbUser dbPassword) = None ->
  db_query env
    (trace st ++ [SqlOpen "postgres" (conn_string dbHost dbPort dbUser dbPassword)])
    catalog_query
  = QueryRows (rows_then names (RowsEnd final)) ->
  exists st',
    Backup.getDatabaseList env dbHost dbPort dbUser dbPassword st
    = ((names, None), st')
    /\ trace st' = trace st ++ enumeration_events dbHost dbPort dbUser dbPassword
    /\ fs st' = fs st.
Proof.
  unfold conn_string, catalog_query, enumeration_events. intros Hopen Hquery.
  unfold Backup.getDatabaseList. unfold_calls. rewrite Hopen.
  unfold_calls. rewrite Hquery. rewrite scanRows_rows_then.
  eexists. split; [reflexivity|]. cbn [trace fs].
  rewrite <- !app_assoc. now split.
Qed.

(** X2.  When the [Scan] of some row fails, [getDatabaseList] returns no
    name at all -- the names of the rows read before are dropped -- and
    the error [failed to scan database name: <cause>]; the rows after the
    failing one are not read, and the cursor and the connection are still
    closed. *)
Theorem scan_failure_discards_names (env : Env) (dbHost : string)
    (dbPort : Z) (dbUser dbPassword : string) (st : State)
    (names : list string) (e : error) (rest : Rows) :
  sql_open env (trace st) (conn_string dbHost dbPort dbUser dbPassword) = None ->
  db_query env
    (trace st ++ [SqlOpen "postgres" (conn_string dbHost dbPort dbUser dbPassword)])
    catalog_query
  = QueryRows (rows_then names (RowsNext (ScanErr e) rest)) ->
  exists st',
    Backup.getDatabaseList env dbHost dbPort dbUser dbPassword st
    = (([], Some ("failed to scan database name: " +:+ e)), st')
    /\ trace st' = trace st ++ enumeration_events dbHost dbPort dbUser dbPassword
    /\ fs st' = fs st.
Proof.
  unfold conn_string, catalog_query, enumeration_events. intros Hopen Hquery.
  unfold Backup.getDatabaseList. unfold_calls. rewrite Hopen.
  unfold_calls. rewrite Hquery. rewrite scanRows_rows_then.
  eexists. split; [reflexivity|]. cbn [trace fs].
  rewrite <- !app_assoc. now split.
Qed.

(** X3.  When [getDatabaseList] returns an error, the backup program
    makes no further call: its whole trace is the catalog calls made up
    to the failure followed by the fatal log line [Error: <error>]; no
    subprocess is started, nothing is uploaded or removed, the local
    files are untouched, and the exit status is 1. *)
Theorem enumeration_failure_aborts_backup (env : Env) (files : gset string)
    (dbs : list string) (msg : error) (st1 : State) :
  Backup.getDatabaseList env "localhost" 5432 "postgres" "postgres"
    (initial files) = ((dbs, Some msg), st1) ->
  exists tr st',
    Backup.main env (initial files) = (1, st')
    /\ failed_enumeration "localhost" 5432 "postgres" "postgres" msg tr
    /\ trace st' = tr ++ [LogFatalf ("Error: " +:+ msg)]
    /\ fs st' = files.
Proof.
  intros Henum.
  destruct (backup_main_trace env (initial files))
    as (r & st0 & code & st' & Hlist & Hmain & Hshape).
  rewrite Henum in Hlist. injection Hlist as <- <-. cbn [snd] in Hshape.
  destruct Hshape as (-> & Hfs & tr & Hfail & Htr).
  exists tr, st'. now repeat split.
Qed.

End Enumeration.

Section EnumerationWitnesses.
Import Go World Lib Obs Layout Scenario Shape.

Lemma enumeration_keeps_cursor_order_witness :
  exists st',
    Backup.getDatabaseList healthy "localhost" 5432 "postgres" "postgres"
      (initial ∅)
    = ((["admindb"; "agentdb"; "userdb"], None), st')
    /\ trace st' = enumeration_events "localhost" 5432 "postgres" "postgres"
    /\ fs st' = ∅.
Proof.
  apply (enumeration_keeps_cursor_order healthy "localhost" 5432 "postgres"
           "postgres" (initial ∅) ["admindb"; "agentdb"; "userdb"] None);
    reflexivity.
Defined.

Lemma scan_failure_discards_names_witness :
  exists st',
    Backup.getDatabaseList scan_breaks "localhost" 5432 "postgres" "postgres"
      (initial ∅)
    = (([], Some "failed to scan database name: unsupported Scan"), st')
    /\ trace st' = enumeration_events "localhost" 5432 "postgres" "postgres"
    /\ fs st' = ∅.
Proof.
  apply (scan_failure_discards_names scan_breaks "localhost" 5432 "postgres"
           "postgres" (initial ∅) ["admindb"] "unsupported Scan"
           (rows_then ["userdb"] (RowsEnd None)));
    reflexivity.
Defined.

Lemma enumeration_failure_aborts_backup_witness :
  exists tr st',
    Backup.main catalog_down (initial ∅) = (1, st')
    /\ failed_enumeration "localhost" 5432 "postgres" "postgres"
         "failed to query databases: connection refused" tr
    /\ trace st'
       = tr ++ [LogFatalf ("Error: "
                             +:+ "failed to query databases: connection refused")]
    /\ fs st' = ∅.
Proof.
  apply (enumeration_failure_aborts_backup catalog_down ∅ []
           "failed to query databases: connection refused"
           (Backup.getDatabaseList catalog_down "localhost" 5432 "postgres"
              "postgres" (initial ∅)).2).
  vm_compute. reflexivity.
Defined.

End EnumerationWitnesses.

(** *** Runs of the backup program *)

Section BackupRuns.
Import Go World Lib Obs Layout Scenario Shape.

Lemma framing_handles (tr : list Event) :
  Forall (fun e => is_framing e = true) tr -> handles_balanced None tr.
Proof.
  induction 1 as [|e tr He _ IH]; [reflexivity|].
  destruct e; try discriminate He; exact IH.
Qed.

Lemma framing_In (tr : list Event) (e : Event) :
  Forall (fun e => is_framing e = true) tr -> In e tr -> is_framing e = true.
Proof. intros Hall Hin. exact (proj1 (List.Forall_forall _ _) Hall e Hin). Qed.

(** X4.  A backup run whose enumeration succeeded exits with status 0
    and consists of three parts: the four catalog calls; then one segment
    per enumerated database, in the order of enumeration -- the
    announcement, the setting of [PGPASSWORD], the [pg_dump] run into
    [<tmp>/<name>_backup_<timestamp>.sql] and, if the dump succeeded, the
    calls of one upload, with one log line if the dump or the upload
    failed --; then the removal of every file whose dump succeeded, the
    most recent first.  The files left are those present before or
    created by a subprocess, minus the removed ones. *)
Theorem backup_run_structure (env : Env) (files : gset string)
    (dbs : list string) (st1 : State) :
  Backup.getDatabaseList env "localhost" 5432 "postgres" "postgres"
    (initial files) = ((dbs, None), st1) ->
  exists segments st',
    Backup.main env (initial files) = (0, st')
    /\ Forall2 (backup_segment "localhost" 5432 "postgres" "postgres" "kmf-db"
                  (Itoa (Unix (clock env []))) "ap-south-1") dbs segments
    /\ trace st'
       = enumeration_events "localhost" 5432 "postgres" "postgres"
         ++ concat segments
         ++ map OsRemove (rev (dumped_paths (concat segments)))
    /\ fs st' = (files ∪ list_to_set (created_files (concat segments)))
                  ∖ list_to_set (dumped_paths (concat segments)).
Proof.
  intros Henum.
  destruct (backup_main_trace env (initial files))
    as (r & st0 & code & st' & Hlist & Hmain & Hshape).
  rewrite Henum in Hlist. injection Hlist as <- <-. cbn [snd fst] in Hshape.
  destruct Hshape as (-> & segments & Hsegs & Htr & Hfs).
  exists segments, st'. now repeat split.
Qed.

(** X5.  In every backup run, each [PutObject] request sends a file that
    a [pg_dump] run earlier in the same run reported as written
    successfully: nothing is uploaded after a failed dump, and nothing
    that the run did not dump itself. *)
Theorem upload_follows_successful_dump (env : Env) (files : gset string) :
  each_after sends_dumped_file (trace (Backup.main env (initial files)).2).
Proof.
  apply backup_run_each_after.
  - exact sends_dumped_file_monotone.
  - intros pre e He. destruct e; try exact I. discriminate He.
  - intros dbName seg. apply backup_segment_sends_dumped.
Qed.

End BackupRuns.

(** *** Runs of the restore program *)

Section RestoreRuns.
Import Go World Lib Obs Layout Scenario Shape.

Lemma restore_main_trace_initial (env : Env) (files : gset string) :
  exists r st0 code st',
    Restore.listS3BackupFiles env "kmf-db" (environ env "S3_DIR") "ap-south-1"
      (initial files) = (r, st0)
    /\ Restore.main env (initial files) = (code, st')
    /\ match snd r with
       | Some msg =>
           code = 1 /\ fs st' = files
           /\ exists tr,
                failed_listing "kmf-db" (environ env "S3_DIR") "ap-south-1"
                  msg tr
                /\ trace st' = tr ++ [LogFatalf ("Error: " +:+ msg)]
       | None =>
           exists processed segments body,
             Forall2 (restore_segment "localhost" 5432 "postgres" "postgres"
                        "kmf-db" "ap-south-1") processed segments
             /\ fs st' = (files ∪ list_to_set (created_files body))
                           ∖ list_to_set (downloaded_paths body)
             /\ ((code = 0 /\ processed = fst r /\ body = concat segments
                  /\ trace st'
                     = listing_events "kmf-db" (environ env "S3_DIR")
                         "ap-south-1"
                       ++ body
                       ++ map OsRemove (rev (downloaded_paths body)))
                 \/ (code = 2
                     /\ exists s3Key rest last,
                          fst r = processed ++ s3Key :: rest
                          /\ panic_segment "kmf-db" "ap-south-1" s3Key last
                          /\ body = concat segments ++ last
                          /\ trace st'
                             = listing_events "kmf-db" (environ env "S3_DIR")
                                 "ap-south-1"
                               ++ body
                               ++ map OsRemove (rev (downloaded_paths body))
                               ++ [RuntimePanic
                                     ("runtime error: slice bounds out of range [:"
                                        +:+ Itoa (len (Base s3Key) - 27)
                                        +:+ "]")]))
       end.
Proof.
  pose proof (restore_main_trace env (initial files)) as H.
  cbn [penv initial trace fs app] in H. rewrite lookup_empty in H.
  exact H.
Qed.

(** X10.  When [listS3BackupFiles] returns an error, the restore program
    makes no further call: its whole trace is the configuration loading,
    the listing request if the configuration loaded, and the fatal log
    line [Error: <error>]; nothing is downloaded, no subprocess is
    started, the local files are untouched, and the exit status is 1. *)
Theorem listing_failure_aborts_restore (env : Env) (files : gset string)
    (keys : list string) (msg : error) (st1 : State) :
  Restore.listS3BackupFiles env "kmf-db" (environ env "S3_DIR") "ap-south-1"
    (initial files) = ((keys, Some msg), st1) ->
  exists tr st',
    Restore.main env (initial files) = (1, st')
    /\ failed_listing "kmf-db" (environ env "S3_DIR") "ap-south-1" msg tr
    /\ trace st' = tr ++ [LogFatalf ("Error: " +:+ msg)]
    /\ fs st' = files.
Proof.
  intros Hlisted.
  destruct (restore_main_trace_initial env files)
    as (r & st0 & code & st' & Hlist & Hmain & Hshape).
  rewrite Hlisted in Hlist. injection Hlist as <- <-. cbn [snd] in Hshape.
  destruct Hshape as (-> & Hfs & tr & Hfail & Htr).
  exists tr, st'. now repeat split.
Qed.

(** X11.  A restore run whose listing succeeded ends in one of two ways.
    Either every listed key is processed, in listing order, by one
    segment each -- the announcement, the calls of one download into
    [<tmp>/<base name of the key>] and, if the download succeeded, the
    setting of [PGPASSWORD] and the [pg_restore] run, with one log line
    if the download or the restore failed --, the downloaded files are
    removed, the most recent first, and the exit status is 0.  Or the
    run reaches a key whose download succeeds and whose base name is
    shorter than 27 bytes: the keys before it are processed as above,
    the slice panics before any subprocess is started for that key, the
    files downloaded so far -- that key's included -- are removed, the
    panic is reported, the keys after it are never processed, and the
    exit status is 2. *)
Theorem restore_run_structure (env : Env) (files : gset string)
    (keys : list string) (st1 : State) :
  Restore.listS3BackupFiles env "kmf-db" (environ env "S3_DIR") "ap-south-1"
    (initial files) = ((keys, None), st1) ->
  exists processed segments body st',
    Forall2 (restore_segment "localhost" 5432 "postgres" "postgres" "kmf-db"
               "ap-south-1") processed segments
    /\ fs st' = (files ∪ list_to_set (created_files body))
                  ∖ list_to_set (downloaded_paths body)
    /\ ((Restore.main env (initial files) = (0, st')
         /\ processed = keys /\ body = concat segments
         /\ trace st'
            = listing_events "kmf-db" (environ env "S3_DIR") "ap-south-1"
              ++ body ++ map OsRemove (rev (downloaded_paths body)))
        \/ (exists s3Key rest last,
              Restore.main env (initial files) = (2, st')
              /\ keys = processed ++ s3Key :: rest
              /\ panic_segment "kmf-db" "ap-south-1" s3Key last
              /\ len (Base s3Key) < 27
              /\ body = concat segments ++ last
              /\ trace st'
                 = listing_events "kmf-db" (environ env "S3_DIR") "ap-south-1"
                   ++ body ++ map OsRemove (rev (downloaded_paths body))
                   ++ [RuntimePanic
                         ("runtime error: slice bounds out of range [:"
                            +:+ Itoa (len (Base s3Key) - 27) +:+ "]")])).
Proof.
  intros Hlisted.
  destruct (restore_main_trace_initial env files)
    as (r & st0 & code & st' & Hlist & Hmain & Hshape).
  rewrite Hlisted in Hlist. injection Hlist as <- <-. cbn [snd fst] in Hshape.
  destruct Hshape as (processed & segments & body & Hsegs & Hfs & Hcases).
  exists processed, segments, body, st'.
  split; [exact Hsegs|]. split; [exact Hfs|].
  destruct Hcases as [(-> & -> & -> & Htr)
                     |(-> & s3Key & rest & last & -> & Hlast & -> & Htr)].
  - left. now repeat split.
  - right. exists s3Key, rest, last. repeat split; try assumption.
    destruct Hlast as [tmp download _ _ Hdec]. now apply decode_None_short.
Qed.

(** X12.  In every restore run, each [pg_restore] run reads a file whose
    download succeeded earlier in the same run, and restores it into the
    database named by the base name of that file without its last 27
    bytes. *)
Theorem restore_reads_downloaded_file (env : Env) (files : gset string) :
  each_after (restores_downloaded_file "postgres" "localhost" 5432)
    (trace (Restore.main env (initial files)).2).
Proof.
  apply restore_run_each_after.
  - apply restores_downloaded_file_monotone.
  - intros pre e He. destruct e; try exact I. discriminate He.
  - intros s3Key seg. apply restore_segment_reads_download.
  - intros s3Key seg Hseg.
    exact (proj1 (proj2 (panic_segment_quiet _ _ _ _ "postgres" "localhost"
                           "postgres" 5432 Hseg))).
Qed.

(** X13.  A download that fails leaves its destination file behind:
    the file was created before the transfer started, and unless some
    other download into the same path succeeds in the run, no removal is
    registered for it, so it is still present when the restore program
    exits. *)
Theorem failed_download_leaves_file (env : Env) (files : gset string)
    (bucket key dest : string) (e : error) :
  In (Download bucket key dest (Some e))
    (trace (Restore.main env (initial files)).2) ->
  ~ In dest (downloaded_paths (trace (Restore.main env (initial files)).2)) ->
  dest ∈ fs (Restore.main env (initial files)).2.
Proof.
  destruct (restore_main_trace_initial env files)
    as ([keys [msg|]] & st0 & code & st' & _ & Hmain & Hshape);
    rewrite Hmain; cbn [snd fst] in *.
  - destruct Hshape as (_ & _ & tr & Hfail & ->). intros Hin _.
    apply in_app_or in Hin as [Hin|[Hin|[]]]; [|discriminate].
    apply (framing_In _ _ (failed_listing_framing _ _ _ _ _ Hfail)) in Hin.
    discriminate.
  - destruct Hshape as (processed & segments & body & Hsegs & -> & Hcases).
    assert (Hcreated : each_after downloads_into_created_file body
                       /\ exists tail,
                            trace st'
                            = listing_events "kmf-db" (environ env "S3_DIR")
                                "ap-south-1" ++ body ++ tail
                            /\ Forall (fun e => is_framing e = true) tail).
    { assert (Hbody : each_after downloads_into_created_file (concat segments)).
      { apply each_after_concat; [exact downloads_into_created_file_monotone|].
        apply (Forall2_right _ _ _ _
                 (fun s3Key seg => restore_segment_creates_first _ _ _ _ _ _
                                     s3Key seg) Hsegs). }
      destruct Hcases as [(_ & _ & -> & ->)
                         |(_ & s3Key & rest & last & _ & Hlast & -> & ->)].
      - split; [exact Hbody|]. eexists. split; [reflexivity|].
        apply removals_framing.
      - split.
        + apply each_after_join;
            [exact downloads_into_created_file_monotone | exact Hbody |].
          exact (proj1 (proj2 (proj2 (panic_segment_quiet _ _ _ _ "postgres"
                                        "localhost" "postgres" 5432 Hlast)))).
        + eexists. split; [reflexivity|]. apply Forall_app. split.
          * apply removals_framing.
          * repeat constructor. }
    destruct Hcreated as (Hcreated & tail & -> & Htail).
    intros Hin Hnot.
    assert (Hin' : In (Download bucket key dest (Some e)) body).
    { apply in_app_or in Hin as [Hin|Hin].
      { destruct Hin as [Hin|[Hin|[]]]; discriminate. }
      apply in_app_or in Hin as [Hin|Hin]; [exact Hin|].
      apply (framing_In _ _ Htail) in Hin. discriminate. }
    apply in_split in Hin' as (pre & post & Hbodyeq).
    pose proof (Hcreated pre _ post Hbodyeq) as Hdest. cbn in Hdest.
    apply elem_of_difference. split.
    + apply elem_of_union. right. apply elem_of_list_to_set.
      apply list_elem_of_In. rewrite Hbodyeq. unfold created_files.
      rewrite flat_map_app. apply in_or_app. now left.
    + intros Hrem. apply Hnot. apply elem_of_list_to_set in Hrem.
      apply list_elem_of_In in Hrem. unfold downloaded_paths in *.
      rewrite !omap_app. apply in_or_app. right. apply in_or_app. now left.
Qed.

End RestoreRuns.

(** *** Both programs *)

Section BothPrograms.
Import Go World Lib Obs Layout Scenario Shape.

(** X6.  In every run of either program, each subprocess ([pg_dump],
    [pg_restore]) is started immediately after [PGPASSWORD] was set to
    the configured password: no other observable action of the program
    (output, log line, catalog, object-store or file call, another
    subprocess) comes between the two. *)
Theorem subprocess_runs_right_after_password (env : Env)
    (files : gset string) :
  each_after (runs_with_password "postgres")
    (trace (Backup.main env (initial files)).2)
  /\ each_after (runs_with_password "postgres")
       (trace (Restore.main env (initial files)).2).
Proof.
  split.
  - apply backup_run_each_after.
    + apply runs_with_password_monotone.
    + intros pre e He. destruct e; try exact I. discriminate He.
    + intros dbName seg. apply backup_segment_password.
  - apply restore_run_each_after.
    + apply runs_with_password_monotone.
    + intros pre e He. destruct e; try exact I. discriminate He.
    + intros s3Key seg. apply restore_segment_password.
    + intros s3Key seg Hseg.
      exact (proj1 (panic_segment_quiet _ _ _ _ "postgres" "localhost"
                      "postgres" 5432 Hseg)).
Qed.

(** X7.  In every run of either program the file handles are balanced:
    a file is opened or created only while no other file is open, every
    file opened or created successfully is closed before the next call
    that opens one -- also when the upload or the download fails --, a
    close names the file that is open, and no file is open when the
    program exits. *)
Theorem file_handles_are_released (env : Env) (files : gset string) :
  handles_balanced None (trace (Backup.main env (initial files)).2)
  /\ handles_balanced None (trace (Restore.main env (initial files)).2).
Proof.
  split.
  - destruct (backup_main_trace env (initial files))
      as ([dbs [msg|]] & st0 & code & st' & _ & Hmain & Hshape);
      rewrite Hmain; cbn [snd fst trace initial app] in *.
    + destruct Hshape as (_ & _ & tr & Hfail & ->).
      apply framing_handles, Forall_app. split.
      * exact (failed_enumeration_framing _ _ _ _ _ _ Hfail).
      * repeat constructor.
    + destruct Hshape as (_ & segments & Hsegs & -> & _).
      apply handles_balanced_app; [reflexivity|].
      apply handles_balanced_app; [|apply handles_balanced_removals].
      apply handles_balanced_concat.
      apply (Forall2_right _ _ _ _
               (fun dbName seg => backup_segment_handles _ _ _ _ _ _ _
                                    dbName seg) Hsegs).
  - destruct (restore_main_trace_initial env files)
      as ([keys [msg|]] & st0 & code & st' & _ & Hmain & Hshape);
      rewrite Hmain; cbn [snd fst] in *.
    + destruct Hshape as (_ & _ & tr & Hfail & ->).
      apply framing_handles, Forall_app. split.
      * exact (failed_listing_framing _ _ _ _ _ Hfail).
      * repeat constructor.
    + destruct Hshape as (processed & segments & body & Hsegs & _ & Hcases).
      assert (Hbody : handles_balanced None (concat segments)).
      { apply handles_balanced_concat.
        apply (Forall2_right _ _ _ _
                 (fun s3Key seg => restore_segment_handles _ _ _ _ _ _
                                     s3Key seg) Hsegs). }
      destruct Hcases as [(_ & _ & -> & ->)
                         |(_ & s3Key & rest & last & _ & Hlast & -> & ->)].
      * apply handles_balanced_app; [reflexivity|].
        apply handles_balanced_app; [exact Hbody|].
        apply handles_balanced_removals.
      * apply handles_balanced_app; [reflexivity|].
        apply handles_balanced_app.
        -- apply handles_balanced_app; [exact Hbody|].
           exact (proj2 (proj2 (proj2 (panic_segment_quiet _ _ _ _ "postgres"
                                         "localhost" "postgres" 5432 Hlast)))).
        -- apply framing_handles, Forall_app. split.
           ++ apply removals_framing.
           ++ repeat constructor.
Qed.

End BothPrograms.

(** *** File names and object keys *)

Section Keys.
Import Go World Lib Obs Layout Scenario Shape.

(** The base name of the key under which a dump is stored is the file
    name built for the dump. *)
Lemma Base_stored_key (s3KeyPrefix dir dbName : string) (t : Time) :
  contains_slash dbName = false ->
  Base (s3KeyPrefix +:+ "/"
          +:+ Base (Join (temp_dir dir) (Backup.encode dbName t)))
  = Backup.encode dbName t.
Proof.
  intros Hplain.
  destruct (encode_plain dbName t Hplain) as (Hslash & Hne & Hdot & Hdots).
  rewrite (Base_Join _ _ (temp_dir_nonempty dir) Hslash Hne Hdot Hdots).
  now apply Base_after_slash.
Qed.

(** In a year of at most four digits, what [backupDatabase] appends to
    the database's name has 27 bytes. *)
Lemma suffix_length (t : Time) :
  0 <= Year t <= 9999 ->
  String.length ("_backup_" +:+ Format t +:+ ".sql") = 27%nat.
Proof.
  intros Hy. rewrite !length_append, Format_length by exact Hy. reflexivity.
Qed.

Lemma append_cancel_l (s a b : string) : s +:+ a = s +:+ b -> a = b.
Proof.
  induction s as [|c s IH]; intros H.
  - exact H.
  - rewrite !append_cons in H. injection H as H. exact (IH H).
Qed.

(** X8.  What the backup program stores, the restore program finds again.
    For a database whose name holds no slash and a dump taken in a year
    of at most four digits, take the path that [backupDatabase] builds in
    the temporary directory and the key that [uploadToS3] derives from
    it under any prefix.  Then the restore program, given that key,
    computes the same file name as its base name, downloads into a local
    path with that base name in its own temporary directory, and cuts
    the database's name out of it. *)
Theorem stored_key_decodes_to_database
    (s3KeyPrefix dir dir' dbName : string) (t : Time) :
  contains_slash dbName = false -> 0 <= Year t <= 9999 ->
  let backupFilePath := Join (temp_dir dir) (Backup.encode dbName t) in
  let s3Key := s3KeyPrefix +:+ "/" +:+ Base backupFilePath in
  Base s3Key = Backup.encode dbName t
  /\ Base (Join (temp_dir dir') (Base s3Key)) = Backup.encode dbName t
  /\ Restore.decode (Base s3Key) = Some dbName.
Proof.
  intros Hplain Hy backupFilePath s3Key. unfold s3Key, backupFilePath.
  rewrite (Base_stored_key _ _ _ _ Hplain).
  destruct (encode_plain dbName t Hplain) as (Hslash & Hne & Hdot & Hdots).
  split; [reflexivity|]. split.
  - exact (Base_Join _ _ (temp_dir_nonempty dir') Hslash Hne Hdot Hdots).
  - exact (decode_append dbName _ (suffix_length t Hy)).
Qed.

(** X9.  An object key identifies the run and the dump.  If the keys
    built for two dumps are equal -- each the decimal Unix time of its
    run's start, a slash, and the base name of the dump's path --, then
    the two runs started in the same second, the two databases have the
    same name and the two dumps carry the same timestamp; so runs
    started in different seconds never write the same key, and within a
    run different databases never do.  This holds for database names
    without slash and dumps taken in years of at most four digits. *)
Theorem key_determines_run_and_dump (now1 now2 : Time)
    (dir1 dir2 dbName1 dbName2 : string) (t1 t2 : Time) :
  contains_slash dbName1 = false -> contains_slash dbName2 = false ->
  0 <= Year t1 <= 9999 -> 0 <= Year t2 <= 9999 ->
  Itoa (Unix now1) +:+ "/"
    +:+ Base (Join (temp_dir dir1) (Backup.encode dbName1 t1))
  = Itoa (Unix now2) +:+ "/"
      +:+ Base (Join (temp_dir dir2) (Backup.encode dbName2 t2)) ->
  Unix now1 = Unix now2 /\ dbName1 = dbName2 /\ Format t1 = Format t2.
Proof.
  intros Hplain1 Hplain2 Hy1 Hy2 Hkey.
  assert (Hfile : Backup.encode dbName1 t1 = Backup.encode dbName2 t2).
  { rewrite <- (Base_stored_key (Itoa (Unix now1)) dir1 dbName1 t1 Hplain1).
    rewrite Hkey. now apply Base_stored_key. }
  apply head_before_slash in Hkey as [Hprefix _]; try apply Itoa_no_slash.
  split; [now apply Itoa_injective|].
  assert (Hname : dbName1 = dbName2).
  { pose proof (decode_append dbName1 _ (suffix_length t1 Hy1)) as Hdec.
    unfold Backup.encode in Hfile. rewrite Hfile in Hdec.
    rewrite (decode_append dbName2 _ (suffix_length t2 Hy2)) in Hdec.
    congruence. }
  split; [exact Hname|]. subst dbName2.
  apply append_cancel_l, append_cancel_l in Hfile.
  now apply append_cancel_r in Hfile.
Qed.

End Keys.

Section MoreWitnesses.
Import Go World Lib Obs Layout Scenario Shape.

Lemma stored_key_decodes_to_database_witness :
  Base ("1700000000" +:+ "/"
          +:+ Base (Join (temp_dir EmptyString)
                      (Backup.encode "admindb" t2023)))
  = Backup.encode "admindb" t2023
  /\ Base (Join (temp_dir "/var/tmp")
             (Base ("1700000000" +:+ "/"
                      +:+ Base (Join (temp_dir EmptyString)
                                  (Backup.encode "admindb" t2023)))))
     = Backup.encode "admindb" t2023
  /\ Restore.decode
       (Base ("1700000000" +:+ "/"
                +:+ Base (Join (temp_dir EmptyString)
                            (Backup.encode "admindb" t2023))))
     = Some "admindb".
Proof.
  apply (stored_key_decodes_to_database "1700000000" EmptyString "/var/tmp"
           "admindb" t2023); [reflexivity | simpl; lia].
Defined.

Lemma key_determines_run_and_dump_witness :
  Unix t2023 = Unix t2023 /\ "userdb" = "userdb"
  /\ Format t2023 = Format t2023.
Proof.
  apply (key_determines_run_and_dump t2023 t2023 EmptyString "/var/tmp"
           "userdb" "userdb" t2023 t2023);
    try reflexivity; simpl; lia.
Defined.

Lemma backup_run_structure_witness :
  exists segments st',
    Backup.main troubled (initial ∅) = (0, st')
    /\ Forall2 (backup_segment "localhost" 5432 "postgres" "postgres" "kmf-db"
                  (Itoa (Unix (clock troubled []))) "ap-south-1")
         ["admindb"; "agentdb"; "userdb"] segments
    /\ trace st'
       = enumeration_events "localhost" 5432 "postgres" "postgres"
         ++ concat segments
         ++ map OsRemove (rev (dumped_paths (concat segments)))
    /\ fs st' = (∅ ∪ list_to_set (created_files (concat segments)))
                  ∖ list_to_set (dumped_paths (concat segments)).
Proof.
  apply (backup_run_structure troubled ∅ ["admindb"; "agentdb"; "userdb"]
           (Backup.getDatabaseList troubled "localhost" 5432 "postgres"
              "postgres" (initial ∅)).2).
  vm_compute. reflexivity.
Defined.

Lemma listing_failure_aborts_restore_witness :
  exists tr st',
    Restore.main listing_denied (initial ∅) = (1, st')
    /\ failed_listing "kmf-db" (environ listing_denied "S3_DIR") "ap-south-1"
         "failed to list objects in S3 bucket: AccessDenied" tr
    /\ trace st'
       = tr ++ [LogFatalf ("Error: "
                  +:+ "failed to list objects in S3 bucket: AccessDenied")]
    /\ fs st' = ∅.
Proof.
  apply (listing_failure_aborts_restore listing_denied ∅ []
           "failed to list objects in S3 bucket: AccessDenied"
           (Restore.listS3BackupFiles listing_denied "kmf-db"
              (environ listing_denied "S3_DIR") "ap-south-1" (initial ∅)).2).
  vm_compute. reflexivity.
Defined.

Lemma restore_run_structure_witness :
  exists processed segments body st',
    Forall2 (restore_segment "localhost" 5432 "postgres" "postgres" "kmf-db"
               "ap-south-1") processed segments
    /\ fs st' = (∅ ∪ list_to_set (created_files body))
                  ∖ list_to_set (downloaded_paths body)
    /\ ((Restore.main stray_key (initial ∅) = (0, st')
         /\ processed
            = ["1600000000/"; "1700000000/admindb_backup_20231114_221320.sql"]
         /\ body = concat segments
         /\ trace st'
            = listing_events "kmf-db" (environ stray_key "S3_DIR") "ap-south-1"
              ++ body ++ map OsRemove (rev (downloaded_paths body)))
        \/ (exists s3Key rest last,
              Restore.main stray_key (initial ∅) = (2, st')
              /\ ["1600000000/"; "1700000000/admindb_backup_20231114_221320.sql"]
                 = processed ++ s3Key :: rest
              /\ panic_segment "kmf-db" "ap-south-1" s3Key last
              /\ len (Base s3Key) < 27
              /\ body = concat segments ++ last
              /\ trace st'
                 = listing_events "kmf-db" (environ stray_key "S3_DIR")
                     "ap-south-1"
                   ++ body ++ map OsRemove (rev (downloaded_paths body))
                   ++ [RuntimePanic
                         ("runtime error: slice bounds out of range [:"
                            +:+ Itoa (len (Base s3Key) - 27) +:+ "]")])).
Proof.
  apply (restore_run_structure stray_key ∅
           ["1600000000/"; "1700000000/admindb_backup_20231114_221320.sql"]
           (Restore.listS3BackupFiles stray_key "kmf-db"
              (environ stray_key "S3_DIR") "ap-south-1" (initial ∅)).2).
  vm_compute. reflexivity.
Defined.

Lemma failed_download_leaves_file_witness :
  "/tmp/admindb_backup_20231114_221320.sql"
  ∈ fs (Restore.main troubled (initial ∅)).2.
Proof.
  apply (failed_download_leaves_file troubled ∅ "kmf-db"
           "1700000000/admindb_backup_20231114_221320.sql"
           "/tmp/admindb_backup_20231114_221320.sql"
           "connection reset by peer").
  - vm_compute. auto 30.
  - vm_compute. intros [H|[H|[]]]; discriminate H.
Defined.

End MoreWitnesses.

(** *** What the restore program fetches *)

Section Downloads.
Import Go World Lib Obs Layout Scenario Shape.

Lemma download_layout_weaken (s3Bucket : string) (keys keys' : list string)
    (e : Event) :
  (forall k, In k keys -> In k keys') ->
  download_layout s3Bucket keys e -> download_layout s3Bucket keys' e.
Proof.
  intros Hsub. destruct e; try exact (fun H => H).
  intros (Hb & Hk & Hdest). split; [exact Hb|]. split; [auto | exact Hdest].
Qed.

Lemma framing_layout (s3Bucket : string) (keys : list string)
    (tr : list Event) :
  Forall (fun e => is_framing e = true) tr ->
  Forall (download_layout s3Bucket keys) tr.
Proof.
  intros Hall. eapply Forall_impl; [exact Hall|].
  intros e He. destruct e; try exact I. discriminate He.
Qed.

Lemma download_segment_layout (s3Bucket s3Key tmp region : string)
    (err : option error) (tr : list Event) :
  tmp <> EmptyString ->
  download_segment s3Bucket s3Key (Join tmp (Base s3Key)) region err tr ->
  Forall (download_layout s3Bucket [s3Key]) tr.
Proof.
  intros Htmp []; repeat constructor; now exists tmp.
Qed.

Lemma restore_segment_layout (dbHost : string) (dbPort : Z)
    (dbUser dbPassword s3Bucket region s3Key : string) (seg : list Event) :
  restore_segment dbHost dbPort dbUser dbPassword s3Bucket region s3Key seg ->
  Forall (download_layout s3Bucket [s3Key]) seg.
Proof.
  intros [tmp e download Htmp Hdl|tmp dbName crt e download Htmp Hdl _
         |tmp dbName crt download Htmp Hdl _];
    repeat (apply Forall_app; split);
    try exact (download_segment_layout _ _ _ _ _ _ Htmp Hdl);
    repeat constructor.
Qed.

Lemma panic_segment_layout (s3Bucket region s3Key : string)
    (seg : list Event) :
  panic_segment s3Bucket region s3Key seg ->
  Forall (download_layout s3Bucket [s3Key]) seg.
Proof.
  intros [tmp download Htmp Hdl _].
  apply Forall_app; split; [repeat constructor|].
  exact (download_segment_layout _ _ _ _ _ _ Htmp Hdl).
Qed.

Lemma segments_layout (dbHost : string) (dbPort : Z)
    (dbUser dbPassword s3Bucket region : string) (keys : list string)
    (processed : list string) (segments : list (list Event)) :
  (forall k, In k processed -> In k keys) ->
  Forall2 (restore_segment dbHost dbPort dbUser dbPassword s3Bucket region)
    processed segments ->
  Forall (download_layout s3Bucket keys) (concat segments).
Proof.
  intros Hsub Hsegs. induction Hsegs as [|s3Key seg processed segments Hseg _ IH].
  - constructor.
  - cbn [concat]. apply Forall_app. split.
    + apply restore_segment_layout in Hseg.
      eapply Forall_impl; [exact Hseg|]. intros e.
      apply download_layout_weaken. intros k [<-|[]]. apply Hsub. now left.
    + apply IH. intros k Hk. apply Hsub. now right.
Qed.

(** X14.  In every restore run, each download request names the
    configured bucket and a key that the listing call of this run
    returned, and writes into the path made of a non-empty temporary
    directory and the base name of that key; when the listing fails,
    nothing is requested. *)
Theorem download_request_layout (env : Env) (files : gset string) :
  Forall
    (download_layout "kmf-db"
       (Restore.listS3BackupFiles env "kmf-db" (environ env "S3_DIR")
          "ap-south-1" (initial files)).1.1)
    (trace (Restore.main env (initial files)).2).
Proof.
  destruct (restore_main_trace_initial env files)
    as ([keys [msg|]] & st0 & code & st' & Hlist & Hmain & Hshape);
    rewrite Hmain, Hlist; cbn [snd fst] in *.
  - destruct Hshape as (_ & _ & tr & Hfail & ->).
    apply framing_layout, Forall_app. split.
    + exact (failed_listing_framing _ _ _ _ _ Hfail).
    + repeat constructor.
  - destruct Hshape as (processed & segments & body & Hsegs & _ & Hcases).
    destruct Hcases as [(_ & -> & -> & ->)
                       |(_ & s3Key & rest & last & -> & Hlast & -> & ->)].
    + apply Forall_app. split; [repeat constructor|].
      apply Forall_app. split.
      * exact (segments_layout _ _ _ _ _ _ _ _ _ (fun k H => H) Hsegs).
      * apply framing_layout, removals_framing.
    + apply Forall_app. split; [repeat constructor|].
      apply Forall_app. split; [apply Forall_app; split|].
      * apply (segments_layout _ _ _ _ _ _ _ _ _) with (2 := Hsegs).
        intros k Hk. apply in_or_app. now left.
      * apply panic_segment_layout in Hlast.
        eapply Forall_impl; [exact Hlast|]. intros e.
        apply download_layout_weaken. intros k [<-|[]].
        apply in_or_app. right. now left.
      * apply framing_layout, Forall_app. split.
        -- apply removals_framing.
        -- repeat constructor.
Qed.

End Downloads.

(** ** Per-item failures *)

Section PerItemFailures.
Import Go World Lib Obs Layout Scenario Shape.








(** The text file alone does no harm when its download fails: that
    failure is logged like any other and the run exits with status 0. *)
Example short_key_not_downloaded :
  let run := Restore.main notes_unreachable (initial ∅) in
  run.1 = 0
  /\ List.filter (announces restore_marker) (trace run.2)
     = map (announce restore_marker) folder_with_notes
  /\ length (List.filter is_log (trace run.2)) = 1%nat
  /\ length (List.filter is_exec (trace run.2)) = 2%nat.
Proof. repeat split; vm_compute; reflexivity. Qed.

End PerItemFailures.
